(** * The zsh curses module (Src/Modules/curses.c): window registry,
      colour-pair cache, attribute and scroll togglers, key decoder.

    The module's C functions are embedded as Rocq functions over an explicit
    state: the module's static variables ([globals]) together with the state
    of everything outside the module (the curses library, the terminal and
    the shell's parameter table), which is reached only through the
    capability interface [Platform]. *)

From Stdlib Require Import ZArith Ascii String.
From stdpp Require Import gmap strings list pretty.

Open Scope string_scope.
Open Scope list_scope.
Open Scope Z_scope.

(** ** Machine integers *)

(** Conversion to a signed [w]-bit integer, wrap-around written out. *)
Definition wrap_signed (w : Z) (x : Z) : Z :=
  (x + 2 ^ (w - 1)) mod 2 ^ w - 2 ^ (w - 1).

(** [(short)x] and [(int)x]. *)
Definition to_short (x : Z) : Z := wrap_signed 16 x.
Definition to_int (x : Z) : Z := wrap_signed 32 x.

(** A C truth value: [e ? 1 : 0]. *)
Definition c_bool (b : bool) : Z := if b then 1 else 0.

(** ** Constants of curses.c and of <curses.h> *)

(** enum zc_win_flags *)
Definition ZCWF_PERMANENT : Z := 1.
Definition ZCWF_SCROLL : Z := 2.

Definition ZCURSES_EINVALID : Z := 1.
Definition ZCURSES_EDEFINED : Z := 2.
Definition ZCURSES_EUNDEFINED : Z := 3.

Definition ZCURSES_UNUSED : Z := 1.
Definition ZCURSES_USED : Z := 2.

Definition ZCURSES_ATTRON : Z := 1.
Definition ZCURSES_ATTROFF : Z := 2.

(** Return codes of the curses library. *)
Definition OK : Z := 0.
Definition ERR : Z := -1.

(** The eight colour numbers of <curses.h>. *)
Definition COLOR_BLACK : Z := 0.
Definition COLOR_RED : Z := 1.
Definition COLOR_GREEN : Z := 2.
Definition COLOR_YELLOW : Z := 3.
Definition COLOR_BLUE : Z := 4.
Definition COLOR_MAGENTA : Z := 5.
Definition COLOR_CYAN : Z := 6.
Definition COLOR_WHITE : Z := 7.

(** The byte that introduces a meta-quoted character in zsh strings. *)
Definition Meta : ascii := ascii_of_N 131.

(** A [WINDOW *] that is not NULL; NULL is [None] where it can occur. *)
Definition WINDOW : Type := Z.

(** The three outcomes the module distinguishes in the return value of
    [wget_wch]: OK, KEY_CODE_YES, and anything else (ERR included). *)
Inductive wget_status : Type :=
| WGET_OK
| WGET_KEY_CODE_YES
| WGET_ERR.

(** ** What the module needs from outside

    Everything that curses.c calls but does not define.  [World] is the
    state of the terminal library, the tty and the shell; each call takes a
    world and returns its result with the next world.  The constants and
    tables come from <curses.h> and from the generated curses_keys.h.

    Conventions: a curses call that returns an [int] returns it as is, to be
    compared with [OK] or [ERR]; a call that returns a [WINDOW *] returns
    [None] for NULL; a call whose result the module never looks at returns
    the next world only.  [zalloc] stands for [zalloc] and [zshcalloc] and
    says whether the pointer returned is non-NULL, and so does [setsparam].
    [zstrtol] returns the number read and the text left at [endptr];
    [wctomb] returns its count and the bytes it wrote; [save_shttyinfo] is
    [gettyinfo(&shttyinfo)]; [zwarnnam] and [zerrnam] take the command name
    and the formatted message. *)
Class Platform : Type := {
  World : Type;
  ttyinfo : Type;
  (* constants and tables *)
  COLOR_PAIRS : Z;
  KEY_F0 : Z;
  keypad_names : list (string * Z);
  A_BLINK : Z;
  A_BOLD : Z;
  A_DIM : Z;
  A_REVERSE : Z;
  A_STANDOUT : Z;
  A_UNDERLINE : Z;
  HAVE_WGET_WCH : bool;
  (* the curses library *)
  initscr : World -> option WINDOW * World;
  endwin : World -> World;
  start_color : World -> Z * World;
  cbreak : World -> World;
  noecho : World -> World;
  newwin : Z -> Z -> Z -> Z -> World -> option WINDOW * World;
  delwin : WINDOW -> World -> Z * World;
  init_pair : Z -> Z -> Z -> World -> Z * World;
  wcolor_set : WINDOW -> Z -> World -> Z * World;
  wattron : WINDOW -> Z -> World -> World;
  wattroff : WINDOW -> Z -> World -> World;
  scrollok : WINDOW -> bool -> World -> Z * World;
  wscrl : WINDOW -> Z -> World -> Z * World;
  keypad : WINDOW -> bool -> World -> World;
  wget_wch : WINDOW -> World -> (wget_status * Z) * World;
  wgetch : WINDOW -> World -> Z * World;
  (* libc and the shell *)
  atoi : string -> Z;
  zstrtol : string -> Z * string;
  wctomb : Z -> Z * string;
  metafy : string -> Z -> string;
  imeta : Z -> bool;
  tty_zero : ttyinfo;
  gettyinfo : World -> ttyinfo;
  settyinfo : ttyinfo -> World -> World;
  save_shttyinfo : World -> World;
  zalloc : World -> bool * World;
  setsparam : string -> string -> World -> bool * World;
  zwarnnam : string -> string -> World -> World;
  zerrnam : string -> string -> World -> World;
}.

(** ** Strings *)

(** [strchr(s, c)]: the text before the first [c] and the text after it,
    or [None] for a NULL result. *)
Fixpoint strchr (s : string) (c : ascii) : option (string * string) :=
  match s with
  | EmptyString => None
  | String a rest =>
      if Ascii.eqb a c then Some (EmptyString, rest)
      else match strchr rest c with
           | Some (before, after) => Some (String a before, after)
           | None => None
           end
  end.

(** [!strcmp(a, b)] *)
Definition streq (a b : string) : bool := String.eqb a b.

(** [sprintf(buf, "%d", n)] *)
Definition sprintf_d (n : Z) : string := pretty n.

(** ** Name/number tables *)

(** struct zcurses_namenumberpair; a table is the array up to its
    [{NULL, 0}] terminator. *)
Definition zcurses_namenumberpair : Type := (string * Z)%type.

(** The loop shared by the table lookups: the number of the first entry
    whose name equals [s]. *)
Fixpoint nnp_by_name (tbl : list zcurses_namenumberpair) (s : string)
  : option Z :=
  match tbl with
  | [] => None
  | (n, k) :: tbl' => if streq s n then Some k else nnp_by_name tbl' s
  end.

(** The loop of [zccmd_input]: the name of the first entry whose number
    equals [k]. *)
Fixpoint nnp_by_number (tbl : list zcurses_namenumberpair) (k : Z)
  : option string :=
  match tbl with
  | [] => None
  | (n, k') :: tbl' => if Z.eqb k k' then Some n else nnp_by_number tbl' k
  end.

Definition zcurses_colors : list zcurses_namenumberpair :=
  [ ("black", COLOR_BLACK); ("red", COLOR_RED); ("green", COLOR_GREEN);
    ("yellow", COLOR_YELLOW); ("blue", COLOR_BLUE);
    ("magenta", COLOR_MAGENTA); ("cyan", COLOR_CYAN);
    ("white", COLOR_WHITE) ].

(** [zcurses_color]: the colour number as a short, -1 when unknown. *)
Definition zcurses_color (color : string) : Z :=
  match nnp_by_name zcurses_colors color with
  | Some k => to_short k
  | None => to_short (-1)
  end.

(** [zcurses_strerror] *)
Definition zcurses_strerror (err : Z) : string :=
  let errs := [ "unknown error"; "window name invalid";
                "window already defined"; "window undefined" ] in
  nth (Z.to_nat (if (err <? 1) || (3 <? err) then 0 else err)) errs "".

(** ** The module's state *)

(** struct zc_win.  The name is never NULL in a registered window: it is
    always the result of [ztrdup]. *)
Record zc_win : Type := ZCWin {
  win : WINDOW;
  name : string;
  flags : Z;
}.

(** A [LinkNode] of [zcurses_windows]: the position of the node. *)
Abbreviation LinkNode := nat (only parsing).

(** [w->flags & bit] as a truth value. *)
Definition has_flag (fl bit : Z) : bool := negb (Z.eqb (Z.land fl bit) 0).

Section Curses.
Context {P : Platform}.

(** The static variables of curses.c.  [zcurses_colorpairs] is [None] while
    the pointer is NULL; the hash table maps a name to the [colorpair] of
    its node. *)
Record globals : Type := Globals {
  saved_tty_state : ttyinfo;
  curses_tty_state : ttyinfo;
  zcurses_windows : list zc_win;
  zcurses_colorpairs : option (gmap string Z);
  zc_errno : Z;
  zc_color_phase : Z;
  next_cp : Z;
}.

Record state : Type := State {
  glob : globals;
  world : World;
}.

(** The static initialisers, and the list made by [boot_]. *)
Definition globals_init : globals :=
  {| saved_tty_state := tty_zero; curses_tty_state := tty_zero;
     zcurses_windows := []; zcurses_colorpairs := None;
     zc_errno := 0; zc_color_phase := 0; next_cp := 0 |}.

Definition set_saved_tty_state (t : ttyinfo) (g : globals) : globals :=
  Globals t (curses_tty_state g) (zcurses_windows g) (zcurses_colorpairs g)
    (zc_errno g) (zc_color_phase g) (next_cp g).
Definition set_curses_tty_state (t : ttyinfo) (g : globals) : globals :=
  Globals (saved_tty_state g) t (zcurses_windows g) (zcurses_colorpairs g)
    (zc_errno g) (zc_color_phase g) (next_cp g).
Definition set_zcurses_windows (l : list zc_win) (g : globals) : globals :=
  Globals (saved_tty_state g) (curses_tty_state g) l (zcurses_colorpairs g)
    (zc_errno g) (zc_color_phase g) (next_cp g).
Definition set_zcurses_colorpairs (t : option (gmap string Z)) (g : globals)
  : globals :=
  Globals (saved_tty_state g) (curses_tty_state g) (zcurses_windows g) t
    (zc_errno g) (zc_color_phase g) (next_cp g).
Definition set_zc_errno (e : Z) (g : globals) : globals :=
  Globals (saved_tty_state g) (curses_tty_state g) (zcurses_windows g)
    (zcurses_colorpairs g) e (zc_color_phase g) (next_cp g).
Definition set_zc_color_phase (p : Z) (g : globals) : globals :=
  Globals (saved_tty_state g) (curses_tty_state g) (zcurses_windows g)
    (zcurses_colorpairs g) (zc_errno g) p (next_cp g).
Definition set_next_cp (n : Z) (g : globals) : globals :=
  Globals (saved_tty_state g) (curses_tty_state g) (zcurses_windows g)
    (zcurses_colorpairs g) (zc_errno g) (zc_color_phase g) n.

(** ** The monad of the module's functions

    A function reads and writes the static variables, calls the platform,
    and may dereference a NULL pointer: [None] is that crash. *)
Definition M (A : Type) : Type := state -> option (A * state).

#[global] Instance M_ret : MRet M := fun A (a : A) st => Some (a, st).
#[global] Instance M_bind : MBind M := fun A B (f : A -> M B) (m : M A) st =>
  match m st with
  | Some (a, st') => f a st'
  | None => None
  end.

Definition crash {A : Type} : M A := fun _ => None.
Definition get_glob : M globals := fun st => Some (glob st, st).
Definition modify_glob (f : globals -> globals) : M unit :=
  fun st => Some (tt, State (f (glob st)) (world st)).
(** A platform call with a result, and one whose result is not used. *)
Definition call {A : Type} (f : World -> A * World) : M A :=
  fun st => let (a, w') := f (world st) in Some (a, State (glob st) w').
Definition call_ (f : World -> World) : M unit :=
  fun st => Some (tt, State (glob st) (f (world st))).
(** [if (c) stmt;] *)
Definition when (c : bool) (m : M unit) : M unit :=
  if c then m else mret tt.

(** ** Window registry *)

(** The loop of [zcurses_getwindowbyname] over the linked list. *)
Fixpoint find_window (l : list zc_win) (nm : string) : option LinkNode :=
  match l with
  | [] => None
  | w :: l' =>
      if streq (name w) nm then Some 0%nat
      else S <$> find_window l' nm
  end.

Definition zcurses_getwindowbyname (nm : string) : M (option LinkNode) :=
  g ← get_glob;
  mret (find_window (zcurses_windows g) nm).

(** [getdata(node)] for a node of [zcurses_windows]. *)
Definition getdata (node : LinkNode) : M zc_win :=
  g ← get_glob;
  match zcurses_windows g !! node with
  | Some w => mret w
  | None => crash
  end.

(** [zcurses_validate_window]; a NULL [win] is [None]. *)
Definition zcurses_validate_window (win : option string) (criteria : Z)
  : M (option LinkNode) :=
  match win with
  | None => modify_glob (set_zc_errno ZCURSES_EINVALID);; mret None
  | Some nm =>
      if Z.of_nat (String.length nm) <? 1 then
        modify_glob (set_zc_errno ZCURSES_EINVALID);; mret None
      else
        target ← zcurses_getwindowbyname nm;
        if bool_decide (is_Some target) && has_flag criteria ZCURSES_UNUSED
        then modify_glob (set_zc_errno ZCURSES_EDEFINED);; mret None
        else if negb (bool_decide (is_Some target))
                && has_flag criteria ZCURSES_USED
        then modify_glob (set_zc_errno ZCURSES_EUNDEFINED);; mret None
        else modify_glob (set_zc_errno 0);; mret target
  end.

(** ** Colour pairs *)

(** The body of the [if] of [zcurses_colorset], entered in phase 1 or when
    the name has no node: [None] where the source returns 1 from inside the
    block, else the [colorpair] of the node just added.  [addhashnode] on a
    NULL table crashes. *)
Definition colorset_new (nam : string) (colorpair : string) : M (option Z) :=
  modify_glob (set_zc_color_phase 2);;
  match strchr colorpair "/" with
  | None => mret None
  | Some (cp, bg1) =>
      let f := zcurses_color cp in
      let b := zcurses_color bg1 in
      if Z.eqb f (-1) || Z.eqb b (-1) then
        when (Z.eqb f (-1))
          (call_ (zwarnnam nam
                    ("foreground color `" +:+ cp +:+ "' not known")));;
        when (Z.eqb b (-1))
          (call_ (zwarnnam nam
                    ("background color `" +:+ bg1 +:+ "' not known")));;
        mret None
      else
        modify_glob (fun g => set_next_cp (to_short (next_cp g + 1)) g);;
        g ← get_glob;
        if COLOR_PAIRS <=? next_cp g then mret None
        else
          r ← call (init_pair (next_cp g) f b);
          if Z.eqb r ERR then mret None
          else
            ok ← call zalloc;
            if negb ok then mret None
            else
              match zcurses_colorpairs g with
              | None => crash
              | Some tbl =>
                  modify_glob
                    (set_zcurses_colorpairs
                       (Some (<[colorpair := next_cp g]> tbl)));;
                  mret (Some (next_cp g))
              end
  end.

(** [zcurses_colorset].  The table lookup is the right operand of [||]: it
    is not evaluated in phase 1.  [gethashnode] on a NULL table crashes. *)
Definition zcurses_colorset (nam : string) (w : WINDOW) (colorpair : string)
  : M Z :=
  g ← get_glob;
  found ← (if Z.eqb (zc_color_phase g) 1 then mret None
           else match zcurses_colorpairs g with
                | Some tbl => mret (tbl !! colorpair)
                | None => crash
                end);
  cpn ← match found with
        | Some cp => mret (Some cp)
        | None => colorset_new nam colorpair
        end;
  match cpn with
  | None => mret 1
  | Some cp =>
      r ← call (wcolor_set w cp);
      mret (c_bool (Z.eqb r ERR))
  end.

(** ** Subcommands

    A subcommand receives [args], the NULL-terminated array after the
    subcommand name; [args !! i] is [args[i]], and [None] is the NULL at
    (or past) the end.  Using a NULL argument as a string crashes. *)
Definition deref {A : Type} (p : option A) : M A :=
  match p with
  | Some a => mret a
  | None => crash
  end.

(** The diagnostic [zwarnnam(nam, "%s: %s", zcurses_strerror(zc_errno),
    args[0])] of a failed validation. *)
Definition warn_validate (nam : string) (args : list string) : M unit :=
  g ← get_glob;
  a0 ← deref (args !! 0%nat);
  call_ (zwarnnam nam (zcurses_strerror (zc_errno g) +:+ ": " +:+ a0)).

(** [zccmd_init] *)
Definition zccmd_init (nam : string) (args : list string) : M Z :=
  stdscr_win ← zcurses_getwindowbyname "stdscr";
  match stdscr_win with
  | None =>
      ok ← call zalloc;
      if negb ok then mret 1
      else
        t ← call (fun w => (gettyinfo w, w));
        modify_glob (set_saved_tty_state t);;
        h ← call initscr;
        match h with
        | None => mret 1
        | Some h =>
            modify_glob (fun g =>
              set_zcurses_windows
                (zcurses_windows g ++ [ZCWin h "stdscr" ZCWF_PERMANENT]) g);;
            r ← call start_color;
            when (negb (Z.eqb r ERR))
              (modify_glob (fun g =>
                 if Z.eqb (zc_color_phase g) 0 then set_zc_color_phase 1 g
                 else g);;
               modify_glob (set_zcurses_colorpairs (Some ∅)));;
            call_ cbreak;;
            call_ noecho;;
            t ← call (fun w => (gettyinfo w, w));
            modify_glob (set_curses_tty_state t);;
            mret 0
        end
  | Some _ =>
      g ← get_glob;
      call_ (settyinfo (curses_tty_state g));;
      mret 0
  end.

(** [zccmd_addwin] *)
Definition zccmd_addwin (nam : string) (args : list string) : M Z :=
  v ← zcurses_validate_window (args !! 0%nat) ZCURSES_UNUSED;
  g ← get_glob;
  if negb (bool_decide (is_Some v)) && negb (Z.eqb (zc_errno g) 0) then
    a0 ← deref (args !! 0%nat);
    call_ (zerrnam nam (zcurses_strerror (zc_errno g) +:+ ": " +:+ a0));;
    mret 1
  else
    a1 ← deref (args !! 1%nat);
    a2 ← deref (args !! 2%nat);
    a3 ← deref (args !! 3%nat);
    a4 ← deref (args !! 4%nat);
    let nlines := atoi a1 in
    let ncols := atoi a2 in
    let begin_y := atoi a3 in
    let begin_x := atoi a4 in
    ok ← call zalloc;
    if negb ok then mret 1
    else
      a0 ← deref (args !! 0%nat);
      h ← call (newwin nlines ncols begin_y begin_x);
      match h with
      | None => mret 1
      | Some h =>
          modify_glob (fun g =>
            set_zcurses_windows (zcurses_windows g ++ [ZCWin h a0 0]) g);;
          mret 0
      end.

(** [zccmd_delwin].  The test [w == NULL] of the source has no counterpart:
    a registered node always carries a record. *)
Definition zccmd_delwin (nam : string) (args : list string) : M Z :=
  node ← zcurses_validate_window (args !! 0%nat) ZCURSES_USED;
  match node with
  | None => warn_validate nam args;; mret 1
  | Some node =>
      w ← getdata node;
      if has_flag (flags w) ZCWF_PERMANENT then
        a0 ← deref (args !! 0%nat);
        call_ (zwarnnam nam ("window `" +:+ a0 +:+ "' can't be deleted"));;
        mret 1
      else
        r ← call (delwin (win w));
        if negb (Z.eqb r OK) then mret 1
        else
          modify_glob (fun g =>
            set_zcurses_windows (delete node (zcurses_windows g)) g);;
          mret 0
  end.

(** [zccmd_endwin] *)
Definition zccmd_endwin (nam : string) (args : list string) : M Z :=
  stdscr_win ← zcurses_getwindowbyname "stdscr";
  when (bool_decide (is_Some stdscr_win))
    (call_ endwin;;
     g ← get_glob;
     call_ (settyinfo (saved_tty_state g));;
     call_ save_shttyinfo);;
  mret 0.

(** ** Attributes *)

Definition zcurses_attributes : list zcurses_namenumberpair :=
  [ ("blink", A_BLINK); ("bold", A_BOLD); ("dim", A_DIM);
    ("reverse", A_REVERSE); ("standout", A_STANDOUT);
    ("underline", A_UNDERLINE) ].

(** [zcurses_attribute]; the results of [wattron] and [wattroff] are not
    looked at. *)
Definition zcurses_attribute (w : WINDOW) (attr : option string) (op : Z)
  : M Z :=
  match attr with
  | None => mret 1
  | Some attr =>
      match nnp_by_name zcurses_attributes attr with
      | Some number =>
          (if Z.eqb op ZCURSES_ATTRON then call_ (wattron w number)
           else if Z.eqb op ZCURSES_ATTROFF then call_ (wattroff w number)
           else mret tt);;
          mret 0
      | None => mret 1
      end
  end.

(** The [switch] on the first character of a token: the operation and the
    attribute name that follows the sign. *)
Definition attr_sign (tok : string) : Z * string :=
  match tok with
  | String c rest =>
      if Ascii.eqb c "-" then (ZCURSES_ATTROFF, rest)
      else if Ascii.eqb c "+" then (ZCURSES_ATTRON, rest)
      else (ZCURSES_ATTRON, tok)
  | EmptyString => (ZCURSES_ATTRON, tok)
  end.

(** The body of the [for] loop of [zccmd_attr] for one token: the value of
    [ret] after it. *)
Definition attr_body (nam : string) (w : WINDOW) (tok : string) (ret : Z)
  : M Z :=
  if bool_decide (is_Some (strchr tok "/")) then
    r ← zcurses_colorset nam w tok;
    mret (if Z.eqb r 0 then ret else 1)
  else
    let '(onoff, ptr) := attr_sign tok in
    r ← zcurses_attribute w (Some ptr) onoff;
    if Z.eqb r 0 then mret ret
    else
      call_ (zwarnnam nam ("attribute `" +:+ ptr +:+ "' not known"));;
      mret 1.

(** The [for] loop of [zccmd_attr]. *)
Fixpoint attr_loop (nam : string) (w : WINDOW) (attrs : list string) (ret : Z)
  : M Z :=
  match attrs with
  | [] => mret ret
  | tok :: attrs' =>
      ret' ← attr_body nam w tok ret;
      attr_loop nam w attrs' ret'
  end.

(** [zccmd_attr] *)
Definition zccmd_attr (nam : string) (args : list string) : M Z :=
  match args !! 0%nat with
  | None => mret 1
  | Some _ =>
      node ← zcurses_validate_window (args !! 0%nat) ZCURSES_USED;
      match node with
      | None => warn_validate nam args;; mret 1
      | Some node =>
          w ← getdata node;
          attr_loop nam (win w) (drop 1 args) 0
      end
  end.

(** ** Scrolling *)

(** [w->flags = fl] for the record of [node]. *)
Definition set_flags (node : LinkNode) (fl : Z) : M unit :=
  modify_glob (fun g =>
    set_zcurses_windows
      (alter (fun w => ZCWin (win w) (name w) fl) node (zcurses_windows g))
      g).

(** [zccmd_scroll] *)
Definition zccmd_scroll (nam : string) (args : list string) : M Z :=
  node ← zcurses_validate_window (args !! 0%nat) ZCURSES_USED;
  match node with
  | None => warn_validate nam args;; mret 1
  | Some node =>
      w ← getdata node;
      a1 ← deref (args !! 1%nat);
      if streq a1 "on" then
        r ← call (scrollok (win w) true);
        if Z.eqb r ERR then mret 1
        else set_flags node (Z.lor (flags w) ZCWF_SCROLL);; mret 0
      else if streq a1 "off" then
        r ← call (scrollok (win w) false);
        if Z.eqb r ERR then mret 1
        else
          set_flags node (Z.land (flags w) (Z.lnot ZCWF_SCROLL));; mret 0
      else
        let '(sl, endptr) := zstrtol a1 in
        if negb (streq endptr "") then
          call_ (zwarnnam nam
                   ("scroll requires `on', `off' or integer: " +:+ a1));;
          mret 1
        else
          when (negb (has_flag (flags w) ZCWF_SCROLL))
            (call (scrollok (win w) true);; mret tt);;
          r ← call (wscrl (win w) (to_int sl));
          when (negb (has_flag (flags w) ZCWF_SCROLL))
            (call (scrollok (win w) false);; mret tt);;
          mret (if Z.eqb r ERR then 1 else 0)
  end.

(** ** Key input *)

(** [(char)c] *)
Definition char_of (c : Z) : ascii := ascii_of_N (Z.to_N (c mod 256)).

(** The C string held by a buffer: the characters before the first NUL. *)
Fixpoint c_string (buf : string) : string :=
  match buf with
  | EmptyString => EmptyString
  | String a rest =>
      if Ascii.eqb a zero then EmptyString else String a (c_string rest)
  end.

(** The read of [zccmd_input]: [None] when the handler returns 1 at once,
    else the buffer [instr] and [keypadnum].  The two variants are the two
    sides of [#ifdef HAVE_WGET_WCH]. *)
Definition input_read (w : WINDOW) : M (option (string * Z)) :=
  if HAVE_WGET_WCH then
    '(status, wi) ← call (wget_wch w);
    match status with
    | WGET_OK =>
        let '(ret, bytes) := wctomb wi in
        if Z.eqb ret 0 then
          mret (Some (String Meta (String (char_of (Z.lxor 0 32))
                                     (String zero EmptyString)), -1))
        else mret (Some (metafy bytes ret, -1))
    | WGET_KEY_CODE_YES => mret (Some (String zero EmptyString, to_int wi))
    | WGET_ERR => mret None
    end
  else
    ci ← call (wgetch w);
    if Z.eqb ci ERR then mret None
    else if 256 <=? ci then mret (Some (String zero EmptyString, ci))
    else if imeta ci then
      mret (Some (String Meta (String (char_of (Z.lxor ci 32))
                                 (String zero EmptyString)), -1))
    else mret (Some (String (char_of ci) (String zero EmptyString), -1)).

(** The name written for a key code that is not in [keypad_names]. *)
Definition keypad_fallback (keypadnum : Z) : string :=
  if KEY_F0 <? keypadnum then "F" +:+ sprintf_d (to_int (keypadnum - KEY_F0))
  else sprintf_d keypadnum.

(** [zccmd_input] *)
Definition zccmd_input (nam : string) (args : list string) : M Z :=
  node ← zcurses_validate_window (args !! 0%nat) ZCURSES_USED;
  match node with
  | None => warn_validate nam args;; mret 1
  | Some node =>
      w ← getdata node;
      let both :=
        bool_decide (is_Some (args !! 1%nat))
        && bool_decide (is_Some (args !! 2%nat)) in
      call_ (keypad (win w) both);;
      rd ← input_read (win w);
      match rd with
      | None => mret 1
      | Some (instr, keypadnum) =>
          let var := default "REPLY" (args !! 1%nat) in
          ok ← call (setsparam var (c_string instr));
          if negb ok then mret 1
          else if both then
            a2 ← deref (args !! 2%nat);
            if 0 <? keypadnum then
              match nnp_by_number keypad_names keypadnum with
              | Some nm =>
                  ok ← call (setsparam a2 nm);
                  if negb ok then mret 1 else mret 0
              | None =>
                  ok ← call (setsparam a2 (keypad_fallback keypadnum));
                  if negb ok then mret 1 else mret 0
              end
            else
              ok ← call (setsparam a2 "");
              if negb ok then mret 1 else mret 0
          else mret 0
      end
  end.

(** ** Runs of the module *)

(** [f] on each element in turn, left to right. *)
Fixpoint mapM {A B : Type} (f : A -> M B) (l : list A) : M (list B) :=
  match l with
  | [] => mret []
  | a :: l' =>
      b ← f a;
      bs ← mapM f l';
      mret (b :: bs)
  end.

(** A series of colour requests on one window, with the return value of
    each. *)
Definition resolve_all (nam : string) (w : WINDOW) (keys : list string)
  : M (list Z) :=
  mapM (zcurses_colorset nam w) keys.

(** One token of [zccmd_attr] on its own, and whether it fails: a token
    with a '/' fails when [zcurses_colorset] returns non-zero, any other
    token when [zcurses_attribute] does, that is, when the name after the
    sign is not an attribute name. *)
Definition token_fails (nam : string) (w : WINDOW) (tok : string) : M bool :=
  if bool_decide (is_Some (strchr tok "/")) then
    r ← zcurses_colorset nam w tok;
    mret (negb (Z.eqb r 0))
  else
    let '(onoff, ptr) := attr_sign tok in
    r ← zcurses_attribute w (Some ptr) onoff;
    if Z.eqb r 0 then mret false
    else
      call_ (zwarnnam nam ("attribute `" +:+ ptr +:+ "' not known"));;
      mret true.

(** What one call into the module does to its state.  The subcommands that
    are embedded above are called as such; [A_colorset] is a colour request
    (made from the loop of [zccmd_attr]); [A_other] stands for a call of one
    of the other subcommands (refresh, move, clear, position, char, string,
    border), which assign no static variable but [zc_errno], through
    [zcurses_validate_window], and otherwise act on the platform only. *)
Inductive action : Type :=
| A_init (nam : string) (args : list string)
| A_addwin (nam : string) (args : list string)
| A_delwin (nam : string) (args : list string)
| A_endwin (nam : string) (args : list string)
| A_attr (nam : string) (args : list string)
| A_scroll (nam : string) (args : list string)
| A_input (nam : string) (args : list string)
| A_colorset (nam : string) (w : WINDOW) (colorpair : string)
| A_other (ret : Z) (errno' : Z) (world' : World).

Definition perform (a : action) : M Z :=
  match a with
  | A_init nam args => zccmd_init nam args
  | A_addwin nam args => zccmd_addwin nam args
  | A_delwin nam args => zccmd_delwin nam args
  | A_endwin nam args => zccmd_endwin nam args
  | A_attr nam args => zccmd_attr nam args
  | A_scroll nam args => zccmd_scroll nam args
  | A_input nam args => zccmd_input nam args
  | A_colorset nam w colorpair => zcurses_colorset nam w colorpair
  | A_other ret errno' world' =>
      fun st => Some (ret, State (set_zc_errno errno' (glob st)) world')
  end.

(** [steps st tr st']: the calls of [tr], each with its return value, take
    the module from [st] to [st']. *)
Inductive steps : state -> list (action * Z) -> state -> Prop :=
| steps_nil st : steps st [] st
| steps_cons st a r st1 tr st2 :
    perform a st = Some (r, st1) ->
    steps st1 tr st2 ->
    steps st ((a, r) :: tr) st2.

(** A script of calls, run in order, with the return value of each. *)
Definition run (script : list action) : M (list Z) := mapM perform script.

(** A successful [delwin] of the window named [n]. *)
Definition destroys (n : string) (ar : action * Z) : Prop :=
  exists nam args, ar = (A_delwin nam args, 0) /\ args !! 0%nat = Some n.

(** A session has been started: the window found under the name "stdscr" is
    the permanent one made by [zccmd_init]. *)
Definition session_started (g : globals) : Prop :=
  exists node w,
    find_window (zcurses_windows g) "stdscr" = Some node /\
    zcurses_windows g !! node = Some w /\
    has_flag (flags w) ZCWF_PERMANENT = true.

(** ** Colour requests that can be served *)

(** A name [fg/bg] whose two sides are in [zcurses_colors]. *)
Definition valid_colorpair (colorpair : string) : bool :=
  match strchr colorpair "/" with
  | None => false
  | Some (cp, bg1) =>
      negb (Z.eqb (zcurses_color cp) (-1))
      && negb (Z.eqb (zcurses_color bg1) (-1))
  end.

(** Every name [fg/bg] made of two names of [zcurses_colors]. *)
Definition all_colorpairs : list string :=
  f ← zcurses_colors.*1; b ← zcurses_colors.*1; [f +:+ "/" +:+ b].

(** The pair numbers still to be handed out: those after [next_cp] and
    below [COLOR_PAIRS]. *)
Definition pairs_left (g : globals) : Z :=
  Z.max 0 (COLOR_PAIRS - 1 - next_cp g).

(** [colorpair] has a node with pair [p], and the table is consulted. *)
Definition cached (g : globals) (colorpair : string) (p : Z) : Prop :=
  zc_color_phase g <> 1 /\
  exists tbl, zcurses_colorpairs g = Some tbl /\ tbl !! colorpair = Some p.

(** The request enters the block of [zcurses_colorset] that defines a new
    pair: it is the first since colour was enabled, or the name has no
    node. *)
Definition enters_block (g : globals) (colorpair : string) : Prop :=
  zc_color_phase g = 1 \/
  exists tbl, zcurses_colorpairs g = Some tbl /\ tbl !! colorpair = None.

(** How the phase goes with the table in every state the module reaches
    (see [steps_untouched_colour]): before colour is enabled there is no
    table, and in phase 1 the table is empty and the counter is 0. *)
Definition untouched_colour (g : globals) : Prop :=
  (zc_color_phase g = 0 -> zcurses_colorpairs g = None /\ next_cp g = 0) /\
  (zc_color_phase g = 1 -> zcurses_colorpairs g = Some ∅ /\ next_cp g = 0).

(** The three variables of the colour-pair cache are the same in [g']. *)
Definition same_colour (g g' : globals) : Prop :=
  zc_color_phase g' = zc_color_phase g /\
  zcurses_colorpairs g' = zcurses_colorpairs g /\
  next_cp g' = next_cp g.

(** The platform never rejects a pair definition nor a node allocation. *)
Definition accepts_pairs : Prop :=
  (forall p f b w, fst (init_pair p f b w) <> ERR) /\
  (forall w, fst (zalloc w) = true).

End Curses.

(** ** A scripted platform

    A concrete [Platform] on which the module runs by computation.  Its
    world is the log of the calls made so far; [sc_fails] says which calls
    the platform rejects, [sc_key] is what the next read returns. *)
Inductive event : Type :=
| Ev_initscr
| Ev_endwin
| Ev_start_color
| Ev_cbreak
| Ev_noecho
| Ev_newwin (nlines ncols begin_y begin_x : Z)
| Ev_delwin (w : WINDOW)
| Ev_init_pair (pair f b : Z)
| Ev_wcolor_set (w : WINDOW) (pair : Z)
| Ev_wattron (w : WINDOW) (a : Z)
| Ev_wattroff (w : WINDOW) (a : Z)
| Ev_scrollok (w : WINDOW) (bf : bool)
| Ev_wscrl (w : WINDOW) (n : Z)
| Ev_keypad (w : WINDOW) (bf : bool)
| Ev_read (w : WINDOW)
| Ev_settyinfo
| Ev_save_shttyinfo
| Ev_zalloc
| Ev_setsparam (var val : string)
| Ev_zwarnnam (nam msg : string)
| Ev_zerrnam (nam msg : string).

Record script : Type := Script {
  sc_fails : event -> bool;
  sc_key : wget_status * Z;
  sc_COLOR_PAIRS : Z;
  sc_KEY_F0 : Z;
  sc_keypad_names : list (string * Z);
  sc_wide : bool;
}.

(** Decimal digits at the head of a string, for the scripted [atoi] and
    [zstrtol]: the value read and the text left. *)
Fixpoint read_digits (s : string) (acc : Z) : Z * string :=
  match s with
  | String a rest =>
      let d := Z.of_N (N_of_ascii a) - 48 in
      if (0 <=? d) && (d <=? 9) then read_digits rest (10 * acc + d)
      else (acc, s)
  | EmptyString => (acc, s)
  end.

Definition read_int (s : string) : Z * string :=
  match s with
  | String a rest =>
      if Ascii.eqb a "-" then
        let '(n, r) := read_digits rest 0 in (- n, r)
      else read_digits s 0
  | EmptyString => (0, s)
  end.

(** A call that returns OK or ERR. *)
Definition sc_status (sc : script) (e : event) (w : list event)
  : Z * list event :=
  (if sc_fails sc e then ERR else OK, w ++ [e]).

Definition scripted (sc : script) : Platform := {|
  World := list event;
  ttyinfo := unit;
  COLOR_PAIRS := sc_COLOR_PAIRS sc;
  KEY_F0 := sc_KEY_F0 sc;
  keypad_names := sc_keypad_names sc;
  A_BLINK := 524288;
  A_BOLD := 2097152;
  A_DIM := 1048576;
  A_REVERSE := 262144;
  A_STANDOUT := 65536;
  A_UNDERLINE := 131072;
  HAVE_WGET_WCH := sc_wide sc;
  initscr := fun w =>
    (if sc_fails sc Ev_initscr then None else Some (Z.of_nat (length w)),
     w ++ [Ev_initscr]);
  endwin := fun w => w ++ [Ev_endwin];
  start_color := sc_status sc Ev_start_color;
  cbreak := fun w => w ++ [Ev_cbreak];
  noecho := fun w => w ++ [Ev_noecho];
  newwin := fun nl nc y x w =>
    (if sc_fails sc (Ev_newwin nl nc y x) then None
     else Some (Z.of_nat (length w)),
     w ++ [Ev_newwin nl nc y x]);
  delwin := fun h => sc_status sc (Ev_delwin h);
  init_pair := fun p f b => sc_status sc (Ev_init_pair p f b);
  wcolor_set := fun h p => sc_status sc (Ev_wcolor_set h p);
  wattron := fun h a w => w ++ [Ev_wattron h a];
  wattroff := fun h a w => w ++ [Ev_wattroff h a];
  scrollok := fun h bf => sc_status sc (Ev_scrollok h bf);
  wscrl := fun h n => sc_status sc (Ev_wscrl h n);
  keypad := fun h bf w => w ++ [Ev_keypad h bf];
  wget_wch := fun h w => (sc_key sc, w ++ [Ev_read h]);
  wgetch := fun h w => (snd (sc_key sc), w ++ [Ev_read h]);
  atoi := fun s => fst (read_int s);
  zstrtol := read_int;
  wctomb := fun wi => (1, String (ascii_of_N (Z.to_N (wi mod 256)))
                            (String zero EmptyString));
  metafy := fun s _ => s;
  imeta := fun c => (c <? 32) || (131 <=? c);
  tty_zero := tt;
  gettyinfo := fun _ => tt;
  settyinfo := fun _ w => w ++ [Ev_settyinfo];
  save_shttyinfo := fun w => w ++ [Ev_save_shttyinfo];
  zalloc := fun w => (negb (sc_fails sc Ev_zalloc), w ++ [Ev_zalloc]);
  setsparam := fun var val w =>
    (negb (sc_fails sc (Ev_setsparam var val)), w ++ [Ev_setsparam var val]);
  zwarnnam := fun nam msg w => w ++ [Ev_zwarnnam nam msg];
  zerrnam := fun nam msg w => w ++ [Ev_zerrnam nam msg];
|}.

(** A platform that accepts every call, with eight colour pairs, the
    function-key base of ncurses and a keypad table of four arrow keys. *)
Definition plain_script : script :=
  {| sc_fails := fun _ => false;
     sc_key := (WGET_OK, 97);
     sc_COLOR_PAIRS := 8;
     sc_KEY_F0 := 264;
     sc_keypad_names :=
       [("DOWN", 258); ("UP", 259); ("LEFT", 260); ("RIGHT", 261)];
     sc_wide := true |}.

(** ** Concrete runs *)

Definition plain : Platform := scripted plain_script.

(** The plain platform, except that it rejects the calls picked by [f]. *)
Definition rejecting (f : event -> bool) : Platform :=
  scripted (Script f (sc_key plain_script) (sc_COLOR_PAIRS plain_script)
              (sc_KEY_F0 plain_script) (sc_keypad_names plain_script)
              (sc_wide plain_script)).

(** The plain platform with a pending key event. *)
Definition with_key (key : wget_status * Z) : Platform :=
  scripted (Script (sc_fails plain_script) key (sc_COLOR_PAIRS plain_script)
              (sc_KEY_F0 plain_script) (sc_keypad_names plain_script)
              (sc_wide plain_script)).

Definition is_delwin (e : event) : bool :=
  match e with Ev_delwin _ => true | _ => false end.

(** The log of a platform on which nothing has been called yet. *)
Definition no_calls : list event := [].

(** The state when the module has just been loaded. *)
Definition boot {P : Platform} (w : World) : state :=
  State globals_init w.

(** The state a call leaves behind. *)
Definition after {P : Platform} {A : Type} (m : M A) (st : state) : state :=
  match m st with
  | Some (_, st') => st'
  | None => st
  end.

(** A started session with one more window, "w". *)
Definition session_w {P : Platform} (w : World) : state :=
  after (zccmd_addwin "zcurses" ["w"; "10"; "40"; "0"; "0"])
    (after (zccmd_init "zcurses" []) (boot w)).

(** The same on the plain platform. *)
Definition plain_session : @state plain :=
  after (zccmd_init "zcurses" []) (boot (P := plain) no_calls).

Definition plain_session_w : @state plain :=
  session_w (P := plain) no_calls.

(** A started session on the platform with a pending key event. *)
Definition key_session (key : wget_status * Z) : @state (with_key key) :=
  after (zccmd_init "zcurses" []) (boot (P := with_key key) no_calls).

(** The started session with a colour table that already holds a node for
    "red/black", and the counter at [c]: phase 1 with an entry in the
    table. *)
Definition stale_session (c : Z) : @state plain :=
  State (set_next_cp c
           (set_zcurses_colorpairs (Some {["red/black" := 5]})
              (glob plain_session)))
    (world plain_session).

(** Nine distinct colour names; the plain platform has room for seven. *)
Definition nine_pairs : list string :=
  [ "red/black"; "green/black"; "yellow/black"; "blue/black";
    "magenta/black"; "cyan/black"; "white/black"; "black/white";
    "red/white" ].

(** The plain platform just loaded, and a platform without colour support
    just loaded. *)
Definition plain_boot : @state plain := boot (P := plain) no_calls.

Definition is_start_color (e : event) : bool :=
  match e with Ev_start_color => true | _ => false end.

Definition monochrome_boot : @state (rejecting is_start_color) :=
  boot (P := rejecting is_start_color) no_calls.

(** The diagnostics in a log. *)
Definition is_diagnostic (e : event) : bool :=
  match e with
  | Ev_zwarnnam _ _ | Ev_zerrnam _ _ => true
  | _ => false
  end.

(** * The rest of curses.c

    ** What the remaining subcommands need from outside

    The platform calls of the subcommands refresh, move, clear, char,
    string, border and position, and the constant [COLORS].  The two
    booleans are the configuration macros of the same names; [refresh_curscr]
    is [wrefresh(curscr)]; [wborder] is the call with its eight zeros;
    [mbrtowc] returns its [size_t] result (as the non-negative number it is)
    and the wide character stored; [setcchar] returns its status and the
    [cchar_t] filled in; [mb_metacharlenconv] returns its result and the
    [wint_t] stored; [waddch] receives [args[1][0]], the conversion to
    [chtype] being the platform's; [getyx], [getbegyx] and [getmaxyx]
    return the value the macro is compared to ERR with, and the two
    numbers. *)
Class Terminal {P : Platform} : Type := {
  HAVE_SETCCHAR : bool;
  HAVE_WADDWSTR : bool;
  COLORS : Z;
  WEOF : Z;
  cchar_t : Type;
  wrefresh : WINDOW -> World -> Z * World;
  refresh_curscr : World -> Z * World;
  wmove : WINDOW -> Z -> Z -> World -> Z * World;
  werase : WINDOW -> World -> Z * World;
  wclear : WINDOW -> World -> Z * World;
  wclrtoeol : WINDOW -> World -> Z * World;
  wclrtobot : WINDOW -> World -> Z * World;
  wborder : WINDOW -> World -> Z * World;
  mbrtowc : string -> World -> (Z * Z) * World;
  setcchar : Z -> Z * cchar_t;
  wadd_wch : WINDOW -> cchar_t -> World -> Z * World;
  waddch : WINDOW -> ascii -> World -> Z * World;
  mb_metacharinit : World -> World;
  mb_metacharlenconv : string -> World -> (Z * Z) * World;
  waddwstr : WINDOW -> list Z -> World -> Z * World;
  waddstr : WINDOW -> string -> World -> Z * World;
  getyx : WINDOW -> World -> (Z * (Z * Z)) * World;
  getbegyx : WINDOW -> World -> (Z * (Z * Z)) * World;
  getmaxyx : WINDOW -> World -> (Z * (Z * Z)) * World;
  setaparam : string -> list string -> World -> World;
}.

Section Rest.
Context {P : Platform} {T : Terminal}.

(** ** Reflection *)

(** [zcurses_pairs_to_array]: the names of a table, in table order. *)
Fixpoint zcurses_pairs_to_array (nnps : list zcurses_namenumberpair)
  : list string :=
  match nnps with
  | [] => []
  | (n, _) :: nnps' => n :: zcurses_pairs_to_array nnps'
  end.

Definition zcurses_colorsarrgetfn : list string :=
  zcurses_pairs_to_array zcurses_colors.

Definition zcurses_attrgetfn : list string :=
  zcurses_pairs_to_array zcurses_attributes.

(** The loop of [zcurses_windowsgetfn] over the linked list. *)
Fixpoint window_names (l : list zc_win) : list string :=
  match l with
  | [] => []
  | w :: l' => name w :: window_names l'
  end.

Definition zcurses_windowsgetfn : M (list string) :=
  g ← get_glob;
  mret (window_names (zcurses_windows g)).

Definition zcurses_colorsintgetfn : Z := COLORS.

Definition zcurses_colorpairsintgetfn : Z := COLOR_PAIRS.

(** ** The remaining subcommands *)

(** [e != OK], as the [int] returned. *)
Definition not_ok (r : Z) : Z := c_bool (negb (Z.eqb r OK)).

(** [zccmd_refresh] *)
Definition zccmd_refresh (nam : string) (args : list string) : M Z :=
  match args !! 0%nat with
  | Some _ =>
      node ← zcurses_validate_window (args !! 0%nat) ZCURSES_USED;
      match node with
      | None => warn_validate nam args;; mret 1
      | Some node =>
          w ← getdata node;
          r ← call (wrefresh (win w));
          mret (not_ok r)
      end
  | None =>
      r ← call refresh_curscr;
      mret (not_ok r)
  end.

(** [zccmd_move] *)
Definition zccmd_move (nam : string) (args : list string) : M Z :=
  node ← zcurses_validate_window (args !! 0%nat) ZCURSES_USED;
  match node with
  | None => warn_validate nam args;; mret 1
  | Some node =>
      a1 ← deref (args !! 1%nat);
      a2 ← deref (args !! 2%nat);
      let y := atoi a1 in
      let x := atoi a2 in
      w ← getdata node;
      r ← call (wmove (win w) y x);
      if negb (Z.eqb r OK) then mret 1 else mret 0
  end.

(** [zccmd_clear] *)
Definition zccmd_clear (nam : string) (args : list string) : M Z :=
  node ← zcurses_validate_window (args !! 0%nat) ZCURSES_USED;
  match node with
  | None => warn_validate nam args;; mret 1
  | Some node =>
      w ← getdata node;
      match args !! 1%nat with
      | None => r ← call (werase (win w)); mret (not_ok r)
      | Some a1 =>
          if streq a1 "redraw" then
            r ← call (wclear (win w)); mret (not_ok r)
          else if streq a1 "eol" then
            r ← call (wclrtoeol (win w)); mret (not_ok r)
          else if streq a1 "bot" then
            r ← call (wclrtobot (win w)); mret (not_ok r)
          else
            call_ (zwarnnam nam "`clear' expects `redraw', `eol' or `bot'");;
            mret 1
      end
  end.

(** [args[1][0]]: the first character of a C string, NUL when it is
    empty. *)
Definition first_char (s : string) : ascii :=
  match s with
  | String a _ => a
  | EmptyString => zero
  end.

(** [zccmd_char], in its two variants. *)
Definition zccmd_char (nam : string) (args : list string) : M Z :=
  node ← zcurses_validate_window (args !! 0%nat) ZCURSES_USED;
  match node with
  | None => warn_validate nam args;; mret 1
  | Some node =>
      w ← getdata node;
      a1 ← deref (args !! 1%nat);
      if HAVE_SETCCHAR then
        '(len, c) ← call (mbrtowc a1);
        if len <? 1 then mret 1
        else
          let '(r, cc) := setcchar c in
          if Z.eqb r ERR then mret 1
          else
            r ← call (wadd_wch (win w) cc);
            if negb (Z.eqb r OK) then mret 1 else mret 0
      else
        r ← call (waddch (win w) (first_char a1));
        if negb (Z.eqb r OK) then mret 1 else mret 0
  end.

(** [str + n] for a pointer into a C string. *)
Fixpoint skip (n : nat) (str : string) : string :=
  match n, str with
  | O, _ => str
  | S n', String _ str' => skip n' str'
  | S _, EmptyString => EmptyString
  end.

(** [str += clen]: the rest of the string after [clen] bytes; stepping
    outside the string is an out-of-bounds access. *)
Definition advance (clen : Z) (str : string) : option string :=
  if (1 <=? clen) && (clen <=? Z.of_nat (String.length str)) then
    Some (skip (Z.to_nat clen) str)
  else None.

(** The [while] loop of [zccmd_string]: the wide characters stored through
    [wptr], given those stored so far.  Each round takes at least one byte,
    so [fuel] rounds are enough for a string of [fuel] bytes. *)
Fixpoint string_loop (fuel : nat) (str : string) (wstr : list Z)
  : M (list Z) :=
  match fuel with
  | O => mret wstr
  | S fuel' =>
      match str with
      | EmptyString => mret wstr
      | _ =>
          '(clen, wc) ← call (mb_metacharlenconv str);
          if Z.eqb clen 0 then mret wstr
          else
            str' ← deref (advance clen str);
            if Z.eqb wc WEOF then string_loop fuel' str' wstr
            else string_loop fuel' str' (wstr ++ [wc])
      end
  end.

(** [zccmd_string], in its two variants. *)
Definition zccmd_string (nam : string) (args : list string) : M Z :=
  node ← zcurses_validate_window (args !! 0%nat) ZCURSES_USED;
  match node with
  | None => warn_validate nam args;; mret 1
  | Some node =>
      w ← getdata node;
      a1 ← deref (args !! 1%nat);
      if HAVE_WADDWSTR then
        call_ mb_metacharinit;;
        wstr ← string_loop (String.length a1) a1 [];
        r ← call (waddwstr (win w) wstr);
        if negb (Z.eqb r OK) then mret 1 else mret 0
      else
        r ← call (waddstr (win w) a1);
        if negb (Z.eqb r OK) then mret 1 else mret 0
  end.

(** [zccmd_border] *)
Definition zccmd_border (nam : string) (args : list string) : M Z :=
  node ← zcurses_validate_window (args !! 0%nat) ZCURSES_USED;
  match node with
  | None => warn_validate nam args;; mret 1
  | Some node =>
      w ← getdata node;
      r ← call (wborder (win w));
      if negb (Z.eqb r OK) then mret 1 else mret 0
  end.

(** [zccmd_position]; the three macros are the operands of [||]. *)
Definition zccmd_position (nam : string) (args : list string) : M Z :=
  node ← zcurses_validate_window (args !! 0%nat) ZCURSES_USED;
  match node with
  | None => warn_validate nam args;; mret 1
  | Some node =>
      w ← getdata node;
      '(r0, (i0, i1)) ← call (getyx (win w));
      if Z.eqb r0 ERR then mret 1
      else
        '(r1, (i2, i3)) ← call (getbegyx (win w));
        if Z.eqb r1 ERR then mret 1
        else
          '(r2, (i4, i5)) ← call (getmaxyx (win w));
          if Z.eqb r2 ERR then mret 1
          else
            a1 ← deref (args !! 1%nat);
            call_ (setaparam a1
                     (sprintf_d <$> [i0; i1; i2; i3; i4; i5]));;
            mret 0
  end.

(** ** The builtin *)

(** The handlers, to tell them apart as the source compares the function
    pointers. *)
Inductive zccmd_t : Type :=
| Zc_init | Zc_addwin | Zc_delwin | Zc_refresh | Zc_move | Zc_clear
| Zc_position | Zc_char | Zc_string | Zc_border | Zc_endwin | Zc_attr
| Zc_scroll | Zc_input.

Definition zccmd_fn (c : zccmd_t) : string -> list string -> M Z :=
  match c with
  | Zc_init => zccmd_init
  | Zc_addwin => zccmd_addwin
  | Zc_delwin => zccmd_delwin
  | Zc_refresh => zccmd_refresh
  | Zc_move => zccmd_move
  | Zc_clear => zccmd_clear
  | Zc_position => zccmd_position
  | Zc_char => zccmd_char
  | Zc_string => zccmd_string
  | Zc_border => zccmd_border
  | Zc_endwin => zccmd_endwin
  | Zc_attr => zccmd_attr
  | Zc_scroll => zccmd_scroll
  | Zc_input => zccmd_input
  end.

(** struct zcurses_subcommand *)
Record zcurses_subcommand : Type := Subcommand {
  zs_name : string;
  zs_cmd : zccmd_t;
  zs_minargs : Z;
  zs_maxargs : Z;
}.

(** The table [scs] of [bin_zcurses]. *)
Definition scs : list zcurses_subcommand :=
  [ Subcommand "init" Zc_init 0 0;
    Subcommand "addwin" Zc_addwin 5 5;
    Subcommand "delwin" Zc_delwin 1 1;
    Subcommand "refresh" Zc_refresh 0 1;
    Subcommand "move" Zc_move 3 3;
    Subcommand "clear" Zc_clear 1 2;
    Subcommand "position" Zc_position 2 2;
    Subcommand "char" Zc_char 2 2;
    Subcommand "string" Zc_string 2 2;
    Subcommand "border" Zc_border 1 1;
    Subcommand "end" Zc_endwin 0 0;
    Subcommand "attr" Zc_attr 2 (-1);
    Subcommand "scroll" Zc_scroll 2 2;
    Subcommand "input" Zc_input 1 3 ].

(** The search loop of [bin_zcurses]. *)
Fixpoint find_subcommand (tbl : list zcurses_subcommand) (a0 : string)
  : option zcurses_subcommand :=
  match tbl with
  | [] => None
  | zcsc :: tbl' =>
      if streq a0 (zs_name zcsc) then Some zcsc
      else find_subcommand tbl' a0
  end.

(** [cmd != zccmd_init && cmd != zccmd_endwin] *)
Definition needs_session (c : zccmd_t) : bool :=
  match c with
  | Zc_init | Zc_endwin => false
  | _ => true
  end.

(** [bin_zcurses]; [args] starts with the subcommand name. *)
Definition bin_zcurses (nam : string) (args : list string) : M Z :=
  a0 ← deref (args !! 0%nat);
  match find_subcommand scs a0 with
  | None =>
      call_ (zwarnnam nam ("unknown subcommand: " +:+ a0));;
      mret 1
  | Some zcsc =>
      let num_args := Z.of_nat (length args) - 1 in
      if num_args <? zs_minargs zcsc then
        call_ (zwarnnam nam ("too few arguments for subcommand: " +:+ a0));;
        mret 1
      else if (0 <=? zs_maxargs zcsc) && (zs_maxargs zcsc <? num_args) then
        call_ (zwarnnam nam ("too may arguments for subcommand: " +:+ a0));;
        mret 1
      else
        stdscr_win ← zcurses_getwindowbyname "stdscr";
        if needs_session (zs_cmd zcsc)
           && negb (bool_decide (is_Some stdscr_win))
        then
          call_ (zwarnnam nam
                   ("command `" +:+ zs_name zcsc
                    +:+ "' can't be used before `zcurses init'"));;
          mret 1
        else zccmd_fn (zs_cmd zcsc) nam (drop 1 args)
  end.

(** A series of [zcurses] commands, each with its return value. *)
Inductive commands : state -> list (list string * Z) -> state -> Prop :=
| commands_nil st : commands st [] st
| commands_cons st nam args r st1 tr st2 :
    bin_zcurses nam args st = Some (r, st1) ->
    commands st1 tr st2 ->
    commands st ((args, r) :: tr) st2.

End Rest.

(** ** The scripted platform as a terminal

    The calls of [Terminal] succeed and are not logged.  A character is one
    byte, or two when the first is [Meta]; the byte 255 converts to no
    character. *)
Definition scripted_conv (s : string) : Z * Z :=
  match s with
  | String a (String b _) =>
      if Ascii.eqb a Meta then (2, Z.lxor (Z.of_N (N_of_ascii b)) 32)
      else if Ascii.eqb a "255" then (1, -1)
      else (1, Z.of_N (N_of_ascii a))
  | String a EmptyString =>
      if Ascii.eqb a "255" then (1, -1) else (1, Z.of_N (N_of_ascii a))
  | EmptyString => (0, 0)
  end.

Definition scripted_terminal (sc : script) : @Terminal (scripted sc) := {|
  HAVE_SETCCHAR := sc_wide sc;
  HAVE_WADDWSTR := sc_wide sc;
  COLORS := 8;
  WEOF := -1;
  cchar_t := Z;
  wrefresh := fun _ w => (OK, w);
  refresh_curscr := fun w => (OK, w);
  wmove := fun _ _ _ w => (OK, w);
  werase := fun _ w => (OK, w);
  wclear := fun _ w => (OK, w);
  wclrtoeol := fun _ w => (OK, w);
  wclrtobot := fun _ w => (OK, w);
  wborder := fun _ w => (OK, w);
  mbrtowc := fun s w => (scripted_conv s, w);
  setcchar := fun c => (OK, c);
  wadd_wch := fun _ _ w => (OK, w);
  waddch := fun _ _ w => (OK, w);
  mb_metacharinit := fun w => w;
  mb_metacharlenconv := fun s w => (scripted_conv s, w);
  waddwstr := fun _ _ w => (OK, w);
  waddstr := fun _ _ w => (OK, w);
  getyx := fun _ w => ((OK, (0, 0)), w);
  getbegyx := fun _ w => ((OK, (0, 0)), w);
  getmaxyx := fun _ w => ((OK, (24, 80)), w);
  setaparam := fun _ _ w => w;
|}.

Definition plain_terminal : @Terminal plain := scripted_terminal plain_script.

(** ** Properties of the platform and of the registry *)

Section RestNotions.
Context {P : Platform} {T : Terminal}.

(** [mb_metacharlenconv] reports 0 or a length within the string it is
    given. *)
Definition conv_in_bounds : Prop :=
  forall s w,
    let clen := fst (fst (mb_metacharlenconv s w)) in
    clen = 0 \/ 1 <= clen <= Z.of_nat (String.length s).

(** The registry as the builtin keeps it: the names are distinct and not
    empty, the permanent window is the one named "stdscr", and it is the
    first of the list. *)
Definition registry_ok (ws : list zc_win) : Prop :=
  NoDup (window_names ws) /\
  (forall w, w ∈ ws -> name w <> "") /\
  (forall w, w ∈ ws ->
     has_flag (flags w) ZCWF_PERMANENT = true <-> name w = "stdscr") /\
  (ws <> [] -> exists w, ws !! 0%nat = Some w /\ name w = "stdscr").

(** The colour table is sound: every pair number in it has been handed
    out by the counter, is a pair the terminal has, and belongs to one name
    only, which is a valid colour pair name. *)
Definition cache_ok (g : globals) : Prop :=
  0 <= next_cp g /\
  forall tbl, zcurses_colorpairs g = Some tbl ->
    (forall k p, tbl !! k = Some p ->
       1 <= p <= next_cp g /\ p < COLOR_PAIRS /\ valid_colorpair k = true) /\
    (forall k1 k2 p, tbl !! k1 = Some p -> tbl !! k2 = Some p -> k1 = k2).

(** The tokens of [zccmd_attr] that are colour requests. *)
Fixpoint colour_tokens (toks : list string) : nat :=
  match toks with
  | [] => 0%nat
  | tok :: toks' =>
      ((if bool_decide (is_Some (strchr tok "/")) then 1 else 0)
       + colour_tokens toks')%nat
  end.

(** The colour requests a call of [zcurses] with the arguments [args] can
    make. *)
Definition colour_requests (args : list string) : nat :=
  match args !! 0%nat with
  | Some a0 => if streq a0 "attr" then colour_tokens (drop 2 args) else 0%nat
  | None => 0%nat
  end.

(** The subcommands that act on the display only. *)
Definition display_subcommands : list zccmd_t :=
  [Zc_refresh; Zc_move; Zc_clear; Zc_position; Zc_char; Zc_string; Zc_border].

(** A call of [zcurses init] that returned 0. *)
Definition init_succeeded (c : list string * Z) : Prop :=
  fst c !! 0%nat = Some "init" /\ snd c = 0.

End RestNotions.

(** ** Pair identifiers taken, and names that can still be allocated *)

Section ColourNotions.
Context {P : Platform}.

(** The colour requests that one call into the module can make. *)
Definition action_requests (a : action) : nat :=
  match a with
  | A_colorset _ _ _ => 1%nat
  | A_attr _ args => colour_tokens (drop 1 args)
  | _ => 0%nat
  end.

(** The pair identifier [n] is behind the counter and no node holds it. *)
Definition consumed (n : Z) (g : globals) : Prop :=
  n <= next_cp g /\
  forall tbl k, zcurses_colorpairs g = Some tbl -> tbl !! k <> Some n.

(** The series of requests [reqs], made from [st], returns and leaves a
    node for each name of [keys]. *)
Definition served_by (nam : string) (w : WINDOW) (reqs : list string)
    (st : state) (keys : list string) : Prop :=
  exists rs st',
    resolve_all nam w reqs st = Some (rs, st') /\
    forall k, k ∈ keys ->
      exists tbl p, zcurses_colorpairs (glob st') = Some tbl /\
                    tbl !! k = Some p.

(** The names [keys] are distinct, have no node in [st], and some series of
    requests from [st] gives each of them a node: they can still be
    allocated. *)
Definition allocatable (st : state) (keys : list string) : Prop :=
  NoDup keys /\
  (forall k tbl,
     k ∈ keys -> zcurses_colorpairs (glob st) = Some tbl -> tbl !! k = None) /\
  exists nam w reqs, served_by nam w reqs st keys.

(** [n] is the number of further distinct keys that can be allocated from
    [st]: some [n] names can, and no more. *)
Definition allocatable_count (st : state) (n : nat) : Prop :=
  (exists keys, length keys = n /\ allocatable st keys) /\
  forall keys, allocatable st keys -> (length keys <= n)%nat.

End ColourNotions.

(** ** More platforms and sessions *)

(** A terminal with 256 pairs whose [init_pair] rejects pair 1. *)
Definition is_pair_1 (e : event) : bool :=
  match e with
  | Ev_init_pair 1 _ _ => true
  | _ => false
  end.

Definition roomy : Platform :=
  scripted (Script is_pair_1 (sc_key plain_script) 256
              (sc_KEY_F0 plain_script) (sc_keypad_names plain_script)
              (sc_wide plain_script)).

Definition roomy_session : @state roomy :=
  after (zccmd_init "zcurses" []) (boot (P := roomy) no_calls).

(** The plain platform with a keypad table that lists KEY_F0, and a
    pending key event. *)
Definition with_f0_key (key : wget_status * Z) : Platform :=
  scripted (Script (sc_fails plain_script) key (sc_COLOR_PAIRS plain_script)
              (sc_KEY_F0 plain_script)
              (sc_keypad_names plain_script ++ [("F0", 264)])
              (sc_wide plain_script)).

Definition f0_key_session (key : wget_status * Z)
  : @state (with_f0_key key) :=
  after (zccmd_init "zcurses" []) (boot (P := with_f0_key key) no_calls).

(** A session on a terminal without colour: [start_color] has failed. *)
Definition monochrome_session : @state (rejecting is_start_color) :=
  after (zccmd_init "zcurses" []) monochrome_boot.

(** The subcommands that take a window name as their first argument. *)
Definition window_subcommands : list zccmd_t :=
  [Zc_delwin; Zc_refresh; Zc_move; Zc_clear; Zc_position; Zc_char;
   Zc_string; Zc_border; Zc_attr; Zc_scroll; Zc_input].

(** ** A session on the plain platform, written out

    The states after [zcurses init], after [zcurses addwin w 10 40 0 0]
    and after [zcurses attr w red/black bold]. *)
Definition started : @state plain :=
  State
    (Globals (P := plain) tt tt [ZCWin 1 "stdscr" ZCWF_PERMANENT] (Some ∅)
       0 1 0)
    [Ev_zalloc; Ev_initscr; Ev_start_color; Ev_cbreak; Ev_noecho].

Definition started_w : @state plain :=
  State
    (Globals (P := plain) tt tt
       [ZCWin 1 "stdscr" ZCWF_PERMANENT; ZCWin 6 "w" 0] (Some ∅) 0 1 0)
    [Ev_zalloc; Ev_initscr; Ev_start_color; Ev_cbreak; Ev_noecho;
     Ev_zalloc; Ev_newwin 10 40 0 0].

Definition started_red : @state plain :=
  State
    (Globals (P := plain) tt tt
       [ZCWin 1 "stdscr" ZCWF_PERMANENT; ZCWin 6 "w" 0]
       (Some {["red/black" := 1]}) 0 2 1)
    [Ev_zalloc; Ev_initscr; Ev_start_color; Ev_cbreak; Ev_noecho;
     Ev_zalloc; Ev_newwin 10 40 0 0;
     Ev_init_pair 1 1 0; Ev_zalloc; Ev_wcolor_set 6 1;
     Ev_wattron 6 2097152].

Definition tour : list (list string * Z) :=
  [ (["init"], 0);
    (["addwin"; "w"; "10"; "40"; "0"; "0"], 0);
    (["attr"; "w"; "red/black"; "bold"], 0) ].

(** * Properties

    ** Registry lookups *)

Section Proofs.
Context {P : Platform}.

Ltac munfold :=
  unfold when, deref in *;
  unfold mbind, M_bind, mret, M_ret, call, call_, get_glob, modify_glob,
    crash in *.

Ltac sred :=
  cbn [glob world fst snd negb orb andb
       saved_tty_state curses_tty_state zcurses_windows zcurses_colorpairs
       zc_errno zc_color_phase next_cp
       set_zcurses_windows set_zcurses_colorpairs set_zc_errno
       set_zc_color_phase set_next_cp] in *.

Lemma streq_true a b : streq a b = true <-> a = b.
Proof. unfold streq. apply String.eqb_eq. Qed.

Lemma streq_false a b : streq a b = false <-> a <> b.
Proof. unfold streq. apply String.eqb_neq. Qed.

Lemma find_window_Some ws n i :
  find_window ws n = Some i ->
  exists w, ws !! i = Some w /\ name w = n.
Proof.
  revert i. induction ws as [|w ws IH]; intros i; cbn; [done|].
  destruct (streq (name w) n) eqn:E.
  - intros [= <-]. exists w. split; [done|]. by apply streq_true.
  - destruct (find_window ws n) as [j|]; cbn; [|done].
    intros [= <-]. destruct (IH j eq_refl) as (w' & ? & ?). by exists w'.
Qed.

Lemma find_window_None ws n :
  find_window ws n = None <-> forall w, w ∈ ws -> name w <> n.
Proof.
  induction ws as [|w ws IH]; cbn.
  - split; [|done]. intros _ w' Hin. by apply elem_of_nil in Hin.
  - destruct (streq (name w) n) eqn:E.
    + apply streq_true in E. split; [done|]. intros H.
      exfalso. apply (H w); [left|done].
    + apply streq_false in E. split.
      * intros Hf w' [->|Hin]%elem_of_cons; [done|].
        apply IH; [|done]. by destruct (find_window ws n).
      * intros H. rewrite (proj2 IH); [done|].
        intros w' Hw'. apply H. by right.
Qed.

Lemma find_window_app ws l n i :
  find_window ws n = Some i -> find_window (ws ++ l) n = Some i.
Proof.
  revert i. induction ws as [|w ws IH]; intros i; cbn; [done|].
  destruct (streq (name w) n); [done|].
  destruct (find_window ws n) as [j|]; cbn; [|done].
  intros [= <-]. by rewrite (IH j eq_refl).
Qed.

Lemma find_window_app_None ws w n :
  find_window ws n = None ->
  find_window (ws ++ [w]) n =
    if streq (name w) n then Some (length ws) else None.
Proof.
  induction ws as [|w' ws IH]; cbn.
  - intros _. by destruct (streq (name w) n).
  - destruct (streq (name w') n); [done|].
    destruct (find_window ws n); cbn; [done|]. intros _.
    rewrite IH by done. by destruct (streq (name w) n).
Qed.

Lemma find_window_alter f j ws n :
  (forall w, name (f w) = name w) ->
  find_window (alter f j ws) n = find_window ws n.
Proof.
  intros Hf. revert j. induction ws as [|w ws IH]; intros j; [done|].
  destruct j as [|j]; cbn.
  - by rewrite Hf.
  - by rewrite IH.
Qed.

(** Deleting the node found under another name keeps the record found
    under [n]. *)
Lemma find_window_delete ws n m i j w :
  find_window ws n = Some i -> ws !! i = Some w ->
  find_window ws m = Some j -> n <> m ->
  exists i', find_window (delete j ws) n = Some i' /\
             delete j ws !! i' = Some w.
Proof.
  revert i j. induction ws as [|w0 ws IH]; intros i j; cbn; [done|].
  destruct (streq (name w0) n) eqn:En, (streq (name w0) m) eqn:Em.
  - apply streq_true in En, Em. congruence.
  - intros [= <-] [= <-]. destruct (find_window ws m) as [j'|]; cbn; [|done].
    intros [= <-] _. cbn. rewrite En. by exists 0%nat.
  - intros Hi Hw [= <-] Hne. cbn.
    destruct (find_window ws n) as [i'|]; cbn in *; [|done].
    injection Hi as <-. cbn in Hw. by exists i'.
  - destruct (find_window ws n) as [i'|] eqn:Hn; cbn; [|done].
    destruct (find_window ws m) as [j'|] eqn:Hm; cbn; [|done].
    intros [= <-] Hw [= <-] Hne. cbn in Hw.
    destruct (IH i' j' eq_refl Hw eq_refl Hne) as (i'' & Hf & Hl).
    exists (S i''). split; [|done].
    change (delete (S j') (w0 :: ws)) with (w0 :: delete j' ws).
    cbn [find_window]. by rewrite En, Hf.
Qed.


Lemma nonempty_length (n : string) :
  (Z.of_nat (String.length n) <? 1) = false <-> n <> "".
Proof.
  destruct n; cbn; split; try done. intros _. apply Z.ltb_ge. lia.
Qed.

Lemma validate_inv win crit st res st' :
  zcurses_validate_window win crit st = Some (res, st') ->
  world st' = world st /\
  (exists e, glob st' = set_zc_errno e (glob st)) /\
  (forall node, res = Some node ->
     zc_errno (glob st') = 0 /\
     exists n, win = Some n /\ n <> "" /\
               find_window (zcurses_windows (glob st)) n = Some node) /\
  (res = None -> zc_errno (glob st') = 0 ->
     exists n, win = Some n /\ n <> "" /\
               find_window (zcurses_windows (glob st)) n = None).
Proof.
  unfold zcurses_validate_window, zcurses_getwindowbyname. munfold.
  intros H. repeat (case_match; simplify_eq/=); eauto.
  all: split_and!; eauto; try done.
  - intros node Hnode. split; [done|]. exists s. split_and!; [done| |done].
    by apply nonempty_length.
  - intros Hnone _. exists s. split_and!; [done| |done].
    by apply nonempty_length.
Qed.

Lemma validate_found n crit st node :
  n <> "" ->
  find_window (zcurses_windows (glob st)) n = Some node ->
  zcurses_validate_window (Some n) crit st =
    if has_flag crit ZCURSES_UNUSED
    then Some (None, State (set_zc_errno ZCURSES_EDEFINED (glob st)) (world st))
    else Some (Some node, State (set_zc_errno 0 (glob st)) (world st)).
Proof.
  intros Hn%nonempty_length Hf.
  unfold zcurses_validate_window, zcurses_getwindowbyname. munfold.
  rewrite Hn. cbn. rewrite Hf. cbn.
  by destruct (has_flag crit ZCURSES_UNUSED).
Qed.

Lemma validate_missing n crit st :
  n <> "" ->
  find_window (zcurses_windows (glob st)) n = None ->
  zcurses_validate_window (Some n) crit st =
    if has_flag crit ZCURSES_USED
    then Some (None,
               State (set_zc_errno ZCURSES_EUNDEFINED (glob st)) (world st))
    else Some (None, State (set_zc_errno 0 (glob st)) (world st)).
Proof.
  intros Hn%nonempty_length Hf.
  unfold zcurses_validate_window, zcurses_getwindowbyname. munfold.
  rewrite Hn. cbn. rewrite Hf. cbn.
  by destruct (has_flag crit ZCURSES_USED).
Qed.

Lemma validate_empty crit st :
  zcurses_validate_window (Some "") crit st =
    Some (None, State (set_zc_errno ZCURSES_EINVALID (glob st)) (world st)).
Proof. done. Qed.

Lemma delwin_inv nam args st r st' :
  zccmd_delwin nam args st = Some (r, st') ->
  same_colour (glob st) (glob st') /\
  (zcurses_windows (glob st') = zcurses_windows (glob st) \/
   r = 0 /\
   exists n node w,
     args !! 0%nat = Some n /\
     find_window (zcurses_windows (glob st)) n = Some node /\
     zcurses_windows (glob st) !! node = Some w /\
     has_flag (flags w) ZCWF_PERMANENT = false /\
     zcurses_windows (glob st') = delete node (zcurses_windows (glob st))).
Proof.
  unfold zccmd_delwin, warn_validate, getdata. munfold.
  destruct (zcurses_validate_window _ _ st) as [[res st1]|] eqn:Hv; [|done].
  apply validate_inv in Hv as (Hw & [e He] & Hres & Hnone).
  intros H. destruct res as [node|].
  - destruct (Hres node eq_refl) as (_ & n & Hn & _ & Hf).
    rewrite He in H. cbn in H.
    repeat (case_match; simplify_eq/=); rewrite ?He; cbn; 
      try (split; [done|]; by left).
    split; [done|]. right. split; [done|].
    exists n, node, z. done.
  - repeat (case_match; simplify_eq/=); rewrite ?He; cbn; 
      try (split; [done|]; by left).
Qed.


Lemma addwin_inv nam args st r st' :
  zccmd_addwin nam args st = Some (r, st') ->
  same_colour (glob st) (glob st') /\
  (zcurses_windows (glob st') = zcurses_windows (glob st) \/
   r = 0 /\
   exists h n,
     args !! 0%nat = Some n /\ n <> "" /\
     zcurses_windows (glob st') = zcurses_windows (glob st) ++ [ZCWin h n 0]).
Proof.
  unfold zccmd_addwin. munfold.
  destruct (zcurses_validate_window _ _ st) as [[res st1]|] eqn:Hv; [|done].
  apply validate_inv in Hv as (Hw & [e He] & Hres & Hnone).
  intros H.
  repeat (case_match; simplify_eq/=); rewrite ?He; unfold same_colour; cbn;
    try (split; [done|]; by left).
  split; [done|]. right. split; [done|].
  assert (s8 <> "") as Hne.
  { destruct res as [node|].
    - by destruct (Hres node eq_refl) as (_ & n & [= <-] & Hne & _).
    - rewrite He in *. cbn in *.
      destruct (Z.eqb_spec e 0) as [->|]; [|done].
      by destruct (Hnone eq_refl eq_refl) as (n & [= <-] & Hne & _). }
  eexists _, _. split_and!; done.
Qed.

Lemma has_flag_permanent_lor fl :
  has_flag (Z.lor fl ZCWF_SCROLL) ZCWF_PERMANENT = has_flag fl ZCWF_PERMANENT.
Proof.
  unfold has_flag. f_equal. f_equal.
  rewrite Z.land_lor_distr_l. change (Z.land ZCWF_SCROLL ZCWF_PERMANENT) with 0.
  apply Z.lor_0_r.
Qed.

Lemma has_flag_permanent_land fl :
  has_flag (Z.land fl (Z.lnot ZCWF_SCROLL)) ZCWF_PERMANENT
  = has_flag fl ZCWF_PERMANENT.
Proof.
  unfold has_flag. f_equal. f_equal.
  rewrite <- Z.land_assoc. done.
Qed.

Lemma scroll_inv nam args st r st' :
  zccmd_scroll nam args st = Some (r, st') ->
  same_colour (glob st) (glob st') /\
  (zcurses_windows (glob st') = zcurses_windows (glob st) \/
   exists node w fl,
     zcurses_windows (glob st) !! node = Some w /\
     has_flag fl ZCWF_PERMANENT = has_flag (flags w) ZCWF_PERMANENT /\
     zcurses_windows (glob st') =
       alter (fun w => ZCWin (win w) (name w) fl) node
         (zcurses_windows (glob st))).
Proof.
  unfold zccmd_scroll, warn_validate, getdata, set_flags. munfold.
  destruct (zcurses_validate_window _ _ st) as [[res st1]|] eqn:Hv; [|done].
  apply validate_inv in Hv as (Hw & [e He] & Hres & Hnone).
  intros H.
  repeat (case_match; simplify_eq/=); rewrite ?He in *; unfold same_colour;
    cbn in *; try (split; [done|]; by left).
  - split; [done|]. right. eexists _, _, _. split_and!; [done| |done].
    apply has_flag_permanent_lor.
  - split; [done|]. right. eexists _, _, _. split_and!; [done| |done].
    apply has_flag_permanent_land.
Qed.

Lemma endwin_inv nam args st r st' :
  zccmd_endwin nam args st = Some (r, st') -> glob st' = glob st.
Proof.
  unfold zccmd_endwin, zcurses_getwindowbyname. munfold.
  intros H. repeat (case_match; simplify_eq/=); done.
Qed.

Lemma input_inv nam args st r st' :
  zccmd_input nam args st = Some (r, st') ->
  same_colour (glob st) (glob st') /\
  zcurses_windows (glob st') = zcurses_windows (glob st).
Proof.
  unfold zccmd_input, warn_validate, getdata, input_read. munfold.
  destruct (zcurses_validate_window _ _ st) as [[res st1]|] eqn:Hv; [|done].
  apply validate_inv in Hv as (Hw & [e He] & Hres & Hnone).
  intros H.
  repeat (case_match; simplify_eq/=); rewrite ?He in *; unfold same_colour;
    cbn in *; done.
Qed.

Lemma init_inv nam args st r st' :
  zccmd_init nam args st = Some (r, st') ->
  (is_Some (find_window (zcurses_windows (glob st)) "stdscr") ->
   glob st' = glob st) /\
  (zc_color_phase (glob st) <> 0 ->
   zc_color_phase (glob st') = zc_color_phase (glob st)) /\
  (zcurses_windows (glob st') = zcurses_windows (glob st) \/
   exists h, zcurses_windows (glob st') =
               zcurses_windows (glob st) ++ [ZCWin h "stdscr" ZCWF_PERMANENT]).
Proof.
  unfold zccmd_init, zcurses_getwindowbyname. munfold.
  intros H.
  repeat (case_match; simplify_eq/=); cbn in *.
  all: split_and!; try done; try (by left); try (by intros [? ?]);
    try (right; by eexists).
  all: intros ?; by destruct (Z.eqb_spec (zc_color_phase (glob st)) 0).
Qed.

Lemma to_short_small x : -32768 <= x <= 32767 -> to_short x = x.
Proof.
  intros H. unfold to_short, wrap_signed. 
  change (2 ^ (16 - 1)) with 32768. change (2 ^ 16) with 65536.
  rewrite Z.mod_small by lia. lia.
Qed.

Lemma colorset_new_inv nam k st o st' :
  colorset_new nam k st = Some (o, st') ->
  zc_color_phase (glob st') = 2 /\
  zcurses_windows (glob st') = zcurses_windows (glob st) /\
  match o with
  | None =>
      zcurses_colorpairs (glob st') = zcurses_colorpairs (glob st)
  | Some n =>
      n = to_short (next_cp (glob st) + 1) /\
      next_cp (glob st') = n /\ n < COLOR_PAIRS /\
      valid_colorpair k = true /\
      exists tbl, zcurses_colorpairs (glob st) = Some tbl /\
                  zcurses_colorpairs (glob st') = Some (<[k:=n]> tbl)
  end.
Proof.
  unfold colorset_new, valid_colorpair. munfold. cbn.
  intros H.
  repeat (case_match; simplify_eq/=); eauto.
  all: try (split_and!; eauto; lia).
Qed.

Lemma colorset_hit nam w k st p :
  cached (glob st) k p ->
  zcurses_colorset nam w k st =
    Some (c_bool (Z.eqb (fst (wcolor_set w p (world st))) ERR),
          State (glob st) (snd (wcolor_set w p (world st)))).
Proof.
  intros (Hph & tbl & Htbl & Hk). unfold zcurses_colorset. munfold.
  destruct (Z.eqb_spec (zc_color_phase (glob st)) 1) as [|_]; [done|].
  rewrite Htbl, Hk. by destruct (wcolor_set w p (world st)).
Qed.

Lemma colorset_inv nam w k st r st' :
  zcurses_colorset nam w k st = Some (r, st') ->
  zcurses_windows (glob st') = zcurses_windows (glob st) /\
  (zc_color_phase (glob st') = 2 \/
   zc_color_phase (glob st') = zc_color_phase (glob st) /\
   zc_color_phase (glob st) <> 1) /\
  forall k' p, cached (glob st) k' p -> cached (glob st') k' p.
Proof.
  unfold zcurses_colorset. munfold. intros H.
  destruct (Z.eqb_spec (zc_color_phase (glob st)) 1) as [Hph|Hph].
  - destruct (colorset_new nam k st) as [[o st1]|] eqn:Hnew; [|done].
    apply colorset_new_inv in Hnew as (Hp2 & Hws & Ho).
    assert (glob st' = glob st1) as ->.
    { repeat (case_match; simplify_eq/=); done. }
    split_and!; [done|by left|]. by intros k' p [? _].
  - destruct (zcurses_colorpairs (glob st)) as [tbl|] eqn:Htbl; [|done].
    destruct (tbl !! k) as [cp|] eqn:Hk.
    + assert (glob st' = glob st) as ->.
      { repeat (case_match; simplify_eq/=); done. }
      split_and!; [done|by right|done].
    + destruct (colorset_new nam k st) as [[o st1]|] eqn:Hnew; [|done].
      apply colorset_new_inv in Hnew as (Hp2 & Hws & Ho).
      assert (glob st' = glob st1) as ->.
      { repeat (case_match; simplify_eq/=); done. }
      split_and!; [done|by left|].
      intros k' p (_ & tbl' & Ht' & Hk'). split; [lia|].
      rewrite Htbl in Ht'. injection Ht' as <-.
      destruct o as [n|].
      * destruct Ho as (_ & _ & _ & _ & tbl2 & Ht2 & ->).
        rewrite Htbl in Ht2. injection Ht2 as <-.
        eexists. split; [done|]. rewrite lookup_insert_ne; [done|].
        intros ->. congruence.
      * rewrite Ho, Htbl. eauto.
Qed.

Lemma attribute_inv w a op st r st' :
  zcurses_attribute w a op st = Some (r, st') -> glob st' = glob st.
Proof.
  unfold zcurses_attribute. munfold. intros H.
  repeat (case_match; simplify_eq/=); done.
Qed.

Lemma attr_body_inv nam w tok ret st r st' :
  attr_body nam w tok ret st = Some (r, st') ->
  zcurses_windows (glob st') = zcurses_windows (glob st) /\
  (zc_color_phase (glob st') = 2 \/
   zc_color_phase (glob st') = zc_color_phase (glob st) /\
   zc_color_phase (glob st) <> 1 \/ glob st' = glob st) /\
  forall k' p, cached (glob st) k' p -> cached (glob st') k' p.
Proof.
  unfold attr_body. munfold. intros H. case_match.
  - destruct (zcurses_colorset nam w tok st) as [[r1 st1]|] eqn:Hc; [|done].
    injection H as <- <-. apply colorset_inv in Hc as (? & ? & ?).
    split_and!; [done| |done]. tauto.
  - destruct (attr_sign tok) as [onoff ptr].
    destruct (zcurses_attribute w (Some ptr) onoff st) as [[r1 st1]|] eqn:Ha;
      [|done].
    apply attribute_inv in Ha.
    assert (glob st' = glob st) as ->.
    { repeat (case_match; simplify_eq/=); done. }
    split_and!; [done| |done]. tauto.
Qed.

Lemma attr_loop_inv nam w toks ret st r st' :
  attr_loop nam w toks ret st = Some (r, st') ->
  zcurses_windows (glob st') = zcurses_windows (glob st) /\
  (zc_color_phase (glob st) = 2 -> zc_color_phase (glob st') = 2) /\
  forall k' p, cached (glob st) k' p -> cached (glob st') k' p.
Proof.
  revert ret st. induction toks as [|tok toks IH]; intros ret st; cbn.
  - munfold. by intros [= <- <-].
  - munfold.
    destruct (attr_body nam w tok ret st) as [[r1 st1]|] eqn:Hb; [|done].
    intros H. apply IH in H as (Hws & Hph & Hc).
    apply attr_body_inv in Hb as (Hws1 & Hph1 & Hc1).
    split_and!.
    + congruence.
    + intros H2. apply Hph. destruct Hph1 as [?|[[? _]|?]]; congruence.
    + intros k' p ?. by apply Hc, Hc1.
Qed.

Lemma attr_inv nam args st r st' :
  zccmd_attr nam args st = Some (r, st') ->
  zcurses_windows (glob st') = zcurses_windows (glob st) /\
  (zc_color_phase (glob st) = 2 -> zc_color_phase (glob st') = 2) /\
  forall k' p, cached (glob st) k' p -> cached (glob st') k' p.
Proof.
  unfold zccmd_attr, warn_validate, getdata. munfold.
  destruct (args !! 0%nat) as [a0|]; [|by intros [= <- <-]].
  destruct (zcurses_validate_window _ _ st) as [[res st1]|] eqn:Hv; [|done].
  apply validate_inv in Hv as (Hw & [e He] & Hres & Hnone).
  assert (forall k' p, cached (glob st) k' p -> cached (glob st1) k' p) as Hc1.
  { intros k' p. by rewrite He. }
  intros H. destruct res as [node|].
  - rewrite He in H. cbn in H.
    destruct (zcurses_windows (glob st) !! node) as [zw|]; [|done].
    apply attr_loop_inv in H as (Hws & Hph & Hc).
    rewrite He in Hws, Hph. cbn in *. split_and!; [done..|].
    intros k' p ?. by apply Hc, Hc1.
  - assert (glob st' = glob st1) as ->.
    { by injection H as <- <-. }
    rewrite He. cbn. split_and!; [done..|]. intros k' p ?. 
    rewrite <- He. by apply Hc1.
Qed.

(** What a call can do to the registry. *)
Lemma perform_registry a st r st' :
  perform a st = Some (r, st') ->
  zcurses_windows (glob st') = zcurses_windows (glob st) \/
  (exists w, zcurses_windows (glob st') = zcurses_windows (glob st) ++ [w]) \/
  (exists nam args n node w,
     a = A_delwin nam args /\ r = 0 /\ args !! 0%nat = Some n /\
     find_window (zcurses_windows (glob st)) n = Some node /\
     zcurses_windows (glob st) !! node = Some w /\
     has_flag (flags w) ZCWF_PERMANENT = false /\
     zcurses_windows (glob st') = delete node (zcurses_windows (glob st))) \/
  (exists node w fl,
     zcurses_windows (glob st) !! node = Some w /\
     has_flag fl ZCWF_PERMANENT = has_flag (flags w) ZCWF_PERMANENT /\
     zcurses_windows (glob st') =
       alter (fun w => ZCWin (win w) (name w) fl) node
         (zcurses_windows (glob st))).
Proof.
  destruct a; cbn; intros H.
  - apply init_inv in H as (_ & _ & [?|[h ?]]); eauto.
  - apply addwin_inv in H as (_ & [?|(_ & h & n & _ & _ & ?)]); eauto.
  - apply delwin_inv in H as (_ & [?|(-> & n & node & w & ? & ? & ? & ? & ?)]);
      [by left|].
    right. right. left. by exists nam, args, n, node, w.
  - apply endwin_inv in H as ->. by left.
  - apply attr_inv in H as (? & _). by left.
  - apply scroll_inv in H as (_ & [?|(node & w & fl & ? & ? & ?)]); [by left|].
    do 3 right. by exists node, w, fl.
  - apply input_inv in H as (_ & ?). by left.
  - apply colorset_inv in H as (? & _). by left.
  - injection H as <- <-. by left.
Qed.

Lemma perform_session a st r st' :
  perform a st = Some (r, st') ->
  session_started (glob st) -> session_started (glob st').
Proof.
  intros H (i & wi & Hf & Hl & Hperm). unfold session_started.
  apply perform_registry in H.
  destruct H as [->|[[w ->]|[H|H]]].
  - by exists i, wi.
  - exists i, wi. split_and!; [by apply find_window_app| |done].
    by apply lookup_app_l_Some.
  - destruct H as (nam & args & n & node & w & _ & _ & _ & Hn & Hw & Hnp & ->).
    destruct (decide ("stdscr" = n)) as [<-|Hne].
    + congruence.
    + destruct (find_window_delete _ _ _ _ _ _ Hf Hl Hn Hne) as (i' & ? & ?).
      by exists i', wi.
  - destruct H as (node & w & fl & Hw & Hfl & ->).
    rewrite find_window_alter by done.
    destruct (decide (node = i)) as [->|Hne].
    + exists i, (ZCWin (win wi) (name wi) fl). split_and!; [done| |].
      * rewrite list_lookup_alter_eq. by rewrite Hl.
      * cbn. congruence.
    + exists i, wi. split_and!; [done| |done].
      by rewrite list_lookup_alter_ne.
Qed.

Lemma perform_keeps_window a st r st' n :
  perform a st = Some (r, st') ->
  ~ destroys n (a, r) ->
  is_Some (find_window (zcurses_windows (glob st)) n) ->
  is_Some (find_window (zcurses_windows (glob st')) n).
Proof.
  intros H Hnd [i Hf].
  apply perform_registry in H.
  destruct H as [->|[[w ->]|[H|H]]].
  - eauto.
  - exists i. by apply find_window_app.
  - destruct H as (nam & args & m & node & w & -> & -> & Ha & Hm & Hw & _ & ->).
    destruct (decide (n = m)) as [->|Hne].
    + exfalso. apply Hnd. by exists nam, args.
    + destruct (find_window_Some _ _ _ Hf) as (wi & Hl & _).
      destruct (find_window_delete _ _ _ _ _ _ Hf Hl Hm Hne) as (i' & ? & _).
      eauto.
  - destruct H as (node & w & fl & _ & _ & ->).
    rewrite find_window_alter by done. eauto.
Qed.

Lemma perform_colour a st r st' :
  perform a st = Some (r, st') ->
  (zc_color_phase (glob st) = 2 -> zc_color_phase (glob st') = 2) /\
  (session_started (glob st) ->
   forall k p, cached (glob st) k p -> cached (glob st') k p).
Proof.
  destruct a; cbn; intros H.
  - apply init_inv in H as (Hg & Hph & _). split.
    + intros H2. rewrite Hph; lia.
    + intros (i & _ & Hf & _) k p. rewrite Hg; [done|]. eauto.
  - apply addwin_inv in H as ((? & ? & ?) & _). unfold cached.
    split; [congruence|]. intros _ k p. by rewrite H, H0.
  - apply delwin_inv in H as ((? & ? & ?) & _). unfold cached.
    split; [congruence|]. intros _ k p. by rewrite H, H0.
  - apply endwin_inv in H as ->. done.
  - apply attr_inv in H as (_ & ? & ?). done.
  - apply scroll_inv in H as ((? & ? & ?) & _). unfold cached.
    split; [congruence|]. intros _ k p. by rewrite H, H0.
  - apply input_inv in H as ((? & ? & ?) & _). unfold cached.
    split; [congruence|]. intros _ k p. by rewrite H, H0.
  - apply colorset_inv in H as (_ & Hph & Hc). split; [|done].
    intros H2. destruct Hph as [?|[? _]]; congruence.
  - injection H as <- <-. done.
Qed.

(** ** Destroying and creating windows *)

(** C4.  When [delwin] names a window that is not permanent and the curses
    library fails to release its handle, the subcommand returns 1 without a
    diagnostic and the registry is what it was: the record is still at its
    node, with its name and handle, and is still found under its name. *)
Theorem delwin_release_failure_keeps_entry nam args st node st1 zw :
  zcurses_validate_window (args !! 0%nat) ZCURSES_USED st
    = Some (Some node, st1) ->
  zcurses_windows (glob st) !! node = Some zw ->
  has_flag (flags zw) ZCWF_PERMANENT = false ->
  fst (delwin (win zw) (world st)) <> OK ->
  exists st',
    zccmd_delwin nam args st = Some (1, st') /\
    world st' = snd (delwin (win zw) (world st)) /\
    zcurses_windows (glob st') = zcurses_windows (glob st) /\
    zcurses_windows (glob st') !! node = Some zw /\
    find_window (zcurses_windows (glob st')) (name zw) = Some node.
Proof.
  intros Hv Hzw Hperm Hrel.
  pose proof Hv as Hv'.
  apply validate_inv in Hv' as (Hw & [e He] & Hres & _).
  destruct (Hres node eq_refl) as (_ & n & Ha & _ & Hf).
  destruct (find_window_Some _ _ _ Hf) as (zw' & Hzw' & Hname).
  assert (zw' = zw) as -> by congruence.
  unfold zccmd_delwin, getdata. munfold. rewrite Hv, He. cbn.
  rewrite Hzw, Hperm, Hw.
  destruct (delwin (win zw) (world st)) as [r w'] eqn:Hd. cbn in Hrel.
  destruct (Z.eqb_spec r OK) as [|_]; [done|]. cbn.
  eexists. split; [done|]. cbn. rewrite He, Hname. done.
Qed.

Lemma validate_unused_inv win st res st' :
  zcurses_validate_window win ZCURSES_UNUSED st = Some (res, st') ->
  res = None.
Proof.
  unfold zcurses_validate_window, zcurses_getwindowbyname. munfold.
  intros H. repeat (case_match; simplify_eq/=); try done.
  by destruct (find_window (zcurses_windows (glob st)) s).
Qed.

Lemma addwin_success nam args st st' :
  zccmd_addwin nam args st = Some (0, st') ->
  exists h n,
    args !! 0%nat = Some n /\ n <> "" /\
    find_window (zcurses_windows (glob st)) n = None /\
    zcurses_windows (glob st') = zcurses_windows (glob st) ++ [ZCWin h n 0].
Proof.
  unfold zccmd_addwin. munfold.
  destruct (zcurses_validate_window _ _ st) as [[res st1]|] eqn:Hv; [|done].
  pose proof (validate_unused_inv _ _ _ _ Hv) as ->.
  apply validate_inv in Hv as (Hw & [e He] & _ & Hnone).
  intros H. repeat (case_match; simplify_eq/=).
  rewrite He in *. cbn in *.
  destruct (Z.eqb_spec e 0) as [->|]; [|done].
  destruct (Hnone eq_refl eq_refl) as (n & [= <-] & Hne & Hf).
  eexists _, _. split_and!; done.
Qed.

Lemma addwin_defined nam args n st :
  args !! 0%nat = Some n ->
  is_Some (find_window (zcurses_windows (glob st)) n) ->
  n <> "" ->
  zccmd_addwin nam args st =
    Some (1, State (set_zc_errno ZCURSES_EDEFINED (glob st))
               (zerrnam nam ("window already defined: " +:+ n) (world st))).
Proof.
  intros Ha [node Hf] Hne. unfold zccmd_addwin. munfold.
  rewrite Ha, (validate_found _ _ _ _ Hne Hf). done.
Qed.

Lemma steps_keep_window st tr st' n :
  steps st tr st' ->
  (forall ar, ar ∈ tr -> ~ destroys n ar) ->
  is_Some (find_window (zcurses_windows (glob st)) n) ->
  is_Some (find_window (zcurses_windows (glob st')) n).
Proof.
  induction 1 as [|st a r st1 tr st2 Hp _ IH]; intros Hnd Hin; [done|].
  apply IH.
  - intros ar Har. apply Hnd. by right.
  - eapply perform_keeps_window; [done| |done]. apply Hnd. by left.
Qed.

(** C5.  After [addwin] has created the window named [n], and as long as no
    [delwin] of [n] has succeeded since, whatever else was called, another
    [addwin] of [n] returns 1 with [zc_errno] set to ZCURSES_EDEFINED and
    the diagnostic "window already defined"; it calls nothing else and the
    registry is what it was.  (A successful [addwin] has a non-empty
    name.) *)
Theorem addwin_twice_already_defined nam args n st0 st1 tr st2 nam' args' :
  args !! 0%nat = Some n ->
  zccmd_addwin nam args st0 = Some (0, st1) ->
  steps st1 tr st2 ->
  (forall ar, ar ∈ tr -> ~ destroys n ar) ->
  args' !! 0%nat = Some n ->
  n <> "" /\
  exists st3,
    zccmd_addwin nam' args' st2 = Some (1, st3) /\
    zc_errno (glob st3) = ZCURSES_EDEFINED /\
    zcurses_windows (glob st3) = zcurses_windows (glob st2) /\
    world st3 =
      zerrnam nam' ("window already defined: " +:+ n) (world st2).
Proof.
  intros Ha Hadd Hsteps Hnd Ha'.
  apply addwin_success in Hadd as (h & n' & Ha2 & Hne & Hnone & Hws).
  assert (n' = n) as -> by congruence.
  split; [done|].
  assert (is_Some (find_window (zcurses_windows (glob st2)) n)) as Hin.
  { eapply steps_keep_window; [done..|]. rewrite Hws.
    rewrite find_window_app_None by done. cbn [name].
    rewrite (proj2 (streq_true n n)) by done. eauto. }
  rewrite (addwin_defined nam' args' n st2) by done.
  eexists. split; [done|]. done.
Qed.

(** C6 (amended).  [delwin] of a non-empty name that is not in the
    registry returns 1 with [zc_errno] set to ZCURSES_EUNDEFINED and the
    diagnostic "window undefined"; [delwin] of a name that resolves to a
    permanent window returns 1 with the diagnostic "window ... can't be
    deleted"; in both cases the registry is left as it was.  So [delwin] of
    "stdscr" fails whether or not the session has been started.  The empty
    name is answered with ZCURSES_EINVALID, "window name invalid". *)
Theorem delwin_undefined_or_permanent nam args n st :
  args !! 0%nat = Some n ->
  (n = "" ->
   zccmd_delwin nam args st =
     Some (1, State (set_zc_errno ZCURSES_EINVALID (glob st))
                (zwarnnam nam "window name invalid: " (world st)))) /\
  (n <> "" ->
   find_window (zcurses_windows (glob st)) n = None ->
   zccmd_delwin nam args st =
     Some (1, State (set_zc_errno ZCURSES_EUNDEFINED (glob st))
                (zwarnnam nam ("window undefined: " +:+ n) (world st)))) /\
  (n <> "" ->
   forall node zw,
     find_window (zcurses_windows (glob st)) n = Some node ->
     zcurses_windows (glob st) !! node = Some zw ->
     has_flag (flags zw) ZCWF_PERMANENT = true ->
     zccmd_delwin nam args st =
       Some (1, State (set_zc_errno 0 (glob st))
                  (zwarnnam nam ("window `" +:+ n +:+ "' can't be deleted")
                     (world st)))) /\
  (n = "stdscr" ->
   session_started (glob st) \/
   find_window (zcurses_windows (glob st)) n = None ->
   exists st',
     zccmd_delwin nam args st = Some (1, st') /\
     zcurses_windows (glob st') = zcurses_windows (glob st)).
Proof.
  intros Ha.
  assert (n <> "" ->
          find_window (zcurses_windows (glob st)) n = None ->
          zccmd_delwin nam args st =
            Some (1, State (set_zc_errno ZCURSES_EUNDEFINED (glob st))
                       (zwarnnam nam ("window undefined: " +:+ n) (world st))))
    as Hundef.
  { intros Hne Hf. unfold zccmd_delwin, warn_validate. munfold.
    rewrite Ha, (validate_missing _ _ _ Hne Hf). done. }
  assert (n <> "" ->
          forall node zw,
            find_window (zcurses_windows (glob st)) n = Some node ->
            zcurses_windows (glob st) !! node = Some zw ->
            has_flag (flags zw) ZCWF_PERMANENT = true ->
            zccmd_delwin nam args st =
              Some (1, State (set_zc_errno 0 (glob st))
                         (zwarnnam nam
                            ("window `" +:+ n +:+ "' can't be deleted")
                            (world st))))
    as Hperm.
  { intros Hne node zw Hf Hzw Hp. unfold zccmd_delwin, getdata. munfold.
    rewrite Ha, (validate_found _ _ _ _ Hne Hf).
    change (has_flag ZCURSES_USED ZCURSES_UNUSED) with false.
    cbv iota. cbn [glob world zcurses_windows set_zc_errno].
    by rewrite Hzw, Hp. }
  split_and!; [|done|done|].
  - intros ->. unfold zccmd_delwin, warn_validate. munfold.
    by rewrite Ha.
  - intros -> [(node & zw & Hf & Hzw & Hp)|Hf].
    + rewrite (Hperm ltac:(done) node zw Hf Hzw Hp). by eexists.
    + rewrite (Hundef ltac:(done) Hf). by eexists.
Qed.

(** ** Scrolling by a number *)

(** C8.  [scroll] with an integer [N] on a valid window.  If ZCWF_SCROLL is
    off in the window's flags, the platform sees exactly [scrollok(TRUE)],
    [wscrl(N)], [scrollok(FALSE)], in this order; if it is on, the platform
    sees [wscrl(N)] alone.  Either way the registry, and so the flag, is
    what it was before the call. *)
Theorem scroll_by_n_restores_flag nam args st node st1 zw a1 N :
  zcurses_validate_window (args !! 0%nat) ZCURSES_USED st
    = Some (Some node, st1) ->
  zcurses_windows (glob st) !! node = Some zw ->
  args !! 1%nat = Some a1 ->
  a1 <> "on" -> a1 <> "off" ->
  zstrtol a1 = (N, "") ->
  let h := win zw in
  let n := to_int N in
  let ret (r : Z) := if Z.eqb r ERR then 1 else 0 in
  zcurses_windows (glob st1) = zcurses_windows (glob st) /\
  zccmd_scroll nam args st =
    if has_flag (flags zw) ZCWF_SCROLL then
      Some (ret (fst (wscrl h n (world st))),
            State (glob st1) (snd (wscrl h n (world st))))
    else
      let w1 := snd (scrollok h true (world st)) in
      Some (ret (fst (wscrl h n w1)),
            State (glob st1) (snd (scrollok h false (snd (wscrl h n w1))))).
Proof.
  intros Hv Hzw Ha1 Hon Hoff Hn h n ret.
  pose proof Hv as Hv'.
  apply validate_inv in Hv' as (Hw & [e He] & _).
  destruct st1 as [g1 w1]. cbn in Hw, He. subst g1 w1.
  split; [done|].
  unfold zccmd_scroll, getdata. munfold. rewrite Hv.
  cbn [glob world zcurses_windows set_zc_errno]. rewrite Hzw, Ha1.
  rewrite (proj2 (streq_false a1 "on")), (proj2 (streq_false a1 "off"))
    by done.
  rewrite Hn. cbn [streq String.eqb negb]. fold h n.
  destruct (has_flag (flags zw) ZCWF_SCROLL); cbn [negb glob world].
  - destruct (wscrl h n (world st)) as [r w1]. done.
  - destruct (scrollok h true (world st)) as [r0 w1]. cbn [glob world snd].
    destruct (wscrl h n w1) as [r w2]. cbn [glob world snd fst].
    destruct (scrollok h false w2) as [r1 w3]. done.
Qed.

(** ** A batch of attribute tokens *)

Lemma attr_body_token_fails nam w tok (ret : Z) (st : state) :
  attr_body nam w tok ret st =
    (token_fails nam w tok ≫= fun b : bool => mret (if b then 1 else ret)) st.
Proof.
  unfold token_fails, attr_body. munfold.
  destruct (bool_decide (is_Some (strchr tok "/"))).
  - destruct (zcurses_colorset nam w tok st) as [[r st']|]; [|done].
    by destruct (Z.eqb_spec r 0).
  - destruct (attr_sign tok) as [onoff ptr].
    destruct (zcurses_attribute w (Some ptr) onoff st) as [[r st']|]; [|done].
    by destruct (Z.eqb_spec r 0).
Qed.

Lemma attr_loop_mapM nam w toks (ret : Z) (st : state) :
  attr_loop nam w toks ret st =
    ((outs ← mapM (token_fails nam w) toks;
      mret (if existsb id outs then 1 else ret)) : M Z) st.
Proof.
  revert ret st. induction toks as [|tok toks IH]; intros ret st; [done|].
  cbn [attr_loop mapM]. unfold mbind at 1, M_bind at 1.
  rewrite attr_body_token_fails. munfold.
  destruct (token_fails nam w tok st) as [[b st1]|]; [|done].
  rewrite IH. munfold.
  destruct (mapM (token_fails nam w) toks st1) as [[outs st2]|]; [|done].
  cbn. by destruct b, (existsb id outs).
Qed.

Lemma mapM_length {A B : Type} (f : A -> M B) l st bs st' :
  mapM f l st = Some (bs, st') -> length bs = length l.
Proof.
  revert st bs. induction l as [|a l IH]; intros st bs; cbn; munfold.
  - by intros [= <- <-].
  - destruct (f a st) as [[b st1]|]; [|done].
    destruct (mapM f l st1) as [[bs' st2]|] eqn:Hm; [|done].
    intros [= <- <-]. cbn. f_equal. by eapply IH.
Qed.

Lemma existsb_id_true (outs : list bool) :
  existsb id outs = true <-> true ∈ outs.
Proof.
  rewrite existsb_exists. split.
  - intros (b & Hin & Hb). apply list_elem_of_In. by rewrite <- Hb.
  - intros Hin. exists true. split; [by apply list_elem_of_In|done].
Qed.

Lemma colorset_total nam w k st :
  is_Some (zcurses_colorpairs (glob st)) ->
  exists r st',
    zcurses_colorset nam w k st = Some (r, st') /\
    is_Some (zcurses_colorpairs (glob st')).
Proof.
  intros [tbl Htbl]. unfold zcurses_colorset, colorset_new. munfold.
  rewrite Htbl. cbn.
  repeat (case_match; simplify_eq/=); eauto.
Qed.

Lemma token_fails_total nam w tok st :
  is_Some (zcurses_colorpairs (glob st)) ->
  exists b st',
    token_fails nam w tok st = Some (b, st') /\
    is_Some (zcurses_colorpairs (glob st')).
Proof.
  intros Ht. unfold token_fails, attr_body. munfold.
  destruct (bool_decide (is_Some (strchr tok "/"))).
  - destruct (colorset_total nam w tok st Ht) as (r & st' & -> & ?). eauto.
  - destruct (attr_sign tok) as [onoff ptr].
    unfold zcurses_attribute. munfold.
    repeat (case_match; simplify_eq/=); eauto.
Qed.

Lemma mapM_token_fails_total nam w toks st :
  is_Some (zcurses_colorpairs (glob st)) ->
  is_Some (mapM (token_fails nam w) toks st).
Proof.
  revert st. induction toks as [|tok toks IH]; intros st Ht; cbn; [by eexists|].
  munfold.
  destruct (token_fails_total nam w tok st Ht) as (b & st1 & -> & Ht1).
  destruct (IH st1 Ht1) as [[outs st2] ->]. by eexists.
Qed.

(** With the colour table allocated, [attr] on a valid window returns,
    having taken the tokens after the window name one by one from left to
    right, each from the state the one before left behind: there is one
    outcome per token, and the return value is 1 when some token failed
    and 0 when none did. *)
Lemma attr_batch_attempts_every_token nam args st node st1 zw :
  zcurses_validate_window (args !! 0%nat) ZCURSES_USED st
    = Some (Some node, st1) ->
  zcurses_windows (glob st) !! node = Some zw ->
  let toks := drop 1 args in
  (forall r st',
     zccmd_attr nam args st = Some (r, st') <->
     exists outs,
       mapM (token_fails nam (win zw)) toks st1 = Some (outs, st') /\
       length outs = length toks /\
       (r = 1 /\ true ∈ outs \/ r = 0 /\ true ∉ outs)) /\
  (is_Some (zcurses_colorpairs (glob st)) ->
   is_Some (zccmd_attr nam args st)).
Proof.
  intros Hv Hzw toks.
  pose proof Hv as Hv'.
  apply validate_inv in Hv' as (Hw & [e He] & Hres & _).
  destruct (Hres node eq_refl) as (_ & n & Ha & _).
  assert (zccmd_attr nam args st =
            ((outs ← mapM (token_fails nam (win zw)) toks;
              mret (if existsb id outs then 1 else 0)) : M Z) st1) as Heq.
  { unfold zccmd_attr, getdata. munfold. rewrite Ha in *. rewrite Hv, He.
    cbn [glob world zcurses_windows set_zc_errno]. rewrite Hzw.
    rewrite attr_loop_mapM. munfold.
    destruct st1 as [g1 w1]. cbn in He, Hw. by subst. }
  split.
  - intros r st'. rewrite Heq. munfold.
    destruct (mapM (token_fails nam (win zw)) toks st1) as [[outs st2]|] eqn:Hm.
    + pose proof (mapM_length _ _ _ _ _ Hm) as Hlen.
      pose proof (existsb_id_true outs) as Hex. split.
      * intros [= <- <-]. exists outs. split_and!; [done..|].
        destruct (existsb id outs); [left|right]; split; try done.
        -- by apply Hex.
        -- intros Hin. by apply Hex in Hin.
      * intros (outs' & [= <- <-] & _ & Hr). f_equal. f_equal.
        destruct Hr as [[-> Hin]|[-> Hnin]].
        -- by rewrite (proj2 Hex Hin).
        -- destruct (existsb id outs); [|done].
           exfalso. apply Hnin. by apply Hex.
    + split; [done|]. by intros (outs & ? & _).
  - intros Ht. rewrite Heq. munfold.
    assert (is_Some (zcurses_colorpairs (glob st1))) as Ht1.
    { by rewrite He. }
    destruct (mapM_token_fails_total nam (win zw) toks st1 Ht1)
      as [[outs st2] ->].
    by eexists.
Qed.

(** ** A colour token without a colour table *)

Lemma attr_loop_plain_tokens nam w pre rest ret st :
  (forall t, t ∈ pre -> strchr t "/" = None) ->
  attr_loop nam w (pre ++ rest) ret st = None \/
  exists ret' w',
    attr_loop nam w (pre ++ rest) ret st =
      attr_loop nam w rest ret' (State (glob st) w').
Proof.
  revert ret st. induction pre as [|t pre IH]; intros ret st Hpre.
  - right. exists ret, (world st). by destruct st.
  - cbn [app attr_loop]. munfold.
    destruct (attr_body nam w t ret st) as [[ret1 st1]|] eqn:Hb; [|by left].
    assert (glob st1 = glob st) as Hg.
    { revert Hb. unfold attr_body. munfold.
      rewrite (Hpre t) by by left.
      rewrite bool_decide_eq_false_2 by by intros [? ?].
      destruct (attr_sign t) as [onoff ptr].
      destruct (zcurses_attribute w (Some ptr) onoff st)
        as [[r0 st0]|] eqn:Ha; [|done].
      apply attribute_inv in Ha.
      destruct (Z.eqb r0 0); intros [= _ <-]; done. }
    destruct (IH ret1 st1) as [Hn|(ret' & w' & He)].
    + intros t' Ht'. apply Hpre. by right.
    + by left.
    + right. exists ret', w'. by rewrite He, Hg.
Qed.

(** C7 (defect).  [attr] on a valid window when the colour table has never
    been allocated ([zcurses_colorpairs] is NULL because [start_color]
    failed in [zccmd_init], which returns 0 all the same) and the module is
    not in phase 1: the first token with a '/' makes [zcurses_colorset]
    hand the NULL table to [gethashnode].  The call does not return: the
    tokens after that one are not attempted and no failure is reported. *)
Theorem attr_colour_token_without_table nam args st node st1 zw pre k post :
  zcurses_validate_window (args !! 0%nat) ZCURSES_USED st
    = Some (Some node, st1) ->
  zcurses_windows (glob st) !! node = Some zw ->
  drop 1 args = pre ++ k :: post ->
  (forall t, t ∈ pre -> strchr t "/" = None) ->
  is_Some (strchr k "/") ->
  zc_color_phase (glob st) <> 1 ->
  zcurses_colorpairs (glob st) = None ->
  zccmd_attr nam args st = None.
Proof.
  intros Hv Hzw Hargs Hpre Hk Hph Htbl.
  pose proof Hv as Hv'.
  apply validate_inv in Hv' as (Hw & [e He] & Hres & _).
  destruct (Hres node eq_refl) as (_ & n & Ha & _).
  unfold zccmd_attr, getdata. munfold. rewrite Ha in *. rewrite Hv, He.
  cbn [glob world zcurses_windows set_zc_errno]. rewrite Hzw, Hargs.
  destruct (attr_loop_plain_tokens nam (win zw) pre (k :: post) 0 st1 Hpre)
    as [Hn|(ret' & w' & Heq)]; [done|].
  rewrite Heq. cbn [attr_loop]. munfold.
  unfold attr_body. munfold. rewrite bool_decide_eq_true_2 by done.
  unfold zcurses_colorset. munfold. cbn [glob]. rewrite He.
  cbn [zc_color_phase zcurses_colorpairs set_zc_errno].
  rewrite (proj2 (Z.eqb_neq _ _) Hph), Htbl. done.
Qed.

(** ** Key codes without a name *)

Lemma to_int_small x : -2147483648 <= x <= 2147483647 -> to_int x = x.
Proof.
  intros H. unfold to_int, wrap_signed.
  change (2 ^ (32 - 1)) with 2147483648. change (2 ^ 32) with 4294967296.
  rewrite Z.mod_small by lia. lia.
Qed.

(** C2.  [input] with both output names given, when the read has yielded
    the key code [code] (an [int]), the first name has been set and the
    table of key names, which lists KEY_F0, has no entry for [code].  The
    source takes the read for a special key when [code > 0]; then the
    second name is set to "F" followed by [code - KEY_F0] when [code] is at
    or above KEY_F0, and to the decimal number [code] otherwise.  (When
    [code <= 0] the read is not a special key for the source and the
    second name is set to the empty string.)  The subcommand returns 0,
    or 1 when that assignment fails. *)
Theorem input_unnamed_key_code_f0_listed
    nam args st node st1 zw a1 a2 instr code st2 :
  zcurses_validate_window (args !! 0%nat) ZCURSES_USED st
    = Some (Some node, st1) ->
  zcurses_windows (glob st) !! node = Some zw ->
  args !! 1%nat = Some a1 ->
  args !! 2%nat = Some a2 ->
  input_read (win zw) (State (glob st1) (keypad (win zw) true (world st1)))
    = Some (Some (instr, code), st2) ->
  fst (setsparam a1 (c_string instr) (world st2)) = true ->
  code <= 2147483647 ->
  0 <= KEY_F0 ->
  is_Some (nnp_by_number keypad_names KEY_F0) ->
  nnp_by_number keypad_names code = None ->
  let w3 := snd (setsparam a1 (c_string instr) (world st2)) in
  let symbol :=
    if 0 <? code then
      if KEY_F0 <=? code then "F" +:+ sprintf_d (code - KEY_F0)
      else sprintf_d code
    else "" in
  zccmd_input nam args st =
    Some (if fst (setsparam a2 symbol w3) then 0 else 1,
          State (glob st2) (snd (setsparam a2 symbol w3))).
Proof.
  intros Hv Hzw Ha1 Ha2 Hrd Hset Hcode HF0 Hlisted Htab w3 symbol.
  assert (code <> KEY_F0) as Hne.
  { intros ->. rewrite Htab in Hlisted. by destruct Hlisted. }
  pose proof Hv as Hv'.
  apply validate_inv in Hv' as (Hw & [e He] & _).
  destruct st1 as [g1 w1]. cbn in Hw, He. subst g1 w1.
  unfold zccmd_input, getdata. munfold. rewrite Hv.
  cbn [glob world zcurses_windows set_zc_errno] in *.
  rewrite Hzw, Ha1, Ha2.
  rewrite !bool_decide_eq_true_2 by eauto. cbn [andb glob world].
  match goal with
  | |- context [input_read ?a ?b] =>
      destruct (input_read a b) as [[rd st2']|]
  end; [|done].
  injection Hrd as -> ->.
  change (default "REPLY" (Some a1)) with a1.
  subst w3.
  destruct (setsparam a1 (c_string instr) (world st2)) as [ok w3'] eqn:Hs.
  cbn in Hset. subst ok. cbn [negb glob world snd].
  assert ((if 0 <? code then keypad_fallback code else "") = symbol) as Hsym.
  { unfold keypad_fallback, symbol.
    destruct (Z.ltb_spec 0 code); [|done].
    destruct (Z.ltb_spec KEY_F0 code), (Z.leb_spec KEY_F0 code);
      try lia; try done.
    by rewrite to_int_small by lia. }
  rewrite <- Hsym.
  destruct (0 <? code); cbn [glob world].
  - rewrite Htab. cbn [glob world].
    destruct (setsparam a2 (keypad_fallback code) w3') as [ok w4].
    by destruct ok.
  - destruct (setsparam a2 "" w3') as [ok w4]. by destruct ok.
Qed.

(** ** Colour pairs: one request *)

Lemma colorset_enter nam w k st :
  enters_block (glob st) k ->
  zcurses_colorset nam w k st =
    match colorset_new nam k st with
    | Some (Some cp, st1) =>
        Some (c_bool (Z.eqb (fst (wcolor_set w cp (world st1))) ERR),
              State (glob st1) (snd (wcolor_set w cp (world st1))))
    | Some (None, st1) => Some (1, st1)
    | None => None
    end.
Proof.
  intros Hin. unfold zcurses_colorset. munfold.
  assert (forall o : option Z,
            match o with
            | Some cp => fun st0 : state => Some (Some cp, st0)
            | None => colorset_new nam k
            end st =
            match o with
            | Some cp => Some (Some cp, st)
            | None => colorset_new nam k st
            end) as Hm by (by intros [?|]).
  destruct Hin as [Hph|(tbl & Htbl & Hk)].
  - rewrite Hph. cbn [Z.eqb Pos.eqb].
    destruct (colorset_new nam k st) as [[[cp|] st1]|]; [|done..].
    by destruct (wcolor_set w cp (world st1)).
  - destruct (Z.eqb (zc_color_phase (glob st)) 1).
    + destruct (colorset_new nam k st) as [[[cp|] st1]|]; [|done..].
      by destruct (wcolor_set w cp (world st1)).
    + rewrite Htbl, Hk.
      destruct (colorset_new nam k st) as [[[cp|] st1]|]; [|done..].
      by destruct (wcolor_set w cp (world st1)).
Qed.

(** The block succeeds: the counter is advanced, the pair is defined, the
    node is stored under the name, replacing any node of that name. *)
Lemma colorset_new_alloc nam k st cp bg tbl :
  strchr k "/" = Some (cp, bg) ->
  zcurses_color cp <> -1 ->
  zcurses_color bg <> -1 ->
  zcurses_colorpairs (glob st) = Some tbl ->
  let n := to_short (next_cp (glob st) + 1) in
  let w1 := snd (init_pair n (zcurses_color cp) (zcurses_color bg) (world st)) in
  n < COLOR_PAIRS ->
  fst (init_pair n (zcurses_color cp) (zcurses_color bg) (world st)) <> ERR ->
  fst (zalloc w1) = true ->
  colorset_new nam k st =
    Some (Some n,
          State (set_zcurses_colorpairs (Some (<[k := n]> tbl))
                   (set_next_cp n (set_zc_color_phase 2 (glob st))))
            (snd (zalloc w1))).
Proof.
  intros Hs Hf Hb Htbl n w1 Hn Hip Hza.
  unfold colorset_new. munfold. rewrite Hs.
  rewrite (proj2 (Z.eqb_neq _ _) Hf), (proj2 (Z.eqb_neq _ _) Hb).
  sred. fold n. rewrite (proj2 (Z.leb_gt _ _) Hn). sred.
  subst w1.
  destruct (init_pair n (zcurses_color cp) (zcurses_color bg) (world st))
    as [r w1]. sred.
  rewrite (proj2 (Z.eqb_neq _ _) Hip). sred.
  destruct (zalloc w1) as [ok w2]. sred. subst ok.
  sred. by rewrite Htbl.
Qed.

(** The block fails after the counter has been advanced: the counter keeps
    its new value and the table is not touched. *)
Lemma colorset_new_consumed nam k st :
  valid_colorpair k = true ->
  let n := to_short (next_cp (glob st) + 1) in
  (COLOR_PAIRS <= n \/
   exists cp bg,
     strchr k "/" = Some (cp, bg) /\
     let ip := init_pair n (zcurses_color cp) (zcurses_color bg) (world st) in
     (fst ip = ERR \/ fst (zalloc (snd ip)) = false)) ->
  exists w',
    colorset_new nam k st =
      Some (None, State (set_next_cp n (set_zc_color_phase 2 (glob st))) w').
Proof.
  intros Hv n Hfail. unfold valid_colorpair in Hv.
  unfold colorset_new. munfold.
  destruct (strchr k "/") as [[cp bg]|] eqn:Hs; [|done].
  apply andb_true_iff in Hv as [Hf Hb].
  apply negb_true_iff in Hf, Hb. rewrite Hf, Hb.
  sred. fold n.
  destruct (Z.leb_spec COLOR_PAIRS n) as [|Hlt]; [by eexists|].
  destruct Hfail as [?|(cp' & bg' & [= <- <-] & Hip)]; [lia|].
  cbv zeta in Hip. sred.
  destruct (init_pair n (zcurses_color cp) (zcurses_color bg) (world st))
    as [r w1]. sred.
  destruct (Z.eqb_spec r ERR) as [|Hr]; [by eexists|].
  destruct Hip as [?|Hza]; [done|]. sred.
  destruct (zalloc w1) as [ok w2]. sred. subst ok.
  by eexists.
Qed.

(** The block fails before the counter is touched: only the phase
    changes. *)
Lemma colorset_new_invalid nam k st :
  valid_colorpair k = false ->
  exists w',
    colorset_new nam k st =
      Some (None, State (set_zc_color_phase 2 (glob st)) w').
Proof.
  intros Hv. unfold valid_colorpair in Hv.
  unfold colorset_new. munfold.
  destruct (strchr k "/") as [[cp bg]|] eqn:Hs; [|by eexists].
  apply andb_false_iff in Hv.
  destruct (Z.eqb (zcurses_color cp) (-1)),
           (Z.eqb (zcurses_color bg) (-1));
    cbn in *; try (by eexists).
  by destruct Hv.
Qed.

(** ** Colour pairs: the cache over a run *)

Lemma colorset_success_cached nam w k st st1 :
  zcurses_colorset nam w k st = Some (0, st1) ->
  exists p w0,
    cached (glob st1) k p /\ world st1 = snd (wcolor_set w p w0).
Proof.
  intros H.
  assert (enters_block (glob st) k ->
          exists p w0,
            cached (glob st1) k p /\ world st1 = snd (wcolor_set w p w0))
    as Hin.
  { intros Hin. rewrite (colorset_enter _ _ _ _ Hin) in H.
    destruct (colorset_new nam k st) as [[[cp|] st']|] eqn:Hnew; [|done..].
    apply colorset_new_inv in Hnew
      as (Hph & _ & _ & _ & _ & _ & tbl & _ & Htbl).
    injection H as _ <-. exists cp, (world st'). split; [|done].
    split; [cbn; lia|]. exists (<[k:=cp]> tbl). split; [done|].
    apply lookup_insert_eq. }
  destruct (Z.eq_dec (zc_color_phase (glob st)) 1) as [Hph|Hph].
  { apply Hin. by left. }
  destruct (zcurses_colorpairs (glob st)) as [tbl|] eqn:Htbl.
  - destruct (tbl !! k) as [cp|] eqn:Hk.
    + rewrite (colorset_hit nam w k st cp) in H.
      * injection H as _ <-. exists cp, (world st). split; [|done].
        split; [done|]. by exists tbl.
      * split; [done|]. by exists tbl.
    + apply Hin. right. by exists tbl.
  - unfold zcurses_colorset in H. munfold.
    destruct (Z.eqb_spec (zc_color_phase (glob st)) 1); [done|].
    by rewrite Htbl in H.
Qed.

Lemma steps_session st tr st' :
  steps st tr st' -> session_started (glob st) -> session_started (glob st').
Proof.
  induction 1 as [|st a r st1 tr st2 Hp _ IH]; [done|].
  intros Hs. apply IH. by eapply perform_session.
Qed.

Lemma steps_cached st tr st' k p :
  steps st tr st' ->
  session_started (glob st) ->
  cached (glob st) k p -> cached (glob st') k p.
Proof.
  induction 1 as [|st a r st1 tr st2 Hp _ IH]; [done|].
  intros Hs Hc. apply IH.
  - by eapply perform_session.
  - by eapply perform_colour.
Qed.

Lemma steps_phase_2 st tr st' :
  steps st tr st' ->
  zc_color_phase (glob st) = 2 -> zc_color_phase (glob st') = 2.
Proof.
  induction 1 as [|st a r st1 tr st2 Hp _ IH]; [done|].
  intros H2. apply IH. by eapply perform_colour.
Qed.

(** C1.  In a started session, once a colour request for a name has
    succeeded, the name has a pair [p] in the table (the pair that request
    applied), and whatever is called afterwards, every later request for
    the same name does nothing but [wcolor_set] with [p]: the counter, the
    table and the rest of the module's state stay as they are.  And a
    request made in phase 1, whatever the table holds under its name, takes
    the next counter value, defines that pair with [init_pair], stores it
    under the name and applies it, provided that the name is well formed,
    the counter stays below COLOR_PAIRS and the platform accepts the
    definition. *)
Theorem colorset_reuses_pair_and_first_request_is_fresh :
  (forall nam w k st0 st1 tr st2,
     session_started (glob st0) ->
     zcurses_colorset nam w k st0 = Some (0, st1) ->
     steps st1 tr st2 ->
     exists p w0,
       cached (glob st1) k p /\
       world st1 = snd (wcolor_set w p w0) /\
       forall nam' w',
         zcurses_colorset nam' w' k st2 =
           Some (c_bool (Z.eqb (fst (wcolor_set w' p (world st2))) ERR),
                 State (glob st2) (snd (wcolor_set w' p (world st2))))) /\
  (forall nam w k st cp bg tbl,
     zc_color_phase (glob st) = 1 ->
     zcurses_colorpairs (glob st) = Some tbl ->
     strchr k "/" = Some (cp, bg) ->
     zcurses_color cp <> -1 ->
     zcurses_color bg <> -1 ->
     let n := to_short (next_cp (glob st) + 1) in
     let ip := init_pair n (zcurses_color cp) (zcurses_color bg) (world st) in
     let w2 := snd (zalloc (snd ip)) in
     n < COLOR_PAIRS ->
     fst ip <> ERR ->
     fst (zalloc (snd ip)) = true ->
     zcurses_colorset nam w k st =
       Some (c_bool (Z.eqb (fst (wcolor_set w n w2)) ERR),
             State (set_zcurses_colorpairs (Some (<[k := n]> tbl))
                      (set_next_cp n (set_zc_color_phase 2 (glob st))))
               (snd (wcolor_set w n w2)))).
Proof.
  split.
  - intros nam w k st0 st1 tr st2 Hs Hc Hsteps.
    pose proof Hc as Hc'.
    apply colorset_success_cached in Hc' as (p & w0 & Hp & Hw).
    exists p, w0. split_and!; [done..|].
    intros nam' w'. apply colorset_hit.
    eapply steps_cached; [done| |done].
    apply (perform_session (A_colorset nam w k) st0 0 st1 Hc Hs).
  - intros nam w k st cp bg tbl Hph Htbl Hs Hf Hb n ip w2 Hn Hip Hza.
    rewrite colorset_enter by (by left).
    by rewrite (colorset_new_alloc nam k st cp bg tbl).
Qed.

(** ** Colour pairs: capacity *)

Lemma strchr_split s c a b :
  strchr s c = Some (a, b) -> s = a +:+ String c b.
Proof.
  revert a. induction s as [|x s IH]; intros a; cbn; [done|].
  destruct (Ascii.eqb_spec x c) as [->|_].
  - by intros [= <- <-].
  - destruct (strchr s c) as [[a' b']|]; [|done].
    intros [= <- <-]. by rewrite (IH a' eq_refl).
Qed.

Lemma nnp_by_name_elem tbl s v :
  nnp_by_name tbl s = Some v -> s ∈ tbl.*1.
Proof.
  induction tbl as [|[n k] tbl IH]; cbn; [done|].
  destruct (streq s n) eqn:E.
  - apply streq_true in E as ->. intros _. by left.
  - intros H. right. by apply IH.
Qed.

Lemma zcurses_color_known s :
  zcurses_color s <> -1 -> s ∈ zcurses_colors.*1.
Proof.
  unfold zcurses_color.
  destruct (nnp_by_name zcurses_colors s) as [v|] eqn:E; [|done].
  intros _. by eapply nnp_by_name_elem.
Qed.

Lemma valid_colorpair_elem k :
  valid_colorpair k = true -> k ∈ all_colorpairs.
Proof.
  unfold valid_colorpair, all_colorpairs.
  destruct (strchr k "/") as [[cp bg]|] eqn:Hs; [|done].
  intros [Hf Hb]%andb_true_iff.
  apply negb_true_iff, Z.eqb_neq, zcurses_color_known in Hf, Hb.
  apply strchr_split in Hs as ->.
  apply list_elem_of_bind. exists cp. split; [|done].
  apply list_elem_of_bind. exists bg. split; [|done].
  by left.
Qed.

(** There are 64 valid names, so a series of distinct ones is far from
    exhausting a short counter. *)
Lemma distinct_colorpairs_length keys :
  NoDup keys ->
  (forall k, k ∈ keys -> valid_colorpair k = true) ->
  (length keys <= 64)%nat.
Proof.
  intros Hnd Hv.
  change 64%nat with (length all_colorpairs).
  apply submseteq_length, NoDup_submseteq; [done|].
  intros k Hk. by apply valid_colorpair_elem, Hv.
Qed.

(** A request for a valid name that enters the block, on a platform that
    accepts every definition: the pair is stored if the advanced counter
    is below COLOR_PAIRS, and the request returns 1 otherwise. *)
Lemma colorset_serves nam w k st tbl :
  accepts_pairs ->
  valid_colorpair k = true ->
  zcurses_colorpairs (glob st) = Some tbl ->
  enters_block (glob st) k ->
  let n := to_short (next_cp (glob st) + 1) in
  exists r st',
    zcurses_colorset nam w k st = Some (r, st') /\
    zc_color_phase (glob st') = 2 /\
    next_cp (glob st') = n /\
    (n < COLOR_PAIRS ->
     zcurses_colorpairs (glob st') = Some (<[k := n]> tbl)) /\
    (COLOR_PAIRS <= n ->
     r = 1 /\ zcurses_colorpairs (glob st') = Some tbl).
Proof.
  intros [Hip Hza] Hv Htbl Hin n.
  rewrite colorset_enter by done.
  destruct (Z.lt_ge_cases n COLOR_PAIRS) as [Hlt|Hge].
  - pose proof Hv as Hv'. unfold valid_colorpair in Hv'.
    destruct (strchr k "/") as [[cp bg]|] eqn:Hs; [|done].
    apply andb_true_iff in Hv' as [Hf Hb].
    apply negb_true_iff, Z.eqb_neq in Hf, Hb.
    rewrite (colorset_new_alloc nam k st cp bg tbl) by done.
    eexists _, _. split; [done|]. sred. fold n.
    split_and!; [done|done|done|lia].
  - destruct (colorset_new_consumed nam k st Hv) as (w' & ->); [by left|].
    eexists _, _. split; [done|]. sred. fold n.
    split_and!; [done|done|lia|done].
Qed.

Lemma resolve_all_spec nam w keys st tbl c :
  accepts_pairs ->
  zcurses_colorpairs (glob st) = Some tbl ->
  next_cp (glob st) = c ->
  0 <= c ->
  c + Z.of_nat (length keys) <= 32767 ->
  NoDup keys ->
  (forall k, k ∈ keys -> valid_colorpair k = true /\ tbl !! k = None) ->
  exists rs st' tbl',
    resolve_all nam w keys st = Some (rs, st') /\
    zcurses_colorpairs (glob st') = Some tbl' /\
    next_cp (glob st') = c + Z.of_nat (length keys) /\
    (forall k, k ∉ keys -> tbl' !! k = tbl !! k) /\
    forall (i : nat) k,
      keys !! i = Some k ->
      (c + Z.of_nat i + 1 < COLOR_PAIRS ->
       tbl' !! k = Some (c + Z.of_nat i + 1)) /\
      (COLOR_PAIRS <= c + Z.of_nat i + 1 ->
       tbl' !! k = None /\ rs !! i = Some 1).
Proof.
  intros Hacc. unfold resolve_all.
  revert st tbl c. induction keys as [|k keys IH];
    intros st tbl c Htbl Hc Hc0 Hlen Hnd Hkeys.
  - exists [], st, tbl. cbn. split_and!; [done|done|lia|done|done].
  - apply NoDup_cons in Hnd as [Hk Hnd].
    destruct (Hkeys k) as [Hv Hnone]; [by left|].
    assert (to_short (next_cp (glob st) + 1) = c + 1) as Hn.
    { rewrite Hc. apply to_short_small. cbn [length] in Hlen. lia. }
    destruct (colorset_serves nam w k st tbl Hacc Hv Htbl) as
      (r & st1 & Hset & _ & Hc1 & Hok & Hfull).
    { right. by exists tbl. }
    rewrite Hn in Hc1, Hok, Hfull.
    set (tbl1 := if decide (c + 1 < COLOR_PAIRS) then <[k := c + 1]> tbl
                 else tbl).
    assert (zcurses_colorpairs (glob st1) = Some tbl1) as Htbl1.
    { unfold tbl1. case_decide; [by apply Hok|]. apply Hfull. lia. }
    assert (forall k', k' ≠ k -> tbl1 !! k' = tbl !! k') as Hother.
    { intros k' Hne. unfold tbl1. case_decide; [|done].
      by rewrite lookup_insert_ne. }
    destruct (IH st1 tbl1 (c + 1)) as (rs & st' & tbl' & Hrun & Ht' & Hc' & Hout & Hin).
    + done.
    + done.
    + lia.
    + cbn [length] in Hlen. lia.
    + done.
    + intros k' Hk'. destruct (Hkeys k') as [? ?]; [by right|].
      split; [done|]. rewrite Hother; [done|]. by intros ->.
    + exists (r :: rs), st', tbl'. cbn [mapM]. munfold.
      rewrite Hset, Hrun. split_and!.
      * done.
      * done.
      * rewrite Hc'. cbn [length]. lia.
      * intros k' Hk'. apply not_elem_of_cons in Hk' as [Hne Hk'].
        rewrite Hout by done. by apply Hother.
      * intros [|i] k'; cbn.
        -- intros [= <-]. rewrite Hout by done. unfold tbl1.
           replace (c + Z.of_nat 0 + 1) with (c + 1) by lia. split.
           ++ intros ?. rewrite decide_True by done. apply lookup_insert_eq.
           ++ intros ?. rewrite decide_False by lia.
              split; [done|]. f_equal. apply Hfull. lia.
        -- intros Hi. destruct (Hin i k' Hi) as [H1 H2].
           replace (c + Z.of_nat (S i) + 1) with (c + 1 + Z.of_nat i + 1) by lia.
           done.
Qed.

(** C3.  On a platform that accepts every pair definition, starting with
    the counter at 0 and an empty table, a series of requests for distinct
    valid names does not crash, and the request number [n] (counting from
    1) gets pair [n] when [n <= COLOR_PAIRS - 1], and otherwise returns 1
    and leaves no node for its name. *)
Theorem pair_allocation_fails_beyond_capacity nam w keys st :
  accepts_pairs ->
  NoDup keys ->
  (forall k, k ∈ keys -> valid_colorpair k = true) ->
  next_cp (glob st) = 0 ->
  zcurses_colorpairs (glob st) = Some ∅ ->
  exists rs st' tbl',
    resolve_all nam w keys st = Some (rs, st') /\
    zcurses_colorpairs (glob st') = Some tbl' /\
    forall (i : nat) k,
      keys !! i = Some k ->
      let n := Z.of_nat (S i) in
      (n <= COLOR_PAIRS - 1 -> tbl' !! k = Some n) /\
      (COLOR_PAIRS - 1 < n -> tbl' !! k = None /\ rs !! i = Some 1).
Proof.
  intros Hacc Hnd Hv Hc Htbl.
  pose proof (distinct_colorpairs_length keys Hnd Hv) as Hlen.
  destruct (resolve_all_spec nam w keys st ∅ 0)
    as (rs & st' & tbl' & Hrun & Ht' & _ & _ & Hin);
    [done|done|done|done|lia|done| |].
  { intros k Hk. split; [by apply Hv|]. apply lookup_empty. }
  exists rs, st', tbl'. split_and!; [done|done|].
  intros i k Hi n. destruct (Hin i k Hi) as [H1 H2]. subst n. split.
  - intros ?. rewrite H1 by lia. f_equal. lia.
  - intros ?. apply H2. lia.
Qed.

(** When [zccmd_init] brings the module into phase 1, the table it leaves
    is the empty one it has just made. *)
Lemma init_phase_1_empty_table nam args st r st' :
  zccmd_init nam args st = Some (r, st') ->
  zc_color_phase (glob st) <> 1 ->
  zc_color_phase (glob st') = 1 ->
  zcurses_colorpairs (glob st') = Some ∅.
Proof.
  unfold zccmd_init, zcurses_getwindowbyname. munfold.
  intros H Hne H1.
  repeat (case_match; simplify_eq/=); cbn in *; try done.
Qed.

(** ** Phase 1 in the states the module reaches *)

Lemma same_colour_untouched g g' :
  same_colour g g' -> untouched_colour g -> untouched_colour g'.
Proof.
  intros (Hp & Ht & Hn) [H0 H1]. unfold untouched_colour.
  rewrite Hp, Ht, Hn. done.
Qed.

Lemma phase_2_untouched g : zc_color_phase g = 2 -> untouched_colour g.
Proof. intros H. unfold untouched_colour. rewrite H. done. Qed.

Lemma colorset_phase_2_or_same nam w k st r st' :
  zcurses_colorset nam w k st = Some (r, st') ->
  zc_color_phase (glob st') = 2 \/ glob st' = glob st.
Proof.
  intros H.
  assert (enters_block (glob st) k -> zc_color_phase (glob st') = 2) as Hin.
  { intros Hin. rewrite (colorset_enter _ _ _ _ Hin) in H.
    destruct (colorset_new nam k st) as [[o st1]|] eqn:Hn; [|done].
    apply colorset_new_inv in Hn as (Hp & _).
    destruct o as [cp|]; by injection H as _ <-. }
  destruct (Z.eq_dec (zc_color_phase (glob st)) 1) as [Hph|Hph].
  { left. apply Hin. by left. }
  destruct (zcurses_colorpairs (glob st)) as [tbl|] eqn:Htbl.
  - destruct (tbl !! k) as [cp|] eqn:Hk.
    + right. rewrite (colorset_hit nam w k st cp) in H.
      * by injection H as _ <-.
      * split; [done|]. by exists tbl.
    + left. apply Hin. right. by exists tbl.
  - unfold zcurses_colorset in H. munfold.
    destruct (Z.eqb_spec (zc_color_phase (glob st)) 1); [done|].
    by rewrite Htbl in H.
Qed.

Lemma attr_loop_untouched nam w toks ret st r st' :
  attr_loop nam w toks ret st = Some (r, st') ->
  untouched_colour (glob st) -> untouched_colour (glob st').
Proof.
  revert ret st. induction toks as [|tok toks IH]; intros ret st; cbn.
  - munfold. by intros [= <- <-].
  - munfold.
    destruct (attr_body nam w tok ret st) as [[r1 st1]|] eqn:Hb; [|done].
    intros H Hu. apply (IH _ _ H). clear H.
    unfold attr_body in Hb. munfold.
    destruct (bool_decide (is_Some (strchr tok "/"))).
    + destruct (zcurses_colorset nam w tok st) as [[r2 st2]|] eqn:Hc; [|done].
      injection Hb as _ <-.
      destruct (colorset_phase_2_or_same _ _ _ _ _ _ Hc) as [?|Hsame];
        [by apply phase_2_untouched|by rewrite Hsame].
    + destruct (attr_sign tok) as [onoff ptr].
      destruct (zcurses_attribute w (Some ptr) onoff st) as [[r2 st2]|] eqn:Ha;
        [|done].
      apply attribute_inv in Ha.
      assert (glob st1 = glob st) as ->; [|done].
      repeat (case_match; simplify_eq/=); done.
Qed.

Lemma perform_untouched a st r st' :
  perform a st = Some (r, st') ->
  untouched_colour (glob st) -> untouched_colour (glob st').
Proof.
  destruct a; cbn; intros H Hu.
  - revert H. unfold zccmd_init, zcurses_getwindowbyname. munfold.
    intros H. destruct Hu as [H0 H1].
    repeat (case_match; simplify_eq/=); unfold untouched_colour; cbn;
      try done.
    + apply Z.eqb_eq in H3. destruct (H0 H3) as [_ Hn].
      split; [done|]. by intros _.
    + apply Z.eqb_neq in H3. split; [done|].
      intros Hp. destruct (H1 Hp) as [_ Hn]. done.
  - apply addwin_inv in H as [Hs _]. by eapply same_colour_untouched.
  - apply delwin_inv in H as [Hs _]. by eapply same_colour_untouched.
  - apply endwin_inv in H as ->. done.
  - revert H. unfold zccmd_attr, warn_validate, getdata. munfold.
    destruct (args !! 0%nat) as [a0|]; [|by intros [= <- <-]].
    destruct (zcurses_validate_window _ _ st) as [[res st1]|] eqn:Hv; [|done].
    apply validate_inv in Hv as (_ & [e He] & _).
    assert (untouched_colour (glob st1)) as Hu1 by (by rewrite He).
    destruct res as [node|].
    + destruct (zcurses_windows (glob st1) !! node) as [zw|]; [|done].
      intros H. by eapply attr_loop_untouched.
    + intros [= _ <-]. done.
  - apply scroll_inv in H as [Hs _]. by eapply same_colour_untouched.
  - apply input_inv in H as [Hs _]. by eapply same_colour_untouched.
  - destruct (colorset_phase_2_or_same _ _ _ _ _ _ H) as [?|Hsame];
      [by apply phase_2_untouched|by rewrite Hsame].
  - injection H as <- <-. done.
Qed.

(** Whatever is called after the module is loaded, phase 1 is only ever
    met with an empty table and the counter at 0: the first request of a
    session finds no node to set aside. *)
Lemma steps_untouched_colour w0 tr st :
  steps (boot w0) tr st ->
  zc_color_phase (glob st) = 1 ->
  zcurses_colorpairs (glob st) = Some ∅ /\ next_cp (glob st) = 0.
Proof.
  intros Hsteps.
  assert (untouched_colour (glob st)) as [_ H1]; [|done].
  remember (boot w0) as st0 eqn:Hb.
  assert (untouched_colour (glob st0)) as Hu by (by subst st0).
  clear Hb. induction Hsteps as [|st a r st1 tr st2 Hp _ IH]; [done|].
  apply IH. by eapply perform_untouched.
Qed.

(** ** The first request of a session *)

(** C10 (amended).  In a session that starts with the freshly loaded
    module, the first colour request after colour has been enabled finds
    the table empty and the counter at 0, and leaves the module in phase 2
    whatever its outcome: if its name is malformed or has an unknown
    colour it returns 1 and changes nothing but the phase; if the name is
    valid and the allocation fails it returns 1 and the table is still
    empty; in every case the table is empty afterwards or holds the one
    node this request has defined, for pair 1.  From there on the module
    stays in phase 2 whatever is called: every request looks its name up,
    one whose name has a node does nothing but [wcolor_set] with the pair
    of that node, and one whose name has none defines a pair for it.  No
    node predates the first request, so a pair found by the lookup is
    always one that was defined after colour was enabled. *)
Theorem bypass_ends_on_first_attempt w0 tr0 nam w k st r st1 :
  steps (boot w0) tr0 st ->
  zc_color_phase (glob st) = 1 ->
  zcurses_colorset nam w k st = Some (r, st1) ->
  zcurses_colorpairs (glob st) = Some ∅ /\
  next_cp (glob st) = 0 /\
  zc_color_phase (glob st1) = 2 /\
  (valid_colorpair k = false ->
   r = 1 /\ glob st1 = set_zc_color_phase 2 (glob st)) /\
  (valid_colorpair k = true ->
   (COLOR_PAIRS <= 1 \/
    exists cp bg,
      strchr k "/" = Some (cp, bg) /\
      let ip :=
        init_pair 1 (zcurses_color cp) (zcurses_color bg) (world st) in
      (fst ip = ERR \/ fst (zalloc (snd ip)) = false)) ->
   r = 1 /\ zcurses_colorpairs (glob st1) = Some ∅) /\
  (zcurses_colorpairs (glob st1) = Some ∅ \/
   zcurses_colorpairs (glob st1) = Some {[k := 1]} /\
   valid_colorpair k = true) /\
  (forall tr st2,
     steps st1 tr st2 ->
     zc_color_phase (glob st2) = 2 /\
     forall nam' w' k' tbl,
       zcurses_colorpairs (glob st2) = Some tbl ->
       match tbl !! k' with
       | Some p =>
           zcurses_colorset nam' w' k' st2 =
             Some (c_bool (Z.eqb (fst (wcolor_set w' p (world st2))) ERR),
                   State (glob st2) (snd (wcolor_set w' p (world st2))))
       | None => enters_block (glob st2) k'
       end).
Proof.
  intros Hreach Hph H.
  destruct (steps_untouched_colour _ _ _ Hreach Hph) as [Htbl Hcp].
  rewrite colorset_enter in H by (by left).
  destruct (colorset_new nam k st) as [[o st']|] eqn:Hnew; [|done].
  pose proof (colorset_new_inv _ _ _ _ _ Hnew) as (Hph' & _ & Ho).
  assert (glob st1 = glob st') as Hg.
  { destruct o as [cp|]; by injection H as _ <-. }
  rewrite Hg.
  assert (to_short (next_cp (glob st) + 1) = 1) as Hn by by rewrite Hcp.
  split_and!; [done|done|done| | | |].
  - intros Hinv.
    destruct (colorset_new_invalid nam k st Hinv) as (w1 & Hnew').
    rewrite Hnew' in Hnew. injection Hnew as <- <-.
    by injection H as <- <-.
  - intros Hv Hfail.
    destruct (colorset_new_consumed nam k st Hv) as (w1 & Hnew');
      [cbv zeta; by rewrite Hn|].
    rewrite Hnew' in Hnew. injection Hnew as <- <-.
    split; [by injection H as <- <-|]. by sred.
  - destruct o as [cp|].
    + destruct Ho as (-> & _ & _ & Hv & tbl & Ht & Ht').
      right. split; [|done]. rewrite Ht', Hn.
      rewrite Htbl in Ht. injection Ht as <-. done.
    + left. by rewrite Ho.
  - intros tr st2 Hsteps.
    assert (zc_color_phase (glob st2) = 2) as Hph2.
    { eapply steps_phase_2; [done|]. by rewrite Hg. }
    split; [done|]. intros nam' w' k' tbl Ht2.
    destruct (tbl !! k') as [p|] eqn:Hk'.
    + apply colorset_hit. split; [lia|]. by exists tbl.
    + right. by exists tbl.
Qed.

(** * The rest of the module *)

Section RestProofs.
Context {T : Terminal}.

(** ** What the display subcommands leave alone *)

Lemma set_zc_errno_same g : set_zc_errno (zc_errno g) g = g.
Proof. by destruct g. Qed.

Lemma set_zc_errno_twice e e' g :
  set_zc_errno e (set_zc_errno e' g) = set_zc_errno e g.
Proof. done. Qed.

Lemma string_loop_glob fuel str wstr st out st' :
  string_loop fuel str wstr st = Some (out, st') -> glob st' = glob st.
Proof.
  revert str wstr st. induction fuel as [|fuel IH]; intros str wstr st; cbn.
  - munfold. by intros [= _ <-].
  - destruct str as [|a str]; [munfold; by intros [= _ <-]|].
    munfold. intros H.
    repeat (case_match; simplify_eq/=); try done.
    all: apply IH in H; by rewrite H.
Qed.

Ltac frame_tac He :=
  repeat (case_match; simplify_eq/=); rewrite ?He in *; cbn in *;
  (split; [by eexists | by (left + right)]).

Lemma refresh_inv nam args st r st' :
  zccmd_refresh nam args st = Some (r, st') ->
  (exists e, glob st' = set_zc_errno e (glob st)) /\ (r = 0 \/ r = 1).
Proof.
  unfold zccmd_refresh, warn_validate, getdata, not_ok, c_bool. munfold.
  destruct (args !! 0%nat) as [a0|] eqn:Ha0.
  - destruct (zcurses_validate_window _ _ st) as [[res st1]|] eqn:Hv; [|done].
    apply validate_inv in Hv as (Hw & [e He] & _).
    intros H. frame_tac He.
  - intros H. repeat (case_match; simplify_eq/=); cbn.
    all: split; [exists (zc_errno (glob st)); by rewrite set_zc_errno_same|].
    all: by (left + right).
Qed.

Lemma move_inv nam args st r st' :
  zccmd_move nam args st = Some (r, st') ->
  (exists e, glob st' = set_zc_errno e (glob st)) /\ (r = 0 \/ r = 1).
Proof.
  unfold zccmd_move, warn_validate, getdata. munfold.
  destruct (zcurses_validate_window _ _ st) as [[res st1]|] eqn:Hv; [|done].
  apply validate_inv in Hv as (Hw & [e He] & _).
  intros H. frame_tac He.
Qed.

Lemma clear_inv nam args st r st' :
  zccmd_clear nam args st = Some (r, st') ->
  (exists e, glob st' = set_zc_errno e (glob st)) /\ (r = 0 \/ r = 1).
Proof.
  unfold zccmd_clear, warn_validate, getdata, not_ok, c_bool. munfold.
  destruct (zcurses_validate_window _ _ st) as [[res st1]|] eqn:Hv; [|done].
  apply validate_inv in Hv as (Hw & [e He] & _).
  intros H. frame_tac He.
Qed.

Lemma char_inv nam args st r st' :
  zccmd_char nam args st = Some (r, st') ->
  (exists e, glob st' = set_zc_errno e (glob st)) /\ (r = 0 \/ r = 1).
Proof.
  unfold zccmd_char, warn_validate, getdata. munfold.
  destruct (zcurses_validate_window _ _ st) as [[res st1]|] eqn:Hv; [|done].
  apply validate_inv in Hv as (Hw & [e He] & _).
  intros H. frame_tac He.
Qed.

Lemma string_inv nam args st r st' :
  zccmd_string nam args st = Some (r, st') ->
  (exists e, glob st' = set_zc_errno e (glob st)) /\ (r = 0 \/ r = 1).
Proof.
  unfold zccmd_string, warn_validate, getdata. munfold.
  destruct (zcurses_validate_window _ _ st) as [[res st1]|] eqn:Hv; [|done].
  apply validate_inv in Hv as (Hw & [e He] & _).
  intros H.
  repeat (case_match; simplify_eq/=);
    try match goal with
    | Hl : string_loop _ _ _ _ = Some _ |- _ =>
        apply string_loop_glob in Hl; cbn in Hl; rewrite Hl
    end;
    rewrite ?He in *; cbn in *;
    (split; [by eexists | by (left + right)]).
Qed.

Lemma border_inv nam args st r st' :
  zccmd_border nam args st = Some (r, st') ->
  (exists e, glob st' = set_zc_errno e (glob st)) /\ (r = 0 \/ r = 1).
Proof.
  unfold zccmd_border, warn_validate, getdata. munfold.
  destruct (zcurses_validate_window _ _ st) as [[res st1]|] eqn:Hv; [|done].
  apply validate_inv in Hv as (Hw & [e He] & _).
  intros H. frame_tac He.
Qed.

Lemma position_inv nam args st r st' :
  zccmd_position nam args st = Some (r, st') ->
  (exists e, glob st' = set_zc_errno e (glob st)) /\ (r = 0 \/ r = 1).
Proof.
  unfold zccmd_position, warn_validate, getdata. munfold.
  destruct (zcurses_validate_window _ _ st) as [[res st1]|] eqn:Hv; [|done].
  apply validate_inv in Hv as (Hw & [e He] & _).
  intros H. frame_tac He.
Qed.

(** ** The builtin *)

Lemma find_subcommand_Some tbl a0 zcsc :
  find_subcommand tbl a0 = Some zcsc -> zcsc ∈ tbl /\ zs_name zcsc = a0.
Proof.
  induction tbl as [|s tbl IH]; cbn; [done|].
  destruct (streq a0 (zs_name s)) eqn:E.
  - intros [= <-]. apply streq_true in E. split; [by left|done].
  - intros H. destruct (IH H). split; [by right|done].
Qed.

Lemma find_subcommand_None tbl a0 :
  find_subcommand tbl a0 = None <-> a0 ∉ zs_name <$> tbl.
Proof.
  induction tbl as [|s tbl IH]; cbn.
  - split; [intros _; by apply not_elem_of_nil|done].
  - destruct (streq a0 (zs_name s)) eqn:E.
    + apply streq_true in E. split; [done|]. intros H. destruct H.
      rewrite E. by left.
    + apply streq_false in E. rewrite IH, not_elem_of_cons. tauto.
Qed.

(** A call of the builtin is refused with a diagnostic, or is the call of
    the handler of the table with an argument count in its range and, for
    all but init and end, with "stdscr" registered. *)
Lemma bin_zcurses_inv nam args st r st' :
  bin_zcurses nam args st = Some (r, st') ->
  (r = 1 /\ exists msg, st' = State (glob st) (zwarnnam nam msg (world st))) \/
  exists a0 zcsc,
    args !! 0%nat = Some a0 /\
    find_subcommand scs a0 = Some zcsc /\
    zs_minargs zcsc <= Z.of_nat (length args) - 1 /\
    (0 <= zs_maxargs zcsc -> Z.of_nat (length args) - 1 <= zs_maxargs zcsc) /\
    (needs_session (zs_cmd zcsc) = true ->
     is_Some (find_window (zcurses_windows (glob st)) "stdscr")) /\
    zccmd_fn (zs_cmd zcsc) nam (drop 1 args) st = Some (r, st').
Proof.
  unfold bin_zcurses, zcurses_getwindowbyname. munfold.
  destruct (args !! 0%nat) as [a0|] eqn:Ha0; [|done].
  destruct (find_subcommand scs a0) as [zcsc|] eqn:Hf.
  - destruct (Z.ltb_spec (Z.of_nat (length args) - 1) (zs_minargs zcsc))
      as [Hmin|Hmin].
    { intros [= <- <-]. left. eauto. }
    destruct ((0 <=? zs_maxargs zcsc)
              && (zs_maxargs zcsc <? Z.of_nat (length args) - 1)) eqn:Hmax.
    { intros [= <- <-]. left. eauto. }
    destruct (needs_session (zs_cmd zcsc)
              && negb (bool_decide
                         (is_Some (find_window (zcurses_windows (glob st))
                                     "stdscr")))) eqn:Hg.
    { intros [= <- <-]. left. eauto. }
    intros H. right. exists a0, zcsc. split_and!; try done.
    + intros ?. apply andb_false_iff in Hmax as [?|?]; lia.
    + intros Hn. rewrite Hn in Hg. cbn in Hg.
      apply negb_false_iff, bool_decide_eq_true in Hg. done.
  - intros [= <- <-]. left. eauto.
Qed.

Lemma attr_loop_ret nam w toks ret st r st' :
  attr_loop nam w toks ret st = Some (r, st') -> r = ret \/ r = 1.
Proof.
  revert ret st. induction toks as [|tok toks IH]; intros ret st; cbn.
  - munfold. intros [= <- _]. by left.
  - munfold. destruct (attr_body nam w tok ret st) as [[ret' st1]|] eqn:Hb;
      [|done].
    intros H. apply IH in H.
    assert (ret' = ret \/ ret' = 1) as [->| ->]; [|done|by destruct H; right].
    revert Hb. unfold attr_body, zcurses_attribute. munfold. intros Hb.
    repeat (case_match; simplify_eq/=); auto.
Qed.

Lemma handler_ret c nam args st r st' :
  zccmd_fn c nam args st = Some (r, st') -> r = 0 \/ r = 1.
Proof.
  destruct c; cbn [zccmd_fn]; intros H.
  - revert H. unfold zccmd_init, zcurses_getwindowbyname. munfold. intros H.
    repeat (case_match; simplify_eq/=); auto.
  - revert H. unfold zccmd_addwin. munfold. intros H.
    repeat (case_match; simplify_eq/=); auto.
  - revert H. unfold zccmd_delwin, warn_validate. munfold. intros H.
    repeat (case_match; simplify_eq/=); auto.
  - by apply refresh_inv in H as [_ ?].
  - by apply move_inv in H as [_ ?].
  - by apply clear_inv in H as [_ ?].
  - by apply position_inv in H as [_ ?].
  - by apply char_inv in H as [_ ?].
  - by apply string_inv in H as [_ ?].
  - by apply border_inv in H as [_ ?].
  - revert H. unfold zccmd_endwin. munfold. intros H.
    repeat (case_match; simplify_eq/=); auto.
  - revert H. unfold zccmd_attr, warn_validate. munfold. intros H.
    repeat (case_match; simplify_eq/=); auto.
    apply attr_loop_ret in H. destruct H; auto.
  - revert H. unfold zccmd_scroll, warn_validate. munfold. intros H.
    repeat (case_match; simplify_eq/=); auto.
  - revert H. unfold zccmd_input, warn_validate. munfold. intros H.
    repeat (case_match; simplify_eq/=); auto.
Qed.

Lemma handler_perform c nam args st r st' :
  zccmd_fn c nam args st = Some (r, st') ->
  exists a, perform a st = Some (r, st').
Proof.
  assert (Hother : forall e,
    glob st' = set_zc_errno e (glob st) ->
    exists a, perform a st = Some (r, st')).
  { intros e He. exists (A_other r e (world st')). cbn. rewrite <- He.
    by destruct st'. }
  destruct c; cbn [zccmd_fn]; intros H.
  - by exists (A_init nam args).
  - by exists (A_addwin nam args).
  - by exists (A_delwin nam args).
  - apply refresh_inv in H as [[e He] _]. eauto.
  - apply move_inv in H as [[e He] _]. eauto.
  - apply clear_inv in H as [[e He] _]. eauto.
  - apply position_inv in H as [[e He] _]. eauto.
  - apply char_inv in H as [[e He] _]. eauto.
  - apply string_inv in H as [[e He] _]. eauto.
  - apply border_inv in H as [[e He] _]. eauto.
  - by exists (A_endwin nam args).
  - by exists (A_attr nam args).
  - by exists (A_scroll nam args).
  - by exists (A_input nam args).
Qed.

Lemma bin_zcurses_perform nam args st r st' :
  bin_zcurses nam args st = Some (r, st') ->
  exists a, perform a st = Some (r, st').
Proof.
  intros H. apply bin_zcurses_inv in H as [[-> [msg ->]]|H].
  - exists (A_other 1 (zc_errno (glob st)) (zwarnnam nam msg (world st))).
    cbn. by rewrite set_zc_errno_same.
  - destruct H as (a0 & zcsc & _ & _ & _ & _ & _ & H).
    by apply handler_perform in H.
Qed.

Lemma commands_steps st tr st' :
  commands st tr st' ->
  exists tr', steps st tr' st' /\ tr'.*2 = tr.*2.
Proof.
  induction 1 as [st|st nam args r st1 tr st2 H _ (tr' & Hs & Hr)].
  - exists []. split; [constructor|done].
  - apply bin_zcurses_perform in H as [a Ha].
    exists ((a, r) :: tr'). split; [by econstructor|]. cbn. by rewrite Hr.
Qed.

(** X1.  The subcommands refresh, move, clear, position, char, string and
    border assign no static variable of the module except [zc_errno]:
    whatever they are given and whatever they return, the window list, the
    colour table, the colour phase, the pair counter and the two saved
    terminal states are what they were. *)
Theorem display_subcommands_keep_module_state c nam args st r st' :
  c ∈ display_subcommands ->
  zccmd_fn c nam args st = Some (r, st') ->
  exists e, glob st' = set_zc_errno e (glob st).
Proof.
  unfold display_subcommands. intros Hc H.
  repeat (apply elem_of_cons in Hc as [->|Hc]); [..|by apply elem_of_nil in Hc];
    cbn [zccmd_fn] in H.
  - by apply refresh_inv in H as [? _].
  - by apply move_inv in H as [? _].
  - by apply clear_inv in H as [? _].
  - by apply position_inv in H as [? _].
  - by apply char_inv in H as [? _].
  - by apply string_inv in H as [? _].
  - by apply border_inv in H as [? _].
Qed.

(** X2.  The exit status of [zcurses] is 0 or 1, whatever the subcommand,
    its arguments and the answers of the platform. *)
Theorem bin_zcurses_returns_0_or_1 nam args st r st' :
  bin_zcurses nam args st = Some (r, st') -> r = 0 \/ r = 1.
Proof.
  intros H. apply bin_zcurses_inv in H as [[-> _]|H]; [by right|].
  destruct H as (a0 & zcsc & _ & _ & _ & _ & _ & H).
  by apply handler_ret in H.
Qed.

Lemma needs_session_name a0 zcsc :
  find_subcommand scs a0 = Some zcsc ->
  (needs_session (zs_cmd zcsc) = false <-> a0 = "init" \/ a0 = "end") /\
  (zs_cmd zcsc = Zc_init <-> a0 = "init").
Proof.
  intros H. apply find_subcommand_Some in H as [Hin <-].
  unfold scs in Hin.
  repeat (apply elem_of_cons in Hin as [->|Hin]);
    [..|by apply elem_of_nil in Hin]; cbn.
  all: split; split; try done; try (by left); try (by right).
  all: by intros [?|?].
Qed.

(** X3.  Before a session exists, that is, while no window is registered
    under the name "stdscr", every call of [zcurses] whose subcommand is
    neither init nor end is refused: it returns 1, writes one diagnostic
    and changes nothing of the module's state, and no curses function is
    called.  This holds for unknown subcommands and wrong argument counts
    as well. *)
Theorem bin_zcurses_refused_before_init nam args a0 st :
  args !! 0%nat = Some a0 ->
  a0 <> "init" -> a0 <> "end" ->
  find_window (zcurses_windows (glob st)) "stdscr" = None ->
  exists msg,
    bin_zcurses nam args st =
      Some (1, State (glob st) (zwarnnam nam msg (world st))).
Proof.
  intros Ha0 Hi He Hs.
  unfold bin_zcurses, zcurses_getwindowbyname. munfold. rewrite Ha0.
  destruct (find_subcommand scs a0) as [zcsc|] eqn:Hf; [|eauto].
  destruct (_ <? _); [eauto|]. destruct (_ && _); [eauto|].
  rewrite Hs.
  destruct (needs_session (zs_cmd zcsc)) eqn:Hn.
  - cbn. eauto.
  - apply needs_session_name in Hf as [Hf _]. apply Hf in Hn as [?|?]; done.
Qed.

(** ** No argument is read past the end of the array *)

Lemma validate_total win crit st :
  exists res e,
    zcurses_validate_window win crit st =
      Some (res, State (set_zc_errno e (glob st)) (world st)) /\
    forall node, res = Some node ->
      is_Some (zcurses_windows (glob st) !! node).
Proof.
  unfold zcurses_validate_window, zcurses_getwindowbyname. munfold.
  repeat (case_match; simplify_eq/=); eexists _, _; (split; [done|]);
    intros node Hn; try done.
  rewrite Hn in *.
  match goal with
  | Hf : find_window _ _ = Some _ |- _ =>
      apply find_window_Some in Hf as (w & Hw & _); eauto
  end.
Qed.

Lemma advance_length clen str str' :
  advance clen str = Some str' ->
  1 <= clen <= Z.of_nat (String.length str) /\
  String.length str' = (String.length str - Z.to_nat clen)%nat.
Proof.
  unfold advance. intros H.
  destruct (Z.leb_spec 1 clen); [|done].
  destruct (Z.leb_spec clen (Z.of_nat (String.length str))); [|done].
  injection H as <-. split; [lia|].
  clear. generalize (Z.to_nat clen) as n.
  induction str as [|a str IH]; intros [|n]; cbn; try done.
Qed.


Lemma string_loop_total fuel str wstr st :
  conv_in_bounds -> is_Some (string_loop fuel str wstr st).
Proof.
  intros Hc. revert str wstr st.
  induction fuel as [|fuel IH]; intros str wstr st; cbn; [done|].
  destruct str as [|a str]; [done|]. munfold.
  specialize (Hc (String a str) (world st)). cbn zeta in Hc.
  destruct (mb_metacharlenconv (String a str) (world st))
    as [[clen wc] w'] eqn:Hconv.
  cbn [fst] in Hc.
  destruct (Z.eqb_spec clen 0); [done|].
  unfold advance.
  destruct (Z.leb_spec 1 clen); [|lia].
  destruct (Z.leb_spec clen (Z.of_nat (String.length (String a str))));
    [|lia].
  cbn [andb]. destruct (Z.eqb wc WEOF); apply IH.
Qed.


Ltac total_tac st :=
  munfold;
  match goal with
  | |- context [zcurses_validate_window ?w ?c st] =>
      let res := fresh "res" in
      let e := fresh "e" in
      let Hn := fresh "Hn" in
      destruct (validate_total w c st) as (res & e & -> & Hn);
      destruct res as [node|];
      [let Hzw := fresh "Hzw" in
       destruct (Hn node eq_refl) as [zw Hzw]; cbn in *; try rewrite Hzw
      |]
  end;
  cbn in *;
  repeat (case_match; simplify_eq/=); eauto.

Lemma move_total nam a0 a1 a2 st : is_Some (zccmd_move nam [a0; a1; a2] st).
Proof. unfold zccmd_move, warn_validate, getdata. total_tac st. Qed.


Ltac split_args args :=
  repeat (let a := fresh "a" in
          destruct args as [|a args]; cbn [length] in *; try lia).

Lemma attr_loop_total nam w toks ret st :
  is_Some (zcurses_colorpairs (glob st)) ->
  is_Some (attr_loop nam w toks ret st).
Proof.
  intros Ht. rewrite attr_loop_mapM. munfold.
  destruct (mapM_token_fails_total nam w toks st Ht) as [[outs st'] ->].
  done.
Qed.

Lemma handler_total zcsc nam args st :
  zcsc ∈ scs ->
  zs_minargs zcsc <= Z.of_nat (length args) ->
  (0 <= zs_maxargs zcsc -> Z.of_nat (length args) <= zs_maxargs zcsc) ->
  conv_in_bounds ->
  (zs_cmd zcsc = Zc_attr -> is_Some (zcurses_colorpairs (glob st))) ->
  is_Some (zccmd_fn (zs_cmd zcsc) nam args st).
Proof.
  unfold scs. intros Hin Hmin Hmax Hconv Htbl.
  repeat (apply elem_of_cons in Hin as [->|Hin]);
    [..|by apply elem_of_nil in Hin];
    cbn [zs_cmd zs_minargs zs_maxargs zccmd_fn] in *.
  - unfold zccmd_init, zcurses_getwindowbyname. munfold.
    repeat (case_match; simplify_eq/=); eauto.
  - split_args args.
    unfold zccmd_addwin. total_tac st.
  - split_args args.
    unfold zccmd_delwin, warn_validate, getdata. total_tac st.
  - split_args args.
    + unfold zccmd_refresh. munfold. cbn. repeat case_match; eauto.
    + unfold zccmd_refresh, warn_validate, getdata.
      change ([a] !! 0%nat) with (Some a) at 1. cbv iota. total_tac st.
  - split_args args. apply move_total.
  - split_args args; unfold zccmd_clear, warn_validate, getdata; total_tac st.
  - split_args args.
    unfold zccmd_position, warn_validate, getdata. total_tac st.
  - split_args args.
    unfold zccmd_char, warn_validate, getdata. total_tac st.
  - split_args args.
    unfold zccmd_string, warn_validate, getdata. munfold.
    destruct (validate_total ([a; a0] !! 0%nat) ZCURSES_USED st)
      as (res & e & -> & Hn).
    destruct res as [node|]; [|cbn; eauto].
    destruct (Hn node eq_refl) as [zw Hzw]. cbn. rewrite Hzw. cbn.
    destruct HAVE_WADDWSTR; [|repeat case_match; eauto].
    match goal with
    | |- context [string_loop ?f ?s ?l ?st1] =>
        destruct (string_loop_total f s l st1 Hconv) as [[out st2] ->]
    end.
    repeat case_match; eauto.
  - split_args args.
    unfold zccmd_border, warn_validate, getdata. total_tac st.
  - unfold zccmd_endwin, zcurses_getwindowbyname. munfold.
    repeat (case_match; simplify_eq/=); eauto.
  - destruct args as [|a args]; [cbn in Hmin; lia|].
    unfold zccmd_attr, warn_validate, getdata.
    change ((a :: args) !! 0%nat) with (Some a) at 1. cbv iota. munfold.
    destruct (validate_total ((a :: args) !! 0%nat) ZCURSES_USED st)
      as (res & e & -> & Hn).
    destruct res as [node|]; [|cbn; eauto].
    destruct (Hn node eq_refl) as [zw Hzw]. cbn. rewrite Hzw.
    apply attr_loop_total. cbn. by apply Htbl.
  - split_args args.
    unfold zccmd_scroll, warn_validate, getdata. total_tac st.
  - split_args args; unfold zccmd_input, warn_validate, getdata, input_read;
      total_tac st.
Qed.

(** X4.  The argument counts of the table protect every access to the
    argument array: with a subcommand name present, a call of [zcurses]
    runs to its return, never using a missing argument as a string nor a
    node without a record, provided the multibyte conversion stays within
    the string and, for attr, the colour table has been allocated (the one
    NULL the module can still follow is that table, when [start_color]
    failed). *)
Theorem bin_zcurses_reads_no_missing_argument nam args a0 st :
  args !! 0%nat = Some a0 ->
  conv_in_bounds ->
  (a0 = "attr" -> is_Some (zcurses_colorpairs (glob st))) ->
  is_Some (bin_zcurses nam args st).
Proof.
  intros Ha0 Hconv Htbl.
  unfold bin_zcurses, zcurses_getwindowbyname. munfold. rewrite Ha0.
  destruct (find_subcommand scs a0) as [zcsc|] eqn:Hf; [|eauto].
  destruct (Z.ltb_spec (Z.of_nat (length args) - 1) (zs_minargs zcsc))
    as [Hmin|Hmin]; [eauto|].
  destruct ((0 <=? zs_maxargs zcsc)
            && (zs_maxargs zcsc <? Z.of_nat (length args) - 1)) eqn:Hmax;
    [eauto|].
  destruct (needs_session (zs_cmd zcsc) && negb _); [eauto|].
  assert (Z.of_nat (length (drop 1 args)) = Z.of_nat (length args) - 1) as Hl.
  { destruct args; [done|]. rewrite length_drop. cbn. lia. }
  apply find_subcommand_Some in Hf as [Hin Hname].
  apply handler_total; try done.
  - lia.
  - intros ?. apply andb_false_iff in Hmax as [?|?]; lia.
  - intros Hc. apply Htbl. rewrite <- Hname. clear -Hin Hc. unfold scs in Hin.
    repeat (apply elem_of_cons in Hin as [->|Hin]);
      [..|by apply elem_of_nil in Hin]; done.
Qed.

(** ** The registry under the builtin *)

Lemma window_names_fmap ws : window_names ws = name <$> ws.
Proof. induction ws as [|w ws IH]; cbn; by rewrite ?IH. Qed.

Lemma find_window_names ws n :
  is_Some (find_window ws n) <-> n ∈ window_names ws.
Proof.
  rewrite window_names_fmap. split.
  - intros [i Hi]. apply find_window_Some in Hi as (w & Hw & <-).
    apply list_elem_of_fmap. exists w. split; [done|].
    by eapply list_elem_of_lookup_2.
  - intros Hin. destruct (find_window ws n) eqn:E; [eauto|].
    apply list_elem_of_fmap in Hin as (w & -> & Hw).
    rewrite find_window_None in E. by destruct (E w Hw).
Qed.

Lemma find_window_head ws w n :
  ws !! 0%nat = Some w -> name w = n -> find_window ws n = Some 0%nat.
Proof.
  destruct ws as [|w' ws]; [done|]. cbn. intros [= ->] <-.
  by rewrite (proj2 (streq_true _ _) eq_refl).
Qed.

Lemma registry_ok_nil : registry_ok [].
Proof.
  split_and!; [constructor| | |done]; intros w Hw; by apply elem_of_nil in Hw.
Qed.

Lemma registry_ok_first h : registry_ok [ZCWin h "stdscr" ZCWF_PERMANENT].
Proof.
  split_and!.
  - cbn. apply NoDup_singleton.
  - intros w ->%list_elem_of_singleton. done.
  - intros w ->%list_elem_of_singleton. done.
  - intros _. by eexists.
Qed.

Lemma registry_ok_app ws w :
  registry_ok ws -> ws <> [] ->
  find_window ws (name w) = None ->
  name w <> "" ->
  has_flag (flags w) ZCWF_PERMANENT = false ->
  registry_ok (ws ++ [w]).
Proof.
  intros (Hnd & Hne & Hperm & Hhead) Hws Hf Hn Hp.
  destruct (Hhead Hws) as (w0 & Hw0 & Hn0).
  assert (name w <> "stdscr") as Hstd.
  { intros E. rewrite (find_window_head _ _ _ Hw0) in Hf; congruence. }
  split_and!.
  - rewrite window_names_fmap, fmap_app, <- window_names_fmap. cbn.
    apply NoDup_app. split_and!; [done| |apply NoDup_singleton].
    intros n Hin ->%list_elem_of_singleton.
    apply find_window_names in Hin as [i Hi]. congruence.
  - intros w' [?| ->%list_elem_of_singleton]%elem_of_app; auto.
  - intros w' [?| ->%list_elem_of_singleton]%elem_of_app; [auto|].
    rewrite Hp. split; [done|]. intros ?. done.
  - intros _. exists w0. split; [|done]. by apply lookup_app_l_Some.
Qed.

Lemma registry_ok_delete ws node w :
  registry_ok ws ->
  ws !! node = Some w ->
  has_flag (flags w) ZCWF_PERMANENT = false ->
  registry_ok (delete node ws) /\ delete node ws <> [].
Proof.
  intros (Hnd & Hne & Hperm & Hhead) Hw Hp.
  assert (ws <> []) as Hws by (intros ->; done).
  destruct (Hhead Hws) as (w0 & Hw0 & Hn0).
  assert (node <> 0%nat) as Hnode.
  { intros ->. assert (w = w0) as -> by congruence.
    assert (w0 ∈ ws) as Hin by by eapply list_elem_of_lookup_2.
    apply (Hperm _ Hin) in Hn0. congruence. }
  assert (delete node ws !! 0%nat = Some w0) as Hd.
  { rewrite list_lookup_delete_lt by lia. done. }
  split; [|intros E; by rewrite E in Hd].
  split_and!.
  - rewrite window_names_fmap, list_fmap_delete, <- window_names_fmap.
    eapply sublist_NoDup; [done|apply sublist_delete].
  - intros w' Hin%list_elem_of_delete_inv. auto.
  - intros w' Hin%list_elem_of_delete_inv. auto.
  - intros _. by exists w0.
Qed.

Lemma window_names_alter f (node : nat) ws :
  (forall w, name (f w) = name w) ->
  window_names (alter f node ws) = window_names ws.
Proof.
  intros Hf. revert node. induction ws as [|w ws IH]; intros [|node]; cbn;
    rewrite ?Hf, ?IH; done.
Qed.

Lemma elem_of_alter_inv (f : zc_win -> zc_win) (node : nat)
    (ws : list zc_win) w' :
  w' ∈ alter f node ws ->
  w' ∈ ws \/ exists w, ws !! node = Some w /\ w' = f w.
Proof.
  revert node. induction ws as [|w ws IH]; intros [|node]; cbn.
  - intros H. by apply elem_of_nil in H.
  - intros H. by apply elem_of_nil in H.
  - intros [->|H]%elem_of_cons; [right; eauto|left; by right].
  - intros [->|H]%elem_of_cons; [left; by left|].
    destruct (IH _ H) as [?|?]; [left; by right|by right].
Qed.

Lemma registry_ok_alter ws node w fl :
  registry_ok ws ->
  ws !! node = Some w ->
  has_flag fl ZCWF_PERMANENT = has_flag (flags w) ZCWF_PERMANENT ->
  let ws' := alter (fun w => ZCWin (win w) (name w) fl) node ws in
  registry_ok ws' /\ (ws <> [] -> ws' <> []).
Proof.
  intros (Hnd & Hne & Hperm & Hhead) Hw Hfl ws'.
  assert (w ∈ ws) as Hin by by eapply list_elem_of_lookup_2.
  split.
  - split_and!.
    + unfold ws'. by rewrite window_names_alter.
    + intros w' [?|(w1 & Hw1 & ->)]%elem_of_alter_inv; [auto|]. cbn.
      apply Hne. by eapply list_elem_of_lookup_2.
    + intros w' [?|(w1 & Hw1 & ->)]%elem_of_alter_inv; [auto|]. cbn.
      assert (w1 = w) as -> by congruence. rewrite Hfl. auto.
    + intros _. destruct (Hhead ltac:(by intros ->)) as (w0 & Hw0 & Hn0).
      unfold ws'. destruct (decide (node = 0%nat)) as [->|Hne0].
      * eexists. rewrite list_lookup_alter_eq, Hw0. cbn. split; [done|].
        done.
      * exists w0. by rewrite list_lookup_alter_ne.
  - intros _ E. unfold ws' in E. apply (f_equal length) in E.
    rewrite length_alter in E. destruct ws; done.
Qed.


Lemma init_registry nam args st r st' :
  zccmd_init nam args st = Some (r, st') ->
  (zcurses_windows (glob st') = zcurses_windows (glob st) /\
   (r = 0 -> is_Some (find_window (zcurses_windows (glob st)) "stdscr"))) \/
  (r = 0 /\ find_window (zcurses_windows (glob st)) "stdscr" = None /\
   exists h, zcurses_windows (glob st') =
               zcurses_windows (glob st) ++ [ZCWin h "stdscr" ZCWF_PERMANENT]).
Proof.
  unfold zccmd_init, zcurses_getwindowbyname. munfold.
  intros H.
  repeat (case_match; simplify_eq/=); cbn in *;
    try (left; split; [done|]; by eauto);
    right; split_and!; try done; by eexists.
Qed.

Lemma find_window_nonempty ws n : is_Some (find_window ws n) -> ws <> [].
Proof. intros [i Hi] ->. done. Qed.

Lemma bin_zcurses_registry nam args st r st' :
  bin_zcurses nam args st = Some (r, st') ->
  registry_ok (zcurses_windows (glob st)) ->
  registry_ok (zcurses_windows (glob st')) /\
  (zcurses_windows (glob st') <> [] <->
   zcurses_windows (glob st) <> [] \/ init_succeeded (args, r)).
Proof.
  intros H Hok.
  assert (Hsame : forall a0,
    args !! 0%nat = Some a0 -> a0 <> "init" ->
    zcurses_windows (glob st') = zcurses_windows (glob st) ->
    registry_ok (zcurses_windows (glob st')) /\
    (zcurses_windows (glob st') <> [] <->
     zcurses_windows (glob st) <> [] \/ init_succeeded (args, r))).
  { intros a0 Ha0 Hne ->. split; [done|]. split; [by left|].
    intros [?|[Hi _]]; [done|]. cbn in Hi. congruence. }
  apply bin_zcurses_inv in H as [[-> [msg ->]]|H].
  { cbn. split; [done|]. split; [by left|]. by intros [?|[_ ?]]. }
  destruct H as (a0 & zcsc & Ha0 & Hf & _ & _ & Hsess & H).
  destruct (needs_session_name _ _ Hf) as [Hns Hinit].
  destruct (zs_cmd zcsc) eqn:Hc; cbn [zccmd_fn] in H;
    try (assert (a0 <> "init") as Hne by (intros E; apply Hinit in E; done));
    try specialize (Hsess eq_refl).
  - (* init *)
    assert (a0 = "init") as -> by by apply Hinit.
    apply init_registry in H as [[-> Hr]|(-> & Hnone & h & ->)].
    + split; [done|]. split; [by left|].
      intros [?|[_ Hr0]]; [done|]. cbn in Hr0.
      by eapply find_window_nonempty, Hr.
    + assert (zcurses_windows (glob st) = []) as ->.
      { destruct (zcurses_windows (glob st)) as [|w0 ws] eqn:E; [done|].
        destruct Hok as (_ & _ & _ & Hhead).
        destruct (Hhead ltac:(done)) as (w & Hw & Hn).
        by rewrite (find_window_head _ _ _ Hw Hn) in Hnone. }
      cbn. split; [apply registry_ok_first|]. split; [|done].
      intros _. right. done.
  - (* addwin *)
    pose proof H as H'. apply addwin_inv in H as [_ [Hw|(-> & _)]];
      [by eapply Hsame|].
    apply addwin_success in H' as (h & n & _ & Hn & Hnone & ->).
    split.
    + apply registry_ok_app; try done. by eapply find_window_nonempty.
    + split; [left; by eapply find_window_nonempty|].
      intros _ E. by destruct (zcurses_windows (glob st)).
  - (* delwin *)
    apply delwin_inv in H as [_ [Hw|(-> & n & node & w & _ & _ & Hw & Hp & ->)]];
      [by eapply Hsame|].
    destruct (registry_ok_delete _ _ _ Hok Hw Hp) as [? ?].
    split; [done|]. split; [left; by eapply find_window_nonempty|done].
  - apply refresh_inv in H as [[e He] _]. eapply Hsame; [done..|by rewrite He].
  - apply move_inv in H as [[e He] _]. eapply Hsame; [done..|by rewrite He].
  - apply clear_inv in H as [[e He] _]. eapply Hsame; [done..|by rewrite He].
  - apply position_inv in H as [[e He] _]. eapply Hsame; [done..|by rewrite He].
  - apply char_inv in H as [[e He] _]. eapply Hsame; [done..|by rewrite He].
  - apply string_inv in H as [[e He] _]. eapply Hsame; [done..|by rewrite He].
  - apply border_inv in H as [[e He] _]. eapply Hsame; [done..|by rewrite He].
  - apply endwin_inv in H. eapply Hsame; [done..|by rewrite H].
  - apply attr_inv in H as (Hw & _). by eapply Hsame.
  - apply scroll_inv in H as [_ [Hw|(node & w & fl & Hw & Hfl & ->)]];
      [by eapply Hsame|].
    destruct (registry_ok_alter _ _ _ _ Hok Hw Hfl) as [? Hne'].
    split; [done|]. split; [left; by eapply find_window_nonempty|].
    intros _. apply Hne'. by eapply find_window_nonempty.
  - apply input_inv in H as [_ Hw]. by eapply Hsame.
Qed.

Lemma commands_registry st0 tr st :
  commands st0 tr st ->
  registry_ok (zcurses_windows (glob st0)) ->
  registry_ok (zcurses_windows (glob st)) /\
  (zcurses_windows (glob st) <> [] <->
   zcurses_windows (glob st0) <> [] \/ Exists init_succeeded tr).
Proof.
  intros Hc. induction Hc as [st|st nam args r st1 tr st2 H _ IH].
  - intros Hok. split; [done|]. split; [by left|].
    intros [?|E]; [done|]. by apply Exists_nil in E.
  - intros Hok.
    destruct (bin_zcurses_registry _ _ _ _ _ H Hok) as [Hok1 Hne1].
    destruct (IH Hok1) as [Hok2 Hne2]. split; [done|].
    rewrite Hne2, Hne1, Exists_cons. tauto.
Qed.

(** X5.  In every state that calls of [zcurses] reach from the freshly
    loaded module, the window list is well formed: no two windows have the
    same name, no name is empty, a window is permanent exactly when it is
    named "stdscr", and that window, when the list is not empty, is its
    first element.  The list is not empty exactly when some call of
    [zcurses init] has returned 0: no later call, [zcurses end] and
    [zcurses delwin stdscr] included, ends the session. *)
Theorem registry_well_formed w0 tr st :
  commands (boot w0) tr st ->
  registry_ok (zcurses_windows (glob st)) /\
  (zcurses_windows (glob st) <> [] <-> Exists init_succeeded tr).
Proof.
  intros Hc. destruct (commands_registry _ _ _ Hc registry_ok_nil) as [Hok Hne].
  split; [done|]. rewrite Hne. cbn. split; [|by right].
  by intros [?|?].
Qed.

(** X6.  What the special parameter [zcurses_windows] reports, in every
    state reached from the freshly loaded module: the names are distinct,
    and a name is in the array exactly when the subcommands that take a
    window accept it, the node they get being the position of the name in
    the array. *)
Theorem windows_array_lists_the_usable_names w0 tr st :
  commands (boot w0) tr st ->
  exists names,
    zcurses_windowsgetfn st = Some (names, st) /\
    NoDup names /\
    forall n,
      n ∈ names <->
      exists node st',
        zcurses_validate_window (Some n) ZCURSES_USED st
          = Some (Some node, st') /\
        names !! node = Some n.
Proof.
  intros Hc.
  apply commands_registry in Hc as [(Hnd & Hne & _) _];
    [|apply registry_ok_nil].
  exists (window_names (zcurses_windows (glob st))).
  split; [by destruct st|]. split; [done|].
  intros n. split.
  - intros Hin. pose proof Hin as Hin'.
    apply find_window_names in Hin as [node Hf].
    destruct (find_window_Some _ _ _ Hf) as (w & Hw & Hn).
    assert (n <> "") as Hn0.
    { rewrite <- Hn. apply Hne. by eapply list_elem_of_lookup_2. }
    rewrite (validate_found _ _ _ _ Hn0 Hf). cbn.
    eexists _, _. split; [done|].
    by rewrite window_names_fmap, list_lookup_fmap, Hw, <- Hn.
  - intros (node & st' & Hv & _).
    apply validate_inv in Hv as (_ & _ & Hres & _).
    destruct (Hres node eq_refl) as (_ & n' & [= <-] & _ & Hf).
    apply find_window_names. eauto.
Qed.

(** ** Creating and destroying a window *)

Lemma addwin_success_glob nam args st st' :
  zccmd_addwin nam args st = Some (0, st') ->
  exists h n,
    args !! 0%nat = Some n /\ n <> "" /\
    find_window (zcurses_windows (glob st)) n = None /\
    glob st' =
      set_zcurses_windows (zcurses_windows (glob st) ++ [ZCWin h n 0])
        (set_zc_errno 0 (glob st)).
Proof.
  unfold zccmd_addwin. munfold.
  destruct (zcurses_validate_window _ _ st) as [[res st1]|] eqn:Hv; [|done].
  pose proof (validate_unused_inv _ _ _ _ Hv) as ->.
  apply validate_inv in Hv as (Hw & [e He] & _ & Hnone).
  intros H. rewrite He in *. cbn in H.
  destruct (Z.eqb_spec e 0) as [->|Hne].
  - destruct (Hnone eq_refl) as (n & Hn & Hn0 & Hf); [done|].
    repeat (case_match; simplify_eq/=).
    eexists _, _. split_and!; try done. by rewrite He.
  - repeat (case_match; simplify_eq/=).
Qed.

Lemma delwin_success nam args st st' :
  zccmd_delwin nam args st = Some (0, st') ->
  exists n node w,
    args !! 0%nat = Some n /\ n <> "" /\
    find_window (zcurses_windows (glob st)) n = Some node /\
    zcurses_windows (glob st) !! node = Some w /\
    has_flag (flags w) ZCWF_PERMANENT = false /\
    glob st' =
      set_zcurses_windows (delete node (zcurses_windows (glob st)))
        (set_zc_errno 0 (glob st)) /\
    world st' = snd (delwin (win w) (world st)).
Proof.
  unfold zccmd_delwin, warn_validate, getdata. munfold.
  destruct (zcurses_validate_window _ _ st) as [[res st1]|] eqn:Hv; [|done].
  apply validate_inv in Hv as (Hw & [e He] & Hres & _).
  intros H. destruct res as [node|].
  - destruct (Hres node eq_refl) as (He0 & n & Hn & Hn0 & Hf).
    rewrite He in *. cbn in *. subst e.
    repeat (case_match; simplify_eq/=).
    exists n, node, z. split_and!; try done; try (by rewrite He).
    match goal with
    | Hd : delwin _ _ = _ |- _ =>
        first [by rewrite Hd | rewrite Hw in Hd; by rewrite Hd]
    end.
  - repeat (case_match; simplify_eq/=).
Qed.

(** X7.  Creating a window and then deleting it, with nothing in between,
    puts the module back where it was: every static variable has its old
    value, [zc_errno] apart, which is 0. *)
Theorem addwin_then_delwin_restores nam args nam' args' n st st1 st2 :
  args !! 0%nat = Some n ->
  args' !! 0%nat = Some n ->
  zccmd_addwin nam args st = Some (0, st1) ->
  zccmd_delwin nam' args' st1 = Some (0, st2) ->
  glob st2 = set_zc_errno 0 (glob st).
Proof.
  intros Ha Ha' Hadd Hdel.
  apply addwin_success_glob in Hadd as (h & n1 & Hn1 & _ & Hnone & Hg1).
  apply delwin_success in Hdel as (n2 & node & w & Hn2 & _ & Hf & _ & _ & Hg2 & _).
  assert (n1 = n) as -> by congruence. assert (n2 = n) as -> by congruence.
  rewrite Hg1 in Hf, Hg2. cbn in Hf, Hg2.
  rewrite (find_window_app_None _ _ _ Hnone) in Hf. cbn in Hf.
  rewrite (proj2 (streq_true _ _) eq_refl) in Hf. injection Hf as <-.
  rewrite Hg2.
  rewrite (delete_middle (zcurses_windows (glob st)) [] (ZCWin h n 0)).
  rewrite app_nil_r. by destruct (glob st).
Qed.

Lemma NoDup_delete_lookup {A : Type} (l : list A) (i : nat) x :
  NoDup l -> l !! i = Some x -> x ∉ delete i l.
Proof.
  intros Hnd Hi Hin.
  apply list_elem_of_lookup in Hin as [j Hj].
  rewrite list_lookup_delete in Hj.
  destruct (decide (j < i)%nat).
  - pose proof (NoDup_lookup _ _ _ _ Hnd Hi Hj). lia.
  - pose proof (NoDup_lookup _ _ _ _ Hnd Hi Hj). lia.
Qed.

(** X8.  A successful delwin removes the named window and no other: with
    distinct names in the list, the name is no longer found afterwards,
    and every other name is found as before, with the record it had. *)
Theorem delwin_removes_only_the_named_window nam args st st' :
  NoDup (window_names (zcurses_windows (glob st))) ->
  zccmd_delwin nam args st = Some (0, st') ->
  exists n,
    args !! 0%nat = Some n /\
    find_window (zcurses_windows (glob st')) n = None /\
    forall m i w,
      m <> n ->
      find_window (zcurses_windows (glob st)) m = Some i ->
      zcurses_windows (glob st) !! i = Some w ->
      exists i',
        find_window (zcurses_windows (glob st')) m = Some i' /\
        zcurses_windows (glob st') !! i' = Some w.
Proof.
  intros Hnd Hdel.
  apply delwin_success in Hdel as (n & node & w & Hn & _ & Hf & Hw & _ & Hg & _).
  exists n. split; [done|]. rewrite Hg. cbn. split.
  - destruct (find_window (delete node (zcurses_windows (glob st))) n)
      eqn:E; [|done].
    exfalso.
    assert (n ∈ window_names (delete node (zcurses_windows (glob st)))) as Hin.
    { apply find_window_names. eauto. }
    rewrite window_names_fmap, list_fmap_delete in Hin.
    rewrite window_names_fmap in Hnd.
    eapply NoDup_delete_lookup; [done| |done].
    rewrite list_lookup_fmap, Hw. cbn.
    by apply find_window_Some in Hf as (w' & [= <-]%(eq_trans (eq_sym Hw)) & ->).
  - intros m i wm Hne Hfm Hwm.
    by eapply find_window_delete.
Qed.

(** ** The colour table under the builtin *)

Lemma colorset_new_counter nam k st o st' :
  colorset_new nam k st = Some (o, st') ->
  next_cp (glob st') = next_cp (glob st) \/
  next_cp (glob st') = to_short (next_cp (glob st) + 1).
Proof.
  unfold colorset_new. munfold. intros H.
  repeat (case_match; simplify_eq/=); cbn; auto.
Qed.

Lemma colorset_cases nam w k st r st' :
  zcurses_colorset nam w k st = Some (r, st') ->
  enters_block (glob st) k \/ exists p, cached (glob st) k p.
Proof.
  unfold zcurses_colorset, enters_block, cached. munfold.
  destruct (Z.eqb_spec (zc_color_phase (glob st)) 1) as [?|Hne];
    [intros _; left; by left|].
  destruct (zcurses_colorpairs (glob st)) as [tbl|] eqn:Et; [|done].
  intros _. destruct (tbl !! k) as [p|] eqn:E; [right|left; right]; eauto.
Qed.

Lemma colorset_cache_ok nam w k st r st' :
  zcurses_colorset nam w k st = Some (r, st') ->
  cache_ok (glob st) ->
  next_cp (glob st) < 32767 ->
  cache_ok (glob st') /\
  next_cp (glob st) <= next_cp (glob st') <= next_cp (glob st) + 1.
Proof.
  intros H [Hc0 Hok] Hlt.
  assert (to_short (next_cp (glob st) + 1) = next_cp (glob st) + 1) as Hs
    by (apply to_short_small; lia).
  destruct (colorset_cases _ _ _ _ _ _ H) as [He|[p Hp]].
  - rewrite (colorset_enter _ _ _ _ He) in H.
    destruct (colorset_new nam k st) as [[o st1]|] eqn:Hn; [|done].
    pose proof (colorset_new_counter _ _ _ _ _ Hn) as Hcnt.
    apply colorset_new_inv in Hn as (_ & _ & Ho).
    assert (glob st' = glob st1) as -> by (destruct o; by simplify_eq/=).
    rewrite Hs in Hcnt. split; [|lia].
    destruct o as [n|].
    + destruct Ho as (-> & Hnext & Hcp & Hv & tbl & Ht & Ht').
      rewrite Hs in *. split; [lia|]. intros tbl' Htbl'.
      rewrite Ht' in Htbl'. injection Htbl' as <-.
      destruct (Hok _ Ht) as [Hrange Hinj]. split.
      * intros k' p'.
        destruct (decide (k' = k)) as [->|Hne].
        -- rewrite lookup_insert_eq. intros [= <-]. split_and!; [lia..|done].
        -- rewrite lookup_insert_ne by done. intros Hk'.
           destruct (Hrange _ _ Hk') as (? & ? & ?). split_and!; [lia..|done].
      * intros k1 k2 p'.
        destruct (decide (k1 = k)) as [->|Hne1];
          destruct (decide (k2 = k)) as [->|Hne2]; try done.
        -- rewrite lookup_insert_eq, lookup_insert_ne by done.
           intros [= <-] Hk2. apply Hrange in Hk2. lia.
        -- rewrite lookup_insert_eq, lookup_insert_ne by done.
           intros Hk1 [= <-]. apply Hrange in Hk1. lia.
        -- rewrite !lookup_insert_ne by done. apply Hinj.
    + split; [lia|]. intros tbl Htbl. rewrite Ho in Htbl.
      destruct (Hok _ Htbl) as [Hrange Hinj]. split; [|done].
      intros k' p' Hk'. destruct (Hrange _ _ Hk') as (? & ? & ?).
      split_and!; [lia..|done].
  - rewrite (colorset_hit _ _ _ _ _ Hp) in H. injection H as _ <-. cbn.
    split; [by split|lia].
Qed.

Lemma attr_loop_cache_ok nam w toks ret st r st' :
  attr_loop nam w toks ret st = Some (r, st') ->
  cache_ok (glob st) ->
  next_cp (glob st) + Z.of_nat (colour_tokens toks) <= 32767 ->
  cache_ok (glob st') /\
  next_cp (glob st) <= next_cp (glob st')
    <= next_cp (glob st) + Z.of_nat (colour_tokens toks).
Proof.
  revert ret st. induction toks as [|tok toks IH]; intros ret st; cbn.
  - munfold. intros [= _ <-]. split; [done|lia].
  - munfold.
    destruct (attr_body nam w tok ret st) as [[ret' st1]|] eqn:Hb; [|done].
    intros H Hok Hle.
    assert (cache_ok (glob st1) /\
            next_cp (glob st) <= next_cp (glob st1)
              <= next_cp (glob st)
                 + Z.of_nat (if bool_decide (is_Some (strchr tok "/"))
                             then 1 else 0)) as [Hok1 Hn1].
    { revert Hb. unfold attr_body. munfold.
      destruct (bool_decide (is_Some (strchr tok "/"))).
      - destruct (zcurses_colorset nam w tok st) as [[r0 st0]|] eqn:Hc;
          [|done].
        intros [= _ <-]. eapply colorset_cache_ok; [done..|lia].
      - destruct (attr_sign tok) as [onoff ptr].
        destruct (zcurses_attribute w (Some ptr) onoff st)
          as [[r0 st0]|] eqn:Ha; [|done].
        apply attribute_inv in Ha.
        destruct (Z.eqb r0 0); intros [= _ <-]; cbn; rewrite Ha;
          (split; [done|lia]). }
    destruct (IH _ _ H Hok1) as [Hok2 Hn2]; [lia|].
    split; [done|lia].
Qed.

Lemma init_colour nam args st r st' :
  zccmd_init nam args st = Some (r, st') ->
  next_cp (glob st') = next_cp (glob st) /\
  (zcurses_colorpairs (glob st') = zcurses_colorpairs (glob st) \/
   zcurses_colorpairs (glob st') = Some ∅).
Proof.
  unfold zccmd_init, zcurses_getwindowbyname. munfold.
  intros H.
  repeat (case_match; simplify_eq/=); cbn in *; auto.
Qed.

Lemma cache_ok_same g g' :
  next_cp g' = next_cp g ->
  zcurses_colorpairs g' = zcurses_colorpairs g ->
  cache_ok g -> cache_ok g'.
Proof. unfold cache_ok. by intros -> ->. Qed.

Lemma attr_name a0 zcsc :
  find_subcommand scs a0 = Some zcsc ->
  (zs_cmd zcsc = Zc_attr <-> streq a0 "attr" = true).
Proof.
  intros H. apply find_subcommand_Some in H as [Hin <-].
  unfold scs in Hin.
  repeat (apply elem_of_cons in Hin as [->|Hin]);
    [..|by apply elem_of_nil in Hin]; cbn; done.
Qed.

Lemma bin_zcurses_cache_ok nam args st r st' :
  bin_zcurses nam args st = Some (r, st') ->
  cache_ok (glob st) ->
  next_cp (glob st) + Z.of_nat (colour_requests args) <= 32767 ->
  cache_ok (glob st') /\
  next_cp (glob st) <= next_cp (glob st')
    <= next_cp (glob st) + Z.of_nat (colour_requests args).
Proof.
  intros H Hok Hle.
  assert (Hsame : 
    next_cp (glob st') = next_cp (glob st) ->
    zcurses_colorpairs (glob st') = zcurses_colorpairs (glob st) ->
    cache_ok (glob st') /\
    next_cp (glob st) <= next_cp (glob st')
      <= next_cp (glob st) + Z.of_nat (colour_requests args)).
  { intros Hn Ht. split; [by eapply cache_ok_same|lia]. }
  apply bin_zcurses_inv in H as [[-> [msg ->]]|H]; [by apply Hsame|].
  destruct H as (a0 & zcsc & Ha0 & Hf & _ & _ & _ & H).
  pose proof (attr_name _ _ Hf) as Hattr.
  destruct (zs_cmd zcsc) eqn:Hc; cbn [zccmd_fn] in H.
  - apply init_colour in H as [Hn [Ht|Ht]]; [by apply Hsame|].
    split; [|lia]. destruct Hok as [Hc0 _]. split; [lia|].
    intros tbl. rewrite Ht. intros [= <-]. split.
    + intros k p. by rewrite lookup_empty.
    + intros k1 k2 p. by rewrite lookup_empty.
  - apply addwin_inv in H as [(_ & ? & ?) _]. by apply Hsame.
  - apply delwin_inv in H as [(_ & ? & ?) _]. by apply Hsame.
  - apply refresh_inv in H as [[e He] _]. apply Hsame; by rewrite He.
  - apply move_inv in H as [[e He] _]. apply Hsame; by rewrite He.
  - apply clear_inv in H as [[e He] _]. apply Hsame; by rewrite He.
  - apply position_inv in H as [[e He] _]. apply Hsame; by rewrite He.
  - apply char_inv in H as [[e He] _]. apply Hsame; by rewrite He.
  - apply string_inv in H as [[e He] _]. apply Hsame; by rewrite He.
  - apply border_inv in H as [[e He] _]. apply Hsame; by rewrite He.
  - apply endwin_inv in H. apply Hsame; by rewrite H.
  - unfold colour_requests in *. rewrite Ha0 in *.
    rewrite (proj1 Hattr eq_refl) in *.
    revert H. unfold zccmd_attr, warn_validate, getdata. munfold.
    destruct (drop 1 args !! 0%nat); [|intros [= _ <-]; split; [done|lia]].
    destruct (zcurses_validate_window _ _ st) as [[res st1]|] eqn:Hv; [|done].
    apply validate_inv in Hv as (_ & [e He] & _).
    assert (cache_ok (glob st1)) as Hok1
      by (eapply cache_ok_same; [..|done]; by rewrite He).
    assert (next_cp (glob st1) = next_cp (glob st)) as Hn1 by by rewrite He.
    intros H. destruct res as [node|].
    + destruct (zcurses_windows (glob st1) !! node) as [zw|]; [|done].
      rewrite drop_drop in H. change (1 + 1)%nat with 2%nat in H.
      apply attr_loop_cache_ok in H; [|exact Hok1|lia].
      rewrite Hn1 in H. done.
    + injection H as _ <-. cbn. rewrite <- Hn1. split; [done|lia].
  - apply scroll_inv in H as [(_ & ? & ?) _]. by apply Hsame.
  - apply input_inv in H as [(_ & ? & ?) _]. by apply Hsame.
Qed.

(** X9.  The colour table stays sound over a session: in every state
    reached from the freshly loaded module by calls of [zcurses] that make
    no more than 32767 colour requests in all (the counter is a [short]),
    every pair number stored is at least 1, at most the counter and below
    [COLOR_PAIRS], it is stored under a valid colour pair name, and no two
    names share a pair number. *)
Theorem colour_table_sound w0 tr st :
  commands (boot w0) tr st ->
  Z.of_nat (sum_list (colour_requests <$> tr.*1)) <= 32767 ->
  cache_ok (glob st).
Proof.
  assert (Hgen : forall st0,
    commands st0 tr st ->
    cache_ok (glob st0) ->
    next_cp (glob st0)
      + Z.of_nat (sum_list (colour_requests <$> tr.*1)) <= 32767 ->
    cache_ok (glob st)).
  { intros st0 Hc. induction Hc as [st|st nam args r st1 tr st2 H _ IH];
      [done|].
    cbn. intros Hok Hle.
    destruct (bin_zcurses_cache_ok _ _ _ _ _ H Hok) as [Hok1 Hn1]; [lia|].
    apply IH; [done|lia]. }
  intros Hc Hle. eapply Hgen; [done| |cbn; lia].
  split; [done|]. intros tbl. done.
Qed.

(** ** The life of the colour phase *)

Lemma init_phase nam args st r st' :
  zccmd_init nam args st = Some (r, st') ->
  zc_color_phase (glob st') = zc_color_phase (glob st) \/
  zc_color_phase (glob st) = 0 /\ zc_color_phase (glob st') = 1.
Proof.
  unfold zccmd_init, zcurses_getwindowbyname. munfold.
  intros H.
  repeat (case_match; simplify_eq/=); cbn in *; auto.
  all: destruct (Z.eqb_spec (zc_color_phase (glob st)) 0); cbn; auto.
  all: by right.
Qed.

Lemma attr_loop_phase nam w toks ret st r st' :
  attr_loop nam w toks ret st = Some (r, st') ->
  zc_color_phase (glob st') = zc_color_phase (glob st) \/
  zc_color_phase (glob st') = 2.
Proof.
  revert ret st. induction toks as [|tok toks IH]; intros ret st; cbn.
  - munfold. intros [= _ <-]. by left.
  - munfold.
    destruct (attr_body nam w tok ret st) as [[ret' st1]|] eqn:Hb; [|done].
    intros H. pose proof (attr_loop_inv _ _ _ _ _ _ _ H) as (_ & H2 & _).
    apply IH in H. apply attr_body_inv in Hb as (_ & Hb & _).
    destruct Hb as [Hb|[[Hb _]|Hb]].
    + right. auto.
    + rewrite <- Hb. done.
    + rewrite <- Hb. done.
Qed.

Lemma bin_zcurses_phase nam args st r st' :
  bin_zcurses nam args st = Some (r, st') ->
  zc_color_phase (glob st') = zc_color_phase (glob st) \/
  zc_color_phase (glob st) = 0 /\ zc_color_phase (glob st') = 1 \/
  zc_color_phase (glob st') = 2.
Proof.
  intros H. apply bin_zcurses_inv in H as [[-> [msg ->]]|H]; [by left|].
  destruct H as (a0 & zcsc & _ & _ & _ & _ & _ & H).
  destruct (zs_cmd zcsc); cbn [zccmd_fn] in H.
  - apply init_phase in H. tauto.
  - apply addwin_inv in H as [(? & _) _]. by left.
  - apply delwin_inv in H as [(? & _) _]. by left.
  - apply refresh_inv in H as [[e He] _]. left. by rewrite He.
  - apply move_inv in H as [[e He] _]. left. by rewrite He.
  - apply clear_inv in H as [[e He] _]. left. by rewrite He.
  - apply position_inv in H as [[e He] _]. left. by rewrite He.
  - apply char_inv in H as [[e He] _]. left. by rewrite He.
  - apply string_inv in H as [[e He] _]. left. by rewrite He.
  - apply border_inv in H as [[e He] _]. left. by rewrite He.
  - apply endwin_inv in H. left. by rewrite H.
  - revert H. unfold zccmd_attr, warn_validate, getdata. munfold.
    destruct (drop 1 args !! 0%nat); [|intros [= _ <-]; by left].
    destruct (zcurses_validate_window _ _ st) as [[res st1]|] eqn:Hv; [|done].
    apply validate_inv in Hv as (_ & [e He] & _).
    assert (zc_color_phase (glob st1) = zc_color_phase (glob st)) as Hp
      by by rewrite He.
    intros H. destruct res as [node|].
    + destruct (zcurses_windows (glob st1) !! node) as [zw|]; [|done].
      apply attr_loop_phase in H. rewrite Hp in H. tauto.
    + injection H as _ <-. left. done.
  - apply scroll_inv in H as [(? & _) _]. by left.
  - apply input_inv in H as [(? & _) _]. by left.
Qed.

Lemma commands_untouched st0 tr st :
  commands st0 tr st ->
  untouched_colour (glob st0) -> untouched_colour (glob st).
Proof.
  induction 1 as [|st nam args r st1 tr st2 H _ IH]; [done|].
  intros Hu. apply IH. apply bin_zcurses_perform in H as [a Ha].
  by eapply perform_untouched.
Qed.

Lemma commands_phase st0 tr st :
  commands st0 tr st ->
  0 <= zc_color_phase (glob st0) <= 2 ->
  zc_color_phase (glob st0) <= zc_color_phase (glob st) <= 2.
Proof.
  induction 1 as [|st nam args r st1 tr st2 H _ IH]; [lia|].
  intros Hb. apply bin_zcurses_phase in H. lia.
Qed.

(** X10.  The colour phase over a session that starts with the freshly
    loaded module: it is 0, 1 or 2 and never goes back; while it is 0
    there is no colour table, and while it is 1 (colour is enabled and no
    request has been made) the table is empty and the pair counter is 0,
    so that the first request, which does not consult the table, has
    nothing to miss. *)
Theorem colour_phase_life_cycle w0 tr1 st1 tr2 st2 :
  commands (boot w0) tr1 st1 ->
  commands st1 tr2 st2 ->
  (zc_color_phase (glob st1) = 0 ->
   zcurses_colorpairs (glob st1) = None /\ next_cp (glob st1) = 0) /\
  (zc_color_phase (glob st1) = 1 ->
   zcurses_colorpairs (glob st1) = Some ∅ /\ next_cp (glob st1) = 0) /\
  0 <= zc_color_phase (glob st1) <= zc_color_phase (glob st2) /\
  zc_color_phase (glob st2) <= 2.
Proof.
  intros H1 H2.
  pose proof (commands_untouched _ _ _ H1) as Hu.
  pose proof (commands_phase _ _ _ H1) as Hp1. cbn in Hu, Hp1.
  destruct Hu as [Hu0 Hu1]; [by split|].
  specialize (Hp1 ltac:(lia)).
  pose proof (commands_phase _ _ _ H2 ltac:(lia)) as Hp2.
  split_and!; [done|done|lia..].
Qed.

(** ** Names of colours and attributes *)

Lemma pairs_to_array_fst tbl : zcurses_pairs_to_array tbl = tbl.*1.
Proof. induction tbl as [|[n k] tbl IH]; cbn; by rewrite ?IH. Qed.

Lemma nnp_by_name_is_Some tbl s :
  is_Some (nnp_by_name tbl s) <-> s ∈ zcurses_pairs_to_array tbl.
Proof.
  induction tbl as [|[n k] tbl IH]; cbn.
  - split; [by intros [? ?]|]. intros H. by apply elem_of_nil in H.
  - destruct (streq s n) eqn:E.
    + apply streq_true in E as ->. split; [intros _; by left|eauto].
    + apply streq_false in E. rewrite IH, elem_of_cons. tauto.
Qed.

(** X11.  The arrays of the special parameters [zcurses_colors] and
    [zcurses_attrs] list the names the lookups accept, and no other: a
    name is found in a table exactly when it is in the array made of the
    table; [zcurses_color] gives a colour number (not -1) exactly for the
    names of [zcurses_colors]; [zcurses_attribute] succeeds exactly for
    the names of [zcurses_attrs]. *)
Theorem reflection_arrays_list_the_known_names :
  (forall tbl s,
     is_Some (nnp_by_name tbl s) <-> s ∈ zcurses_pairs_to_array tbl) /\
  (forall s, zcurses_color s <> -1 <-> s ∈ zcurses_colorsarrgetfn) /\
  (forall w a op st,
     (exists st', zcurses_attribute w (Some a) op st = Some (0, st')) <->
     a ∈ zcurses_attrgetfn).
Proof.
  split_and!.
  - apply nnp_by_name_is_Some.
  - intros s. unfold zcurses_colorsarrgetfn.
    rewrite <- nnp_by_name_is_Some. unfold zcurses_color.
    destruct (nnp_by_name zcurses_colors s) as [k|] eqn:E.
    + split; [eauto|]. intros _.
      assert (k ∈ zcurses_colors.*2) as Hk.
      { clear -E. revert E. generalize zcurses_colors.
        induction l as [|[n k'] l IH]; cbn; [done|].
        destruct (streq s n); [intros [= ->]; by left|].
        intros H. right. auto. }
      cbn in Hk.
      repeat (apply elem_of_cons in Hk as [->|Hk]);
        [..|by apply elem_of_nil in Hk]; done.
    + split; [done|]. by intros [? ?].
  - intros w a op st. unfold zcurses_attrgetfn.
    rewrite <- nnp_by_name_is_Some. unfold zcurses_attribute. munfold.
    destruct (nnp_by_name zcurses_attributes a) as [k|].
    + split; [eauto|]. intros _.
      repeat (case_match; simplify_eq/=); eauto.
    + split; [by intros [? ?]|by intros [? ?]].
Qed.


(** ** Attribute tokens *)

(** X13.  A token of attr that is one of the six attribute names switches
    the attribute on, with or without a leading '+', and off with a
    leading '-'; the return value collected so far is kept, and nothing of
    the module's state changes. *)
Theorem attr_token_sign nam w a ret st :
  a ∈ zcurses_attrgetfn ->
  exists num,
    nnp_by_name zcurses_attributes a = Some num /\
    attr_body nam w a ret st =
      Some (ret, State (glob st) (wattron w num (world st))) /\
    attr_body nam w ("+" +:+ a) ret st =
      Some (ret, State (glob st) (wattron w num (world st))) /\
    attr_body nam w ("-" +:+ a) ret st =
      Some (ret, State (glob st) (wattroff w num (world st))).
Proof.
  unfold zcurses_attrgetfn. cbn. intros Hin.
  repeat (apply elem_of_cons in Hin as [->|Hin]);
    [..|by apply elem_of_nil in Hin].
  all: eexists; split; [reflexivity|]; split_and!; reflexivity.
Qed.

(** ** Switching scrolling on and off *)

Lemma has_flag_scroll_lor fl :
  has_flag (Z.lor fl ZCWF_SCROLL) ZCWF_SCROLL = true.
Proof.
  unfold has_flag. apply negb_true_iff, Z.eqb_neq.
  rewrite Z.land_lor_distr_l. change (Z.land ZCWF_SCROLL ZCWF_SCROLL) with 2.
  intros H. apply Z.lor_eq_0_iff in H as [_ ?]. done.
Qed.

Lemma has_flag_scroll_land fl :
  has_flag (Z.land fl (Z.lnot ZCWF_SCROLL)) ZCWF_SCROLL = false.
Proof.
  unfold has_flag. apply negb_false_iff, Z.eqb_eq.
  rewrite <- Z.land_assoc.
  change (Z.land (Z.lnot ZCWF_SCROLL) ZCWF_SCROLL) with 0. apply Z.land_0_r.
Qed.

(** X14.  [scroll w on] and [scroll w off] on a registered window: when
    the curses library refuses, the subcommand returns 1 and the list of
    windows is what it was; otherwise it returns 0 and the record of the
    window, at the same node and still found under its name, has the same
    handle and name, the same permanent flag, and its scroll flag on or
    off as asked; no other record changes. *)
Theorem scroll_on_off_sets_the_flag nam args n (b : bool) st node zw :
  args !! 0%nat = Some n ->
  args !! 1%nat = Some (if b then "on" else "off") ->
  n <> "" ->
  find_window (zcurses_windows (glob st)) n = Some node ->
  zcurses_windows (glob st) !! node = Some zw ->
  let r := scrollok (win zw) b (world st) in
  exists st',
    zccmd_scroll nam args st = Some (if Z.eqb (fst r) ERR then 1 else 0, st') /\
    world st' = snd r /\
    (fst r = ERR -> glob st' = set_zc_errno 0 (glob st)) /\
    (fst r <> ERR ->
     exists zw',
       zcurses_windows (glob st') !! node = Some zw' /\
       find_window (zcurses_windows (glob st')) n = Some node /\
       win zw' = win zw /\ name zw' = name zw /\
       has_flag (flags zw') ZCWF_SCROLL = b /\
       has_flag (flags zw') ZCWF_PERMANENT
         = has_flag (flags zw) ZCWF_PERMANENT /\
       forall j, j <> node ->
         zcurses_windows (glob st') !! j = zcurses_windows (glob st) !! j).
Proof.
  intros Ha0 Ha1 Hn Hf Hzw r. subst r.
  unfold zccmd_scroll, getdata, set_flags. munfold. rewrite Ha0.
  rewrite (validate_found _ _ _ _ Hn Hf).
  change (has_flag ZCURSES_USED ZCURSES_UNUSED) with false. cbv iota.
  cbn [glob world zcurses_windows set_zc_errno]. rewrite Hzw, Ha1.
  destruct b.
  - change (streq "on" "on") with true. cbv iota. sred.
    destruct (scrollok (win zw) true (world st)) as [r w'].
    cbn [fst snd glob world].
    destruct (Z.eqb_spec r ERR) as [->|Hne]; cbv iota.
    + eexists. split_and!; [reflexivity|done|done|done].
    + eexists. split_and!; [reflexivity|done|done|]. intros _.
      cbn [glob zcurses_windows set_zcurses_windows set_zc_errno].
      eexists. split_and!.
      * by rewrite list_lookup_alter_eq, Hzw.
      * by rewrite find_window_alter.
      * done.
      * done.
      * apply has_flag_scroll_lor.
      * apply has_flag_permanent_lor.
      * intros j Hj. by rewrite list_lookup_alter_ne.
  - change (streq "off" "on") with false.
    change (streq "off" "off") with true. cbv iota. sred.
    destruct (scrollok (win zw) false (world st)) as [r w'].
    cbn [fst snd glob world].
    destruct (Z.eqb_spec r ERR) as [->|Hne]; cbv iota.
    + eexists. split_and!; [reflexivity|done|done|done].
    + eexists. split_and!; [reflexivity|done|done|]. intros _.
      cbn [glob zcurses_windows set_zcurses_windows set_zc_errno].
      eexists. split_and!.
      * by rewrite list_lookup_alter_eq, Hzw.
      * by rewrite find_window_alter.
      * done.
      * done.
      * apply has_flag_scroll_land.
      * apply has_flag_permanent_land.
      * intros j Hj. by rewrite list_lookup_alter_ne.
Qed.

(** ** Key input *)

Lemma input_read_one_of w st instr code st' :
  input_read w st = Some (Some (instr, code), st') ->
  code = -1 \/ c_string instr = "".
Proof.
  unfold input_read. munfold. intros H.
  repeat (case_match; simplify_eq/=); auto.
Qed.

Lemma nnp_by_number_elem tbl k nm :
  nnp_by_number tbl k = Some nm -> (nm, k) ∈ tbl.
Proof.
  induction tbl as [|[n k'] tbl IH]; cbn; [done|].
  destruct (Z.eqb_spec k k') as [->|Hne].
  - intros [= ->]. by left.
  - intros H. right. auto.
Qed.

(** X15.  What [zcurses input w p k] writes when a key has been read and
    [p] has been set: the second parameter [k] gets the empty string for
    an ordinary character, and the name of the table for a key code that
    the table of key names has.  The two parameters never both get
    something: a read yields a character or a key code, and the other
    parameter is set to the empty string. *)
Theorem input_sets_character_or_key
    nam args st node st1 zw a1 a2 instr code st2 :
  zcurses_validate_window (args !! 0%nat) ZCURSES_USED st
    = Some (Some node, st1) ->
  zcurses_windows (glob st) !! node = Some zw ->
  args !! 1%nat = Some a1 ->
  args !! 2%nat = Some a2 ->
  input_read (win zw) (State (glob st1) (keypad (win zw) true (world st1)))
    = Some (Some (instr, code), st2) ->
  fst (setsparam a1 (c_string instr) (world st2)) = true ->
  let w3 := snd (setsparam a1 (c_string instr) (world st2)) in
  exists symbol,
    zccmd_input nam args st =
      Some (if fst (setsparam a2 symbol w3) then 0 else 1,
            State (glob st2) (snd (setsparam a2 symbol w3))) /\
    (c_string instr = "" \/ symbol = "") /\
    (code <= 0 -> symbol = "") /\
    (forall nm,
       0 < code -> nnp_by_number keypad_names code = Some nm ->
       symbol = nm /\ (nm, code) ∈ keypad_names).
Proof.
  intros Hv Hzw Ha1 Ha2 Hrd Hset w3.
  pose proof (input_read_one_of _ _ _ _ _ Hrd) as Hone.
  pose proof Hv as Hv'.
  apply validate_inv in Hv' as (Hw & [e He] & _).
  destruct st1 as [g1 w1]. cbn in Hw, He. subst g1 w1.
  exists (if 0 <? code
          then match nnp_by_number keypad_names code with
               | Some nm => nm
               | None => keypad_fallback code
               end
          else "").
  split_and!.
  - unfold zccmd_input, getdata. munfold. rewrite Hv.
    cbn [glob world zcurses_windows set_zc_errno] in *.
    rewrite Hzw, Ha1, Ha2.
    rewrite !bool_decide_eq_true_2 by eauto. cbn [andb glob world].
    match goal with
    | |- context [input_read ?a ?b] =>
        destruct (input_read a b) as [[rd st2']|]
    end; [|done].
    injection Hrd as -> ->.
    change (default "REPLY" (Some a1)) with a1.
    subst w3.
    destruct (setsparam a1 (c_string instr) (world st2)) as [ok w3'] eqn:Hs.
    cbn in Hset. subst ok. cbn [negb glob world snd].
    destruct (0 <? code).
    + destruct (nnp_by_number keypad_names code) as [nm|]; cbn [glob world].
      * destruct (setsparam a2 nm w3') as [ok w4]. by destruct ok.
      * destruct (setsparam a2 (keypad_fallback code) w3') as [ok w4].
        by destruct ok.
    + cbn [glob world].
      destruct (setsparam a2 "" w3') as [ok w4]. by destruct ok.
  - destruct Hone as [->|?]; [by right|by left].
  - intros Hle. by rewrite (proj2 (Z.ltb_ge 0 code)) by lia.
  - intros nm Hlt Hnm. rewrite (proj2 (Z.ltb_lt 0 code)) by lia.
    rewrite Hnm. split; [done|]. by apply nnp_by_number_elem.
Qed.

(** ** The wide string of [zccmd_string] *)

Lemma string_loop_fuel f1 f2 str wstr st :
  (String.length str <= f1)%nat ->
  (String.length str <= f2)%nat ->
  string_loop f1 str wstr st = string_loop f2 str wstr st.
Proof.
  revert f2 str wstr st.
  induction f1 as [|f1 IH]; intros f2 str wstr st H1 H2.
  - destruct str; [|cbn in H1; lia]. by destruct f2.
  - destruct f2 as [|f2]; [destruct str; [done|cbn in H2; lia]|].
    cbn. destruct str as [|a str]; [done|]. munfold.
    destruct (mb_metacharlenconv (String a str) (world st))
      as [[clen wc] w'].
    destruct (Z.eqb clen 0); [done|].
    destruct (advance clen (String a str)) as [str'|] eqn:Ha; [|done].
    apply advance_length in Ha as [Hc Hl]. cbn in H1, H2, Hl, Hc.
    destruct (Z.eqb wc WEOF); apply IH; lia.
Qed.

Lemma string_loop_length fuel str wstr st out st' :
  string_loop fuel str wstr st = Some (out, st') ->
  (length out <= length wstr + String.length str)%nat.
Proof.
  revert str wstr st.
  induction fuel as [|fuel IH]; intros str wstr st; cbn.
  - munfold. intros [= <- _]. lia.
  - destruct str as [|a str]; [munfold; intros [= <- _]; lia|]. munfold.
    destruct (mb_metacharlenconv (String a str) (world st))
      as [[clen wc] w'].
    destruct (Z.eqb clen 0); [intros [= <- _]; lia|].
    destruct (advance clen (String a str)) as [str'|] eqn:Ha; [|done].
    apply advance_length in Ha as [Hc Hl].
    destruct (Z.eqb wc WEOF); intros H; apply IH in H;
      rewrite ?length_app in H; cbn [length] in *; lia.
Qed.

(** X16.  The loop of [zccmd_string] that converts the argument to wide
    characters: it is over after at most as many rounds as the string has
    bytes (more rounds change nothing), and it stores at most one wide
    character for each byte, so that with the terminating null the result
    fits the buffer of [strlen(str)+1] elements that was allocated for
    it. *)
Theorem string_loop_fits_its_buffer str wstr st :
  (forall fuel,
     (String.length str <= fuel)%nat ->
     string_loop fuel str wstr st
       = string_loop (String.length str) str wstr st) /\
  (forall out st',
     string_loop (String.length str) str wstr st = Some (out, st') ->
     (length out + 1 <= length wstr + (String.length str + 1))%nat).
Proof.
  split.
  - intros fuel Hf. by apply string_loop_fuel.
  - intros out st' H. apply string_loop_length in H. lia.
Qed.

(** ** A window that is not there *)

(** X17.  The eleven subcommands that take a window name answer alike
    when the name is empty or not registered: they return 1, write the
    diagnostic of [zcurses_strerror] followed by the name, set [zc_errno]
    to invalid (empty name) or undefined, call no curses function and
    leave the rest of the module's state as it was. *)
Theorem unknown_window_is_reported_alike c nam args n st :
  c ∈ window_subcommands ->
  args !! 0%nat = Some n ->
  (n = "" ->
   zccmd_fn c nam args st =
     Some (1, State (set_zc_errno ZCURSES_EINVALID (glob st))
                (zwarnnam nam "window name invalid: " (world st)))) /\
  (n <> "" ->
   find_window (zcurses_windows (glob st)) n = None ->
   zccmd_fn c nam args st =
     Some (1, State (set_zc_errno ZCURSES_EUNDEFINED (glob st))
                (zwarnnam nam ("window undefined: " +:+ n) (world st)))).
Proof.
  unfold window_subcommands. intros Hc Ha0.
  split.
  - intros ->.
    repeat (apply elem_of_cons in Hc as [->|Hc]);
      [..|by apply elem_of_nil in Hc]; cbn [zccmd_fn].
    all: unfold zccmd_delwin, zccmd_refresh, zccmd_move, zccmd_clear,
           zccmd_position, zccmd_char, zccmd_string, zccmd_border,
           zccmd_attr, zccmd_scroll, zccmd_input, warn_validate;
         munfold; rewrite Ha0, validate_empty; sred; rewrite ?Ha0;
         reflexivity.
  - intros Hn Hf.
    repeat (apply elem_of_cons in Hc as [->|Hc]);
      [..|by apply elem_of_nil in Hc]; cbn [zccmd_fn].
    all: unfold zccmd_delwin, zccmd_refresh, zccmd_move, zccmd_clear,
           zccmd_position, zccmd_char, zccmd_string, zccmd_border,
           zccmd_attr, zccmd_scroll, zccmd_input, warn_validate;
         munfold; rewrite Ha0, (validate_missing _ _ _ Hn Hf);
         change (has_flag ZCURSES_USED ZCURSES_USED) with true; cbv iota;
         sred; rewrite ?Ha0; reflexivity.
Qed.

(** ** Leaving and resuming a session *)

Lemma init_success_registered nam args st st' :
  zccmd_init nam args st = Some (0, st') ->
  is_Some (find_window (zcurses_windows (glob st')) "stdscr").
Proof.
  intros H. apply init_registry in H as [[-> Hr]|(_ & Hnone & h & ->)].
  - by apply Hr.
  - rewrite (find_window_app_None _ _ _ Hnone). cbn. eauto.
Qed.

(** X18.  After [zcurses init] has returned 0, [zcurses end] followed by
    [zcurses init] resumes the session: end returns to the terminal state
    saved by init and records it for the shell, the second init puts back
    the terminal state of curses, both return 0, and every static variable
    of the module, windows and colour pairs included, is what it was
    before the two calls. *)
Theorem end_then_init_resumes nam args nam1 args1 nam2 args2 st st1 :
  zccmd_init nam args st = Some (0, st1) ->
  let w2 :=
    save_shttyinfo
      (settyinfo (saved_tty_state (glob st1)) (endwin (world st1))) in
  zccmd_endwin nam1 args1 st1 = Some (0, State (glob st1) w2) /\
  zccmd_init nam2 args2 (State (glob st1) w2) =
    Some (0, State (glob st1) (settyinfo (curses_tty_state (glob st1)) w2)).
Proof.
  intros H w2. apply init_success_registered in H as [i Hi].
  unfold zccmd_endwin, zccmd_init, zcurses_getwindowbyname. munfold.
  cbn [glob world]. rewrite Hi. split; reflexivity.
Qed.

(** ** What a failed call leaves behind *)

Lemma scroll_failed nam args st st' :
  zccmd_scroll nam args st = Some (1, st') ->
  zcurses_windows (glob st') = zcurses_windows (glob st).
Proof.
  unfold zccmd_scroll, warn_validate, getdata, set_flags. munfold.
  destruct (zcurses_validate_window _ _ st) as [[res st1]|] eqn:Hv; [|done].
  apply validate_inv in Hv as (Hw & [e He] & Hres & Hnone).
  intros H.
  repeat (case_match; simplify_eq/=); rewrite ?He in *; cbn in *; done.
Qed.

(** X19.  A call of [zcurses] that returns 1 has not changed the list of
    windows: no window is created, deleted or given other flags by a
    subcommand that reports failure. *)
Theorem failed_call_keeps_window_list nam args st st' :
  bin_zcurses nam args st = Some (1, st') ->
  zcurses_windows (glob st') = zcurses_windows (glob st).
Proof.
  intros H. apply bin_zcurses_inv in H as [[_ [msg ->]]|H]; [done|].
  destruct H as (a0 & zcsc & _ & _ & _ & _ & _ & H).
  destruct (zs_cmd zcsc); cbn [zccmd_fn] in H.
  - by apply init_registry in H as [[? _]|(? & _)].
  - by apply addwin_inv in H as [_ [?|[? _]]].
  - by apply delwin_inv in H as [_ [?|[? _]]].
  - apply refresh_inv in H as [[e He] _]. by rewrite He.
  - apply move_inv in H as [[e He] _]. by rewrite He.
  - apply clear_inv in H as [[e He] _]. by rewrite He.
  - apply position_inv in H as [[e He] _]. by rewrite He.
  - apply char_inv in H as [[e He] _]. by rewrite He.
  - apply string_inv in H as [[e He] _]. by rewrite He.
  - apply border_inv in H as [[e He] _]. by rewrite He.
  - apply endwin_inv in H. by rewrite H.
  - by apply attr_inv in H as (? & _).
  - by apply scroll_failed in H.
  - by apply input_inv in H as [_ ?].
Qed.

End RestProofs.

(** ** A pair identifier that a failed request has taken *)

Lemma colorset_step nam w k st r st' :
  zcurses_colorset nam w k st = Some (r, st') ->
  (zcurses_colorpairs (glob st') = zcurses_colorpairs (glob st) \/
   exists tbl,
     zcurses_colorpairs (glob st) = Some tbl /\
     zcurses_colorpairs (glob st') =
       Some (<[k := to_short (next_cp (glob st) + 1)]> tbl) /\
     next_cp (glob st') = to_short (next_cp (glob st) + 1) /\
     valid_colorpair k = true) /\
  (next_cp (glob st') = next_cp (glob st) \/
   next_cp (glob st') = to_short (next_cp (glob st) + 1)).
Proof.
  intros H.
  destruct (colorset_cases _ _ _ _ _ _ H) as [He|[p Hp]].
  - rewrite (colorset_enter _ _ _ _ He) in H.
    destruct (colorset_new nam k st) as [[o st1]|] eqn:Hn; [|done].
    pose proof (colorset_new_counter _ _ _ _ _ Hn) as Hcnt.
    apply colorset_new_inv in Hn as (_ & _ & Ho).
    assert (glob st' = glob st1) as -> by (destruct o; by simplify_eq/=).
    split; [|done]. destruct o as [n|]; [|by left].
    destruct Ho as (-> & Hnext & _ & Hv & tbl & Ht & Ht').
    right. by exists tbl.
  - rewrite (colorset_hit _ _ _ _ _ Hp) in H. injection H as _ <-. cbn.
    split; by left.
Qed.

Lemma colorset_consumed n nam w k st r st' :
  -32768 <= n ->
  zcurses_colorset nam w k st = Some (r, st') ->
  consumed n (glob st) ->
  next_cp (glob st) < 32767 ->
  consumed n (glob st') /\
  next_cp (glob st) <= next_cp (glob st') <= next_cp (glob st) + 1.
Proof.
  intros Hmin H [Hle Hno] Hlt.
  assert (to_short (next_cp (glob st) + 1) = next_cp (glob st) + 1) as Hs
    by (apply to_short_small; lia).
  apply colorset_step in H as [Ht Hc]. rewrite Hs in Ht, Hc.
  split; [|lia]. split; [lia|].
  intros tbl' k' Htbl'.
  destruct Ht as [Ht|(tbl & Ht & Ht' & _)].
  - apply Hno. by rewrite <- Ht.
  - rewrite Ht' in Htbl'. injection Htbl' as <-.
    destruct (decide (k' = k)) as [->|Hne].
    + rewrite lookup_insert_eq. intros [= ?]. lia.
    + rewrite lookup_insert_ne by done. by apply Hno.
Qed.

Lemma attr_loop_consumed n nam w toks ret st r st' :
  -32768 <= n ->
  attr_loop nam w toks ret st = Some (r, st') ->
  consumed n (glob st) ->
  next_cp (glob st) + Z.of_nat (colour_tokens toks) <= 32767 ->
  consumed n (glob st') /\
  next_cp (glob st) <= next_cp (glob st')
    <= next_cp (glob st) + Z.of_nat (colour_tokens toks).
Proof.
  intros Hmin. revert ret st.
  induction toks as [|tok toks IH]; intros ret st; cbn.
  - munfold. intros [= _ <-]. split; [done|lia].
  - munfold.
    destruct (attr_body nam w tok ret st) as [[ret' st1]|] eqn:Hb; [|done].
    intros H Hok Hle.
    assert (consumed n (glob st1) /\
            next_cp (glob st) <= next_cp (glob st1)
              <= next_cp (glob st)
                 + Z.of_nat (if bool_decide (is_Some (strchr tok "/"))
                             then 1 else 0)) as [Hok1 Hn1].
    { revert Hb. unfold attr_body. munfold.
      destruct (bool_decide (is_Some (strchr tok "/"))).
      - destruct (zcurses_colorset nam w tok st) as [[r0 st0]|] eqn:Hc;
          [|done].
        intros [= _ <-]. eapply colorset_consumed; [done..|lia].
      - destruct (attr_sign tok) as [onoff ptr].
        destruct (zcurses_attribute w (Some ptr) onoff st)
          as [[r0 st0]|] eqn:Ha; [|done].
        apply attribute_inv in Ha.
        destruct (Z.eqb r0 0); intros [= _ <-]; cbn; rewrite Ha;
          (split; [done|lia]). }
    destruct (IH _ _ H Hok1) as [Hok2 Hn2]; [lia|].
    split; [done|lia].
Qed.

Lemma consumed_same n g g' :
  next_cp g' = next_cp g ->
  zcurses_colorpairs g' = zcurses_colorpairs g ->
  consumed n g -> consumed n g'.
Proof. unfold consumed. by intros -> ->. Qed.

Lemma perform_consumed n a st r st' :
  -32768 <= n ->
  perform a st = Some (r, st') ->
  consumed n (glob st) ->
  next_cp (glob st) + Z.of_nat (action_requests a) <= 32767 ->
  consumed n (glob st') /\
  next_cp (glob st) <= next_cp (glob st')
    <= next_cp (glob st) + Z.of_nat (action_requests a).
Proof.
  intros Hmin H Hok Hle.
  assert (Hsame :
    next_cp (glob st') = next_cp (glob st) ->
    zcurses_colorpairs (glob st') = zcurses_colorpairs (glob st) ->
    consumed n (glob st') /\
    next_cp (glob st) <= next_cp (glob st')
      <= next_cp (glob st) + Z.of_nat (action_requests a)).
  { intros Hn Ht. split; [by eapply consumed_same|lia]. }
  destruct a; cbn [perform action_requests] in *.
  - apply init_colour in H as [Hn [Ht|Ht]]; [by apply Hsame|].
    split; [|lia]. destruct Hok as [Hc0 _]. split; [lia|].
    intros tbl k. rewrite Ht. intros [= <-]. by rewrite lookup_empty.
  - apply addwin_inv in H as [(_ & ? & ?) _]. by apply Hsame.
  - apply delwin_inv in H as [(_ & ? & ?) _]. by apply Hsame.
  - apply endwin_inv in H. apply Hsame; by rewrite H.
  - revert H. unfold zccmd_attr, warn_validate, getdata. munfold.
    destruct (args !! 0%nat); [|intros [= _ <-]; split; [done|lia]].
    destruct (zcurses_validate_window _ _ st) as [[res st1]|] eqn:Hv; [|done].
    apply validate_inv in Hv as (_ & [e He] & _).
    assert (consumed n (glob st1)) as Hok1
      by (eapply consumed_same; [..|exact Hok]; by rewrite He).
    assert (next_cp (glob st1) = next_cp (glob st)) as Hn1 by by rewrite He.
    intros H. destruct res as [node|].
    + destruct (zcurses_windows (glob st1) !! node) as [zw|]; [|done].
      apply attr_loop_consumed with (n := n) in H; [|done|exact Hok1|lia].
      rewrite Hn1 in H. done.
    + injection H as _ <-. cbn. rewrite <- Hn1. split; [done|lia].
  - apply scroll_inv in H as [(_ & ? & ?) _]. by apply Hsame.
  - apply input_inv in H as [(_ & ? & ?) _]. by apply Hsame.
  - eapply colorset_consumed in H; [|done|done|lia].
    destruct H as [? ?]. split; [done|lia].
  - injection H as _ <-. by apply Hsame.
Qed.

Lemma steps_consumed n st tr st' :
  -32768 <= n ->
  steps st tr st' ->
  consumed n (glob st) ->
  next_cp (glob st) + Z.of_nat (sum_list (action_requests <$> tr.*1))
    <= 32767 ->
  consumed n (glob st').
Proof.
  intros Hmin. induction 1 as [|st a r st1 tr st2 H _ IH]; [done|].
  cbn. intros Hok Hle.
  destruct (perform_consumed _ _ _ _ _ Hmin H Hok) as [Hok1 Hn1]; [lia|].
  apply IH; [done|lia].
Qed.

(** C9 (amended).  A request that enters the block with a valid name and
    then fails, because the advanced counter has reached COLOR_PAIRS,
    because [init_pair] is rejected, or because the node cannot be
    allocated, returns 1, leaves the table as it was and leaves the counter
    at its advanced value [n].  The pair identifier [n] is lost for good:
    where no node holds a pair above the counter, whatever is called
    afterwards the counter stays at or above [n] and no node ever holds
    [n], as long as the requests made stay within the range of the [short]
    counter.  When the failure happens below COLOR_PAIRS the number of
    pair identifiers still to be handed out goes down by one; when the
    counter has reached COLOR_PAIRS that number was zero and remains
    zero. *)
Theorem failed_allocation_keeps_counter_advanced nam w k st :
  enters_block (glob st) k ->
  valid_colorpair k = true ->
  let n := to_short (next_cp (glob st) + 1) in
  (COLOR_PAIRS <= n \/
   exists cp bg,
     strchr k "/" = Some (cp, bg) /\
     let ip := init_pair n (zcurses_color cp) (zcurses_color bg) (world st) in
     (fst ip = ERR \/ fst (zalloc (snd ip)) = false)) ->
  exists st',
    zcurses_colorset nam w k st = Some (1, st') /\
    next_cp (glob st') = n /\
    zcurses_colorpairs (glob st') = zcurses_colorpairs (glob st) /\
    (-32768 <= next_cp (glob st) < 32767 ->
     n = next_cp (glob st) + 1 /\
     (n < COLOR_PAIRS ->
      pairs_left (glob st') = pairs_left (glob st) - 1) /\
     (COLOR_PAIRS <= n ->
      pairs_left (glob st) = 0 /\ pairs_left (glob st') = 0) /\
     ((forall tbl k' p,
         zcurses_colorpairs (glob st) = Some tbl ->
         tbl !! k' = Some p -> p <= next_cp (glob st)) ->
      forall tr st2,
        steps st' tr st2 ->
        n + Z.of_nat (sum_list (action_requests <$> tr.*1)) <= 32767 ->
        n <= next_cp (glob st2) /\
        forall tbl k',
          zcurses_colorpairs (glob st2) = Some tbl -> tbl !! k' <> Some n)).
Proof.
  intros Hin Hv n Hfail.
  rewrite colorset_enter by done.
  destruct (colorset_new_consumed nam k st Hv Hfail) as (w' & ->).
  eexists. split; [done|]. sred. fold n. split_and!; [done|done|].
  intros Hrange.
  assert (n = next_cp (glob st) + 1) as Hn.
  { unfold n. apply to_short_small. lia. }
  unfold pairs_left. sred. fold n. split_and!; [done|lia|lia|].
  intros Hold tr st2 Hsteps Hle.
  eapply (steps_consumed n) in Hsteps; [exact Hsteps|lia| |sred; lia].
  split; sred; [lia|].
  intros tbl k' Htbl Hk'. specialize (Hold _ _ _ Htbl Hk'). lia.
Qed.

(** ** How many names can be allocated *)

Lemma resolve_all_new_nodes nam w reqs st rs st' :
  resolve_all nam w reqs st = Some (rs, st') ->
  forall tbl' k,
    zcurses_colorpairs (glob st') = Some tbl' -> is_Some (tbl' !! k) ->
    valid_colorpair k = true \/
    exists tbl, zcurses_colorpairs (glob st) = Some tbl /\ is_Some (tbl !! k).
Proof.
  unfold resolve_all. revert st rs.
  induction reqs as [|q reqs IH]; intros st rs; cbn.
  - munfold. intros [= _ <-] tbl' k Ht Hk. right. eauto.
  - munfold.
    destruct (zcurses_colorset nam w q st) as [[r st1]|] eqn:Hc; [|done].
    destruct (mapM (zcurses_colorset nam w) reqs st1)
      as [[rs' st2]|] eqn:Hm; [|done].
    intros [= _ <-] tbl' k Ht Hk.
    destruct (IH _ _ Hm _ _ Ht Hk) as [?|(tbl1 & Ht1 & Hk1)]; [by left|].
    apply colorset_step in Hc as [[Hs|(tbl & Hs & Hs' & _ & Hv)] _].
    + right. exists tbl1. by rewrite <- Hs.
    + rewrite Hs' in Ht1. injection Ht1 as <-.
      destruct (decide (k = q)) as [->|Hne]; [by left|].
      rewrite lookup_insert_ne in Hk1 by done. right. eauto.
Qed.

Lemma allocatable_at_most_64 st keys :
  allocatable st keys -> (length keys <= 64)%nat.
Proof.
  intros (Hnd & Hnone & nam & w & reqs & rs & st' & Hrun & Hall).
  apply distinct_colorpairs_length; [done|].
  intros k Hk. destruct (Hall k Hk) as (tbl' & p & Ht' & Hp).
  destruct (resolve_all_new_nodes _ _ _ _ _ _ Hrun tbl' k Ht')
    as [?|(tbl & Ht & Hs)]; [by rewrite Hp|done|].
  rewrite (Hnone k tbl Hk Ht) in Hs. by destruct Hs.
Qed.

Lemma NoDup_all_colorpairs : NoDup all_colorpairs.
Proof. apply (bool_decide_unpack _). vm_compute. exact I. Qed.

Lemma all_colorpairs_valid k : k ∈ all_colorpairs -> valid_colorpair k = true.
Proof.
  assert (forallb valid_colorpair all_colorpairs = true) as Hall
    by (vm_compute; reflexivity).
  rewrite forallb_forall in Hall. intros Hin. apply Hall.
  by apply list_elem_of_In.
Qed.

Lemma resolve_all_serves lo nam w keys st tbl :
  (forall p f b w0, lo <= p -> fst (init_pair p f b w0) <> ERR) ->
  (forall w0, fst (zalloc w0) = true) ->
  zcurses_colorpairs (glob st) = Some tbl ->
  lo <= next_cp (glob st) + 1 ->
  0 <= next_cp (glob st) ->
  next_cp (glob st) + Z.of_nat (length keys) < COLOR_PAIRS ->
  next_cp (glob st) + Z.of_nat (length keys) <= 32767 ->
  NoDup keys ->
  (forall k, k ∈ keys -> valid_colorpair k = true /\ tbl !! k = None) ->
  exists rs st' tbl',
    resolve_all nam w keys st = Some (rs, st') /\
    zcurses_colorpairs (glob st') = Some tbl' /\
    forall k, k ∈ keys \/ is_Some (tbl !! k) -> is_Some (tbl' !! k).
Proof.
  intros Hip Hza. unfold resolve_all. revert st tbl.
  induction keys as [|k keys IH];
    intros st tbl Htbl Hlo Hc0 Hcap Hlen Hnd Hkeys.
  - exists [], st, tbl. cbn. split_and!; [done|done|].
    intros k [Hk|?]; [by apply elem_of_nil in Hk|done].
  - apply NoDup_cons in Hnd as [Hk Hnd]. cbn [length] in Hcap, Hlen.
    destruct (Hkeys k) as [Hv Hnone]; [by left|].
    assert (to_short (next_cp (glob st) + 1) = next_cp (glob st) + 1) as Hn
      by (apply to_short_small; lia).
    pose proof Hv as Hv'. unfold valid_colorpair in Hv'.
    destruct (strchr k "/") as [[cp bg]|] eqn:Hs; [|done].
    apply andb_true_iff in Hv' as [Hf Hb].
    apply negb_true_iff, Z.eqb_neq in Hf, Hb.
    assert (enters_block (glob st) k) as Hin by (right; by exists tbl).
    pose proof (colorset_enter nam w k st Hin) as Hset.
    rewrite (colorset_new_alloc nam k st cp bg tbl) in Hset;
      [|done|done|done|done|rewrite Hn; lia|apply Hip; rewrite Hn; lia
       |apply Hza].
    rewrite Hn in Hset.
    match type of Hset with
    | _ = Some (?r, ?s) => set (r1 := r) in Hset; set (st1 := s) in Hset
    end.
    destruct (IH st1 (<[k := next_cp (glob st) + 1]> tbl))
      as (rs & st' & tbl' & Hrun & Ht' & Hall).
    + done.
    + cbn. lia.
    + cbn. lia.
    + cbn. lia.
    + cbn. lia.
    + done.
    + intros k' Hk'. destruct (Hkeys k') as [? ?]; [by right|].
      split; [done|]. rewrite lookup_insert_ne; [done|]. by intros ->.
    + exists (r1 :: rs), st', tbl'. cbn [mapM]. munfold.
      rewrite Hset, Hrun. split_and!; [done|done|].
      intros k' Hk'. apply Hall.
      destruct (decide (k' = k)) as [->|Hne].
      * right. rewrite lookup_insert_eq. eauto.
      * destruct Hk' as [[?|?]%elem_of_cons|?]; [done|by left|].
        right. by rewrite lookup_insert_ne.
Qed.

Lemma served_by_all lo nam w st :
  (forall p f b w0, lo <= p -> fst (init_pair p f b w0) <> ERR) ->
  (forall w0, fst (zalloc w0) = true) ->
  zcurses_colorpairs (glob st) = Some ∅ ->
  lo <= next_cp (glob st) + 1 ->
  0 <= next_cp (glob st) ->
  next_cp (glob st) + 64 < COLOR_PAIRS ->
  next_cp (glob st) + 64 <= 32767 ->
  served_by nam w all_colorpairs st all_colorpairs.
Proof.
  intros Hip Hza He Hlo Hc0 Hcap Hlen.
  destruct (resolve_all_serves lo nam w all_colorpairs st ∅)
    as (rs & st' & tbl' & Hrun & Ht' & Hall); try done.
  - apply NoDup_all_colorpairs.
  - intros k Hk. split; [by apply all_colorpairs_valid|apply lookup_empty].
  - exists rs, st'. split; [done|]. intros k Hk.
    destruct (Hall k) as [p Hp]; [by left|]. eauto.
Qed.

Lemma served_by_after nam w k st r st1 reqs keys :
  zcurses_colorset nam w k st = Some (r, st1) ->
  served_by nam w reqs st1 keys ->
  served_by nam w (k :: reqs) st keys.
Proof.
  intros Hset (rs & st' & Hrun & Hall). exists (r :: rs), st'.
  split; [|done]. revert Hrun. unfold resolve_all. cbn [mapM]. munfold.
  rewrite Hset. by intros ->.
Qed.

Lemma allocatable_count_64 st nam w reqs :
  zcurses_colorpairs (glob st) = Some ∅ ->
  served_by nam w reqs st all_colorpairs ->
  allocatable_count st 64.
Proof.
  intros He Hs. split.
  - exists all_colorpairs. split; [reflexivity|].
    split; [apply NoDup_all_colorpairs|]. split; [|eauto].
    intros k tbl _ Ht. rewrite He in Ht. injection Ht as <-.
    apply lookup_empty.
  - apply allocatable_at_most_64.
Qed.

End Proofs.

(** On a platform whose [delwin] fails, the window "w" survives its
    [zcurses delwin]. *)
Lemma delwin_release_failure_witness :
  exists st',
    zccmd_delwin (P := rejecting is_delwin) "zcurses" ["w"]
      (session_w (P := rejecting is_delwin) no_calls)
      = Some (1, st') /\
    find_window (zcurses_windows (glob st')) "w" = Some 1%nat.
Proof.
  destruct (delwin_release_failure_keeps_entry (P := rejecting is_delwin)
              "zcurses" ["w"] (session_w (P := rejecting is_delwin) no_calls)
              1%nat
              (State
                 (set_zc_errno 0
                    (glob (session_w (P := rejecting is_delwin) no_calls)))
                 (world (session_w (P := rejecting is_delwin) no_calls)))
              (ZCWin 6 "w" 0))
    as (st' & H1 & _ & _ & _ & H2).
  - vm_compute. reflexivity.
  - vm_compute. reflexivity.
  - vm_compute. reflexivity.
  - vm_compute. discriminate.
  - exists st'. split; [exact H1 | exact H2].
Defined.

(** A second [addwin] of "w", after a scroll of it, is refused. *)
Lemma addwin_twice_witness :
  exists st3,
    zccmd_addwin (P := plain) "zcurses" ["w"; "5"; "5"; "0"; "0"]
      (after (zccmd_scroll "zcurses" ["w"; "on"]) plain_session_w)
      = Some (1, st3) /\
    zc_errno (glob st3) = ZCURSES_EDEFINED.
Proof.
  destruct (addwin_twice_already_defined (P := plain)
              "zcurses" ["w"; "10"; "40"; "0"; "0"] "w"
              plain_session plain_session_w
              [(A_scroll "zcurses" ["w"; "on"], 0)]
              (after (zccmd_scroll "zcurses" ["w"; "on"]) plain_session_w)
              "zcurses" ["w"; "5"; "5"; "0"; "0"])
    as (_ & st3 & H1 & H2 & _).
  - reflexivity.
  - vm_compute. reflexivity.
  - eapply steps_cons; [vm_compute; reflexivity | apply steps_nil].
  - intros ar Har (nam & args & -> & _).
    apply list_elem_of_singleton in Har. discriminate Har.
  - reflexivity.
  - exists st3. split; [exact H1 | exact H2].
Defined.

(** The empty name is not in the registry of a started session, and its
    [delwin] is answered with ZCURSES_EINVALID and "window name invalid",
    not with ZCURSES_EUNDEFINED. *)
Lemma delwin_empty_name_not_undefined :
  let st := plain_session in
  find_window (zcurses_windows (glob st)) "" = None /\
  exists st',
    zccmd_delwin (P := plain) "zcurses" [""] st = Some (1, st') /\
    zc_errno (glob st') = ZCURSES_EINVALID /\
    zc_errno (glob st') <> ZCURSES_EUNDEFINED /\
    world st' =
      world st ++ [Ev_zwarnnam "zcurses" "window name invalid: "].
Proof.
  cbv zeta. split; [vm_compute; reflexivity|].
  eexists. split; [vm_compute; reflexivity|].
  split_and!; [reflexivity | discriminate | reflexivity].
Qed.

(** [delwin] of "stdscr" in a started session, and of a name that is not
    there. *)
Lemma delwin_undefined_or_permanent_witness :
  let st := plain_session_w in
  (exists st', zccmd_delwin (P := plain) "zcurses" ["stdscr"] st
               = Some (1, st') /\
               zcurses_windows (glob st') = zcurses_windows (glob st)) /\
  zccmd_delwin (P := plain) "zcurses" ["v"] st =
    Some (1, State (set_zc_errno ZCURSES_EUNDEFINED (glob st))
               (zwarnnam "zcurses" "window undefined: v" (world st))).
Proof.
  cbv zeta. split.
  - apply (delwin_undefined_or_permanent (P := plain) "zcurses" ["stdscr"]
             "stdscr" plain_session_w eq_refl); [reflexivity|].
    left. exists 0%nat, (ZCWin 1 "stdscr" ZCWF_PERMANENT).
    vm_compute. repeat split.
  - apply (delwin_undefined_or_permanent (P := plain) "zcurses" ["v"]
             "v" plain_session_w eq_refl); [discriminate|].
    vm_compute. reflexivity.
Defined.

(** [zcurses scroll w 3] with scrolling off, then the same after
    [zcurses scroll w on]. *)
Lemma scroll_by_n_witness :
  let st := plain_session_w in
  let st_on := after (zccmd_scroll (P := plain) "zcurses" ["w"; "on"]) st in
  (exists st',
     zccmd_scroll (P := plain) "zcurses" ["w"; "3"] st = Some (0, st') /\
     world st' =
       world st ++ [Ev_scrollok 6 true; Ev_wscrl 6 3; Ev_scrollok 6 false] /\
     zcurses_windows (glob st') = zcurses_windows (glob st)) /\
  (exists st',
     zccmd_scroll (P := plain) "zcurses" ["w"; "3"] st_on = Some (0, st') /\
     world st' = world st_on ++ [Ev_wscrl 6 3] /\
     zcurses_windows (glob st') = zcurses_windows (glob st_on)).
Proof.
  cbv zeta. split.
  - destruct (scroll_by_n_restores_flag (P := plain) "zcurses" ["w"; "3"]
                plain_session_w 1%nat
                (State (set_zc_errno 0 (glob plain_session_w))
                   (world plain_session_w))
                (ZCWin 6 "w" 0) "3" 3) as [H1 H2];
      [vm_compute; reflexivity | vm_compute; reflexivity | reflexivity
      | discriminate | discriminate | vm_compute; reflexivity |].
    eexists. split; [rewrite H2; vm_compute; reflexivity|].
    split; [reflexivity | exact H1].
  - destruct (scroll_by_n_restores_flag (P := plain) "zcurses" ["w"; "3"]
                (after (zccmd_scroll (P := plain) "zcurses" ["w"; "on"])
                   plain_session_w) 1%nat
                (State (set_zc_errno 0
                          (glob (after (zccmd_scroll (P := plain) "zcurses"
                                          ["w"; "on"]) plain_session_w)))
                   (world (after (zccmd_scroll (P := plain) "zcurses"
                                    ["w"; "on"]) plain_session_w)))
                (ZCWin 6 "w" ZCWF_SCROLL) "3" 3) as [H1 H2];
      [vm_compute; reflexivity | vm_compute; reflexivity | reflexivity
      | discriminate | discriminate | vm_compute; reflexivity |].
    eexists. split; [rewrite H2; vm_compute; reflexivity|].
    split; [reflexivity | exact H1].
Defined.

(** "red/black" is resolved once, other tokens follow, and "red/black" is
    resolved again: [wcolor_set] with the same pair and nothing else.  And
    the first request of a session whose table already has "red/black"
    under pair 5 defines pair 1 for it. *)
Lemma colorset_reuses_pair_witness :
  let st1 := after (zcurses_colorset (P := plain) "zcurses" 1 "red/black")
               plain_session in
  let st2 := after (zccmd_attr (P := plain) "zcurses"
                      ["stdscr"; "blue/white"; "bold"]) st1 in
  (exists p,
     cached (glob st1) "red/black" p /\
     zcurses_colorset (P := plain) "zcurses" 1 "red/black" st2 =
       Some (0, State (glob st2) (world st2 ++ [Ev_wcolor_set 1 p]))) /\
  (exists st',
     zcurses_colorset (P := plain) "zcurses" 1 "red/black" (stale_session 0)
       = Some (0, st') /\
     zcurses_colorpairs (glob st') = Some {["red/black" := 1]} /\
     world st' =
       world plain_session ++
         [Ev_init_pair 1 COLOR_RED COLOR_BLACK; Ev_zalloc;
          Ev_wcolor_set 1 1]).
Proof.
  cbv zeta. split.
  - destruct (proj1 (colorset_reuses_pair_and_first_request_is_fresh
                       (P := plain))
                "zcurses" 1 "red/black" plain_session
                (after (zcurses_colorset (P := plain) "zcurses" 1 "red/black")
                   plain_session)
                [(A_attr "zcurses" ["stdscr"; "blue/white"; "bold"], 0)]
                (after (zccmd_attr (P := plain) "zcurses"
                          ["stdscr"; "blue/white"; "bold"])
                   (after (zcurses_colorset (P := plain) "zcurses" 1
                             "red/black") plain_session)))
      as (p & w0 & Hc & _ & H).
    + exists 0%nat, (ZCWin 1 "stdscr" ZCWF_PERMANENT).
      vm_compute. repeat split.
    + vm_compute. reflexivity.
    + eapply steps_cons; [vm_compute; reflexivity | apply steps_nil].
    + exists p. split; [exact Hc|]. rewrite H. reflexivity.
  - eexists. split.
    + apply (proj2 (colorset_reuses_pair_and_first_request_is_fresh
                      (P := plain))
               "zcurses" 1 "red/black" (stale_session 0) "red" "black"
               {["red/black" := 5]});
        [reflexivity | reflexivity | reflexivity | discriminate
        | discriminate | vm_compute; reflexivity | vm_compute; discriminate
        | vm_compute; reflexivity].
    + split; [vm_compute; reflexivity | vm_compute; reflexivity].
Defined.

(** Nine distinct names on the plain platform, which has eight pairs:
    the first seven get pairs 1 to 7, the eighth and the ninth fail. *)
Lemma pair_allocation_witness :
  exists rs st' tbl',
    resolve_all (P := plain) "zcurses" 1 nine_pairs plain_session
      = Some (rs, st') /\
    zcurses_colorpairs (glob st') = Some tbl' /\
    tbl' !! "red/black" = Some 1 /\
    tbl' !! "white/black" = Some 7 /\
    tbl' !! "black/white" = None /\
    rs !! 7%nat = Some 1 /\
    tbl' !! "red/white" = None /\
    rs !! 8%nat = Some 1.
Proof.
  destruct (pair_allocation_fails_beyond_capacity (P := plain)
              "zcurses" 1 nine_pairs plain_session)
    as (rs & st' & tbl' & Hrun & Htbl & H).
  - split; [intros p f b w; discriminate | intros w; reflexivity].
  - apply (bool_decide_unpack _). vm_compute. reflexivity.
  - intros k Hk. apply list_elem_of_In in Hk. simpl in Hk.
    repeat (destruct Hk as [<-|Hk]; [reflexivity|]). destruct Hk.
  - reflexivity.
  - vm_compute. reflexivity.
  - exists rs, st', tbl'. split; [exact Hrun|]. split; [exact Htbl|].
    split; [apply (H 0%nat "red/black" eq_refl); vm_compute; congruence|].
    split; [apply (H 6%nat "white/black" eq_refl); vm_compute; congruence|].
    destruct (proj2 (H 7%nat "black/white" eq_refl)) as [H7 H7'];
      [vm_compute; reflexivity|].
    destruct (proj2 (H 8%nat "red/white" eq_refl)) as [H8 H8'];
      [vm_compute; reflexivity|].
    repeat split; assumption.
Defined.

(** ** Colour pairs, attributes and keys on concrete platforms *)

(** On a terminal without colour, [zcurses init] succeeds and leaves no
    colour table; [zcurses attr stdscr bold red/black underline] then does
    not return. *)
Lemma attr_without_colour_witness :
  zccmd_init (P := rejecting is_start_color) "zcurses" [] monochrome_boot
    = Some (0, monochrome_session) /\
  zcurses_colorpairs (glob monochrome_session) = None /\
  zccmd_attr (P := rejecting is_start_color) "zcurses"
    ["stdscr"; "bold"; "red/black"; "underline"] monochrome_session = None.
Proof.
  split; [reflexivity|]. split; [reflexivity|].
  apply (attr_colour_token_without_table (P := rejecting is_start_color)
           "zcurses" ["stdscr"; "bold"; "red/black"; "underline"]
           monochrome_session 0%nat
           (State (set_zc_errno 0 (glob monochrome_session))
              (world monochrome_session))
           (ZCWin 1 "stdscr" ZCWF_PERMANENT)
           ["bold"] "red/black" ["underline"]).
  - reflexivity.
  - reflexivity.
  - reflexivity.
  - intros t Ht. apply list_elem_of_singleton in Ht. subst t. reflexivity.
  - eexists. reflexivity.
  - discriminate.
  - reflexivity.
Defined.

(** No run from the freshly loaded module meets the hazard: a first
    request in whose state a node is already cached, to be found by a
    later lookup without a fresh allocation. *)
Lemma stale_identifier_never_met :
  ~ exists (P : Platform) (w0 : World) tr0 st nam w k r st1 tr st2 k' p tbl,
      steps (boot w0) tr0 st /\
      zc_color_phase (glob st) = 1 /\
      zcurses_colorset nam w k st = Some (r, st1) /\
      steps st1 tr st2 /\
      cached (glob st2) k' p /\
      zcurses_colorpairs (glob st) = Some tbl /\
      tbl !! k' = Some p.
Proof.
  intros (P & w0 & tr0 & st & nam & w & k & r & st1 & tr & st2 & k' & p
          & tbl & Hreach & Hph & _ & _ & _ & Htbl & Hk').
  destruct (steps_untouched_colour _ _ _ Hreach Hph) as [Hempty _].
  rewrite Hempty in Htbl. injection Htbl as <-.
  by rewrite lookup_empty in Hk'.
Qed.

(** The first request of a session names an unknown colour: it fails, the
    bypass is over, the table is still empty, and the next request for
    "red/black" has to define a pair. *)
Lemma bypass_ends_witness :
  let st1 := after (zcurses_colorset (P := plain) "zcurses" 1 "purple/black")
               plain_session in
  zc_color_phase (glob plain_session) = 1 /\
  zcurses_colorset (P := plain) "zcurses" 1 "purple/black" plain_session
    = Some (1, st1) /\
  zc_color_phase (glob st1) = 2 /\
  zcurses_colorpairs (glob st1) = Some ∅ /\
  enters_block (glob st1) "red/black".
Proof.
  cbv zeta.
  destruct (bypass_ends_on_first_attempt (P := plain) no_calls
              [(A_init "zcurses" [], 0)]
              "zcurses" 1 "purple/black" plain_session 1
              (after (zcurses_colorset (P := plain) "zcurses" 1
                        "purple/black") plain_session))
    as (_ & _ & H2 & Hinv & _ & _ & Hlater).
  - eapply steps_cons; [reflexivity | apply steps_nil].
  - reflexivity.
  - reflexivity.
  - split; [reflexivity|]. split; [reflexivity|].
    split; [exact H2|].
    destruct (Hinv eq_refl) as [_ Hg].
    split; [rewrite Hg; reflexivity|].
    destruct (Hlater [] _ (steps_nil _)) as [_ Hmiss].
    assert (zcurses_colorpairs
              (glob (after (zcurses_colorset (P := plain) "zcurses" 1
                              "purple/black") plain_session)) = Some ∅)
      as Hempty by (rewrite Hg; reflexivity).
    pose proof (Hmiss "zcurses" 1 "red/black" ∅ Hempty) as Hm.
    rewrite lookup_empty in Hm. exact Hm.
Defined.

Lemma roomy_accepts :
  (forall p f b w0,
     2 <= p -> fst (init_pair (Platform := roomy) p f b w0) <> ERR) /\
  (forall w0, fst (zalloc (Platform := roomy) w0) = true).
Proof.
  split; [|done]. intros p f b w0 Hp. cbn.
  destruct p as [|[p|p|]|p]; cbn; try discriminate; lia.
Qed.

(** On a terminal with 256 pairs the first request fails because
    [init_pair] rejects pair 1: the counter goes from 0 to 1, below the
    bound, and the number of names that can still be allocated is 64
    before and 64 after the failed request. *)
Lemma failed_allocation_loses_no_key :
  exists st1,
    zcurses_colorset (P := roomy) "zcurses" 1 "red/black" roomy_session
      = Some (1, st1) /\
    next_cp (glob roomy_session) = 0 /\
    next_cp (glob st1) = 1 /\
    1 < @COLOR_PAIRS roomy /\
    fst (init_pair (Platform := roomy) 1 1 0 (world roomy_session)) = ERR /\
    allocatable_count roomy_session 64 /\
    allocatable_count st1 64.
Proof.
  set (st1 := after (zcurses_colorset (P := roomy) "zcurses" 1 "red/black")
                roomy_session).
  assert (zcurses_colorset (P := roomy) "zcurses" 1 "red/black"
            roomy_session = Some (1, st1)) as Hrun by reflexivity.
  assert (served_by (P := roomy) "zcurses" 1 all_colorpairs st1
            all_colorpairs) as Hserved.
  { destruct roomy_accepts as [Hip Hza].
    apply (served_by_all (P := roomy) 2); try done. }
  exists st1. split; [exact Hrun|].
  split; [reflexivity|]. split; [reflexivity|].
  split; [reflexivity|]. split; [reflexivity|]. split.
  - apply (allocatable_count_64 (P := roomy) roomy_session "zcurses" 1
             ("red/black" :: all_colorpairs)); [reflexivity|].
    by apply (served_by_after (P := roomy) _ _ _ _ _ _ _ _ Hrun).
  - by apply (allocatable_count_64 (P := roomy) st1 "zcurses" 1
                all_colorpairs).
Qed.

(** The failed first request of the roomy session has taken pair 1: the
    counter is at 1, 254 identifiers are left instead of 255, and no node
    holds pair 1. *)
Lemma failed_allocation_witness :
  exists st',
    zcurses_colorset (P := roomy) "zcurses" 1 "red/black" roomy_session
      = Some (1, st') /\
    next_cp (glob st') = 1 /\
    pairs_left (glob roomy_session) = 255 /\
    pairs_left (glob st') = 254 /\
    1 <= next_cp (glob st') /\
    forall tbl k', zcurses_colorpairs (glob st') = Some tbl ->
                   tbl !! k' <> Some 1.
Proof.
  destruct (failed_allocation_keeps_counter_advanced
              (P := roomy) "zcurses" 1 "red/black" roomy_session)
    as (st' & Hrun & Hn & _ & Hleft).
  - left. reflexivity.
  - reflexivity.
  - right. exists "red", "black". split; [reflexivity|]. left.
    reflexivity.
  - destruct Hleft as (_ & Hdown & _ & Hgone);
      [split; [discriminate | reflexivity]|].
    assert (forall tbl k' p,
              zcurses_colorpairs (glob roomy_session) = Some tbl ->
              tbl !! k' = Some p -> p <= next_cp (glob roomy_session))
      as Hold.
    { intros tbl k' p Ht.
      assert (zcurses_colorpairs (glob roomy_session) = Some ∅) as He
        by reflexivity.
      rewrite He in Ht. injection Ht as <-. by rewrite lookup_empty. }
    exists st'.
    split; [exact Hrun|]. split; [exact Hn|].
    split; [reflexivity|].
    split; [rewrite Hdown; [reflexivity|reflexivity]|].
    apply (Hgone Hold [] st' (steps_nil st')). discriminate.
Defined.

(** With a table that lists KEY_F0, a key ten past KEY_F0 that the table
    does not list is written as "F10". *)
Lemma input_unnamed_key_code_witness :
  let key := (WGET_KEY_CODE_YES, 274) in
  let st := f0_key_session key in
  nnp_by_number (@keypad_names (with_f0_key key)) 264 = Some "F0" /\
  exists st',
    zccmd_input (P := with_f0_key key) "zcurses" ["stdscr"; "k"; "kp"] st
      = Some (0, st') /\
    world st' =
      world st ++ [Ev_keypad 1 true; Ev_read 1; Ev_setsparam "k" "";
                   Ev_setsparam "kp" "F10"].
Proof.
  cbv zeta. split; [reflexivity|]. eexists.
  rewrite (input_unnamed_key_code_f0_listed
             (P := with_f0_key (WGET_KEY_CODE_YES, 274))
             "zcurses" ["stdscr"; "k"; "kp"]
             (f0_key_session (WGET_KEY_CODE_YES, 274)) 0%nat
             (State (set_zc_errno 0
                       (glob (f0_key_session (WGET_KEY_CODE_YES, 274))))
                (world (f0_key_session (WGET_KEY_CODE_YES, 274))))
             (ZCWin 1 "stdscr" ZCWF_PERMANENT) "k" "kp"
             (String zero EmptyString) 274
             (State (set_zc_errno 0
                       (glob (f0_key_session (WGET_KEY_CODE_YES, 274))))
                (world (f0_key_session (WGET_KEY_CODE_YES, 274))
                 ++ [Ev_keypad 1 true; Ev_read 1])));
    [ | reflexivity | reflexivity | reflexivity
      | reflexivity | reflexivity | reflexivity
      | discriminate | discriminate
      | eexists; reflexivity | reflexivity ].
  split; reflexivity.
Defined.

(** ** Sessions on the plain platform *)

(** init; addwin w; addwin w again; delwin w; delwin w again. *)
Example session_addwin_delwin :
  fst <$> run (P := plain)
            [ A_init "zcurses" [];
              A_addwin "zcurses" ["w"; "10"; "40"; "0"; "0"];
              A_addwin "zcurses" ["w"; "5"; "5"; "0"; "0"];
              A_delwin "zcurses" ["w"];
              A_delwin "zcurses" ["w"] ] plain_boot
  = Some [0; 0; 1; 0; 1].
Proof. vm_compute. reflexivity. Qed.

(** The diagnostics of that session. *)
Example session_addwin_delwin_diagnostics :
  List.filter is_diagnostic
    (world (after (run (P := plain)
                     [ A_init "zcurses" [];
                       A_addwin "zcurses" ["w"; "10"; "40"; "0"; "0"];
                       A_addwin "zcurses" ["w"; "5"; "5"; "0"; "0"];
                       A_delwin "zcurses" ["w"];
                       A_delwin "zcurses" ["w"] ]) plain_boot))
  = [ Ev_zerrnam "zcurses" "window already defined: w";
      Ev_zwarnnam "zcurses" "window undefined: w" ].
Proof. vm_compute. reflexivity. Qed.

(** attr stdscr bold +reverse succeeds; attr stdscr bogus fails. *)
Example session_attr :
  fst <$> run (P := plain)
            [ A_init "zcurses" [];
              A_attr "zcurses" ["stdscr"; "bold"; "+reverse"];
              A_attr "zcurses" ["stdscr"; "bogus"] ] plain_boot
  = Some [0; 0; 1].
Proof. vm_compute. reflexivity. Qed.

(** Without colour support the table is never allocated, and a colour
    token makes [zcurses_colorset] dereference the NULL table. *)
Example session_attr_without_colour :
  run (P := rejecting is_start_color)
    [ A_init "zcurses" [];
      A_attr "zcurses" ["stdscr"; "red/black"] ] monochrome_boot
  = None.
Proof. reflexivity. Qed.

(** ** The builtin on the plain platform *)

Lemma plain_conv_in_bounds :
  conv_in_bounds (P := plain) (T := plain_terminal).
Proof.
  intros s w. cbn.
  destruct s as [|a [|b s]]; cbn; [by left|..];
    repeat case_match; cbn; right; lia.
Qed.

Lemma init_commands :
  commands (P := plain) (T := plain_terminal) plain_boot
    [(["init"], 0)] started.
Proof.
  eapply commands_cons with (nam := "zcurses") (st1 := started);
    [reflexivity|apply commands_nil].
Qed.

Lemma tour_commands :
  commands (P := plain) (T := plain_terminal) plain_boot tour started_red.
Proof.
  eapply commands_cons with (nam := "zcurses") (st1 := started);
    [reflexivity|].
  eapply commands_cons with (nam := "zcurses") (st1 := started_w);
    [reflexivity|].
  eapply commands_cons with (nam := "zcurses") (st1 := started_red);
    [reflexivity|apply commands_nil].
Qed.

(** [zcurses move stdscr 1 2] in a session changes nothing of the module's
    state but [zc_errno]. *)
Lemma display_subcommands_witness :
  exists e, glob (State (glob started) (world started)) =
            set_zc_errno e (glob started).
Proof.
  apply (display_subcommands_keep_module_state (P := plain)
           (T := plain_terminal) Zc_move "zcurses" ["stdscr"; "1"; "2"]
           started 0).
  - unfold display_subcommands. apply list_elem_of_In. simpl. tauto.
  - reflexivity.
Defined.

(** An unknown subcommand returns 1. *)
Lemma bin_zcurses_returns_witness : 1 = 0 \/ 1 = 1.
Proof.
  apply (bin_zcurses_returns_0_or_1 (P := plain) (T := plain_terminal)
           "zcurses" ["bogus"] plain_boot 1
           (State (glob plain_boot)
              (world plain_boot
               ++ [Ev_zwarnnam "zcurses" "unknown subcommand: bogus"]))).
  reflexivity.
Defined.

(** [zcurses addwin] before [zcurses init] is refused. *)
Lemma refused_before_init_witness :
  exists msg,
    bin_zcurses (P := plain) (T := plain_terminal) "zcurses"
      ["addwin"; "w"; "10"; "40"; "0"; "0"] plain_boot =
    Some (1, State (glob plain_boot)
               (zwarnnam (Platform := plain) "zcurses" msg
                  (world plain_boot))).
Proof.
  apply (bin_zcurses_refused_before_init (P := plain) (T := plain_terminal)
           "zcurses" ["addwin"; "w"; "10"; "40"; "0"; "0"] "addwin"
           plain_boot); [reflexivity|discriminate|discriminate|reflexivity].
Defined.

(** [zcurses move stdscr], with two arguments missing, returns. *)
Lemma no_missing_argument_witness :
  is_Some (bin_zcurses (P := plain) (T := plain_terminal) "zcurses"
             ["move"; "stdscr"] started).
Proof.
  apply (bin_zcurses_reads_no_missing_argument (P := plain)
           (T := plain_terminal) "zcurses" ["move"; "stdscr"] "move"
           started); [reflexivity|apply plain_conv_in_bounds|].
  discriminate.
Defined.

(** The registry at the end of the tour. *)
Lemma registry_well_formed_witness :
  registry_ok (zcurses_windows (glob started_red)) /\
  zcurses_windows (glob started_red) <> [].
Proof.
  destruct (registry_well_formed (P := plain) (T := plain_terminal)
              no_calls tour started_red tour_commands)
    as [Hok Hne].
  split; [exact Hok|]. apply Hne. apply Exists_cons_hd.
  split; reflexivity.
Defined.

(** The windows array at the end of the tour. *)
Lemma windows_array_witness :
  exists names,
    zcurses_windowsgetfn (P := plain) started_red
      = Some (names, started_red) /\
    NoDup names /\
    "w" ∈ names.
Proof.
  destruct (windows_array_lists_the_usable_names (P := plain)
              (T := plain_terminal) no_calls tour started_red
              tour_commands)
    as (names & Hget & Hnd & Hin).
  exists names. split; [exact Hget|]. split; [exact Hnd|].
  apply Hin. exists 1%nat.
  exists (State (set_zc_errno 0 (glob started_red)) (world started_red)).
  split; [reflexivity|].
  assert (zcurses_windowsgetfn (P := plain) started_red
          = Some (["stdscr"; "w"], started_red)) as Hget' by reflexivity.
  rewrite Hget' in Hget. injection Hget as <-. reflexivity.
Defined.

(** A window "w" is created in a session and deleted at once. *)
Lemma addwin_then_delwin_witness :
  glob (State (glob started) (world started_w ++ [Ev_delwin 6]))
  = set_zc_errno 0 (glob started).
Proof.
  apply (addwin_then_delwin_restores (P := plain)
           "zcurses" ["w"; "10"; "40"; "0"; "0"] "zcurses" ["w"] "w"
           started started_w);
    [reflexivity|reflexivity|reflexivity|reflexivity].
Defined.

(** After [delwin w] the name "w" is not found. *)
Lemma delwin_removes_witness :
  exists n,
    ["w"] !! 0%nat = Some n /\
    find_window
      (zcurses_windows
         (glob (State (glob started) (world started_w ++ [Ev_delwin 6]))))
      n = None.
Proof.
  destruct (delwin_removes_only_the_named_window (P := plain)
              "zcurses" ["w"] started_w
              (State (glob started) (world started_w ++ [Ev_delwin 6])))
    as (n & Hn & Hgone & _).
  - apply (bool_decide_unpack _). reflexivity.
  - reflexivity.
  - exists n. split; [exact Hn|exact Hgone].
Defined.

(** The colour table at the end of the tour. *)
Lemma colour_table_sound_witness : cache_ok (glob started_red).
Proof.
  apply (colour_table_sound (P := plain) (T := plain_terminal) no_calls
           tour started_red tour_commands).
  discriminate.
Defined.

(** The phase is 1 after init and 2 at the end of the tour. *)
Lemma colour_phase_witness :
  zcurses_colorpairs (glob started) = Some ∅ /\
  zc_color_phase (glob started) <= zc_color_phase (glob started_red).
Proof.
  destruct (colour_phase_life_cycle (P := plain) (T := plain_terminal)
              no_calls [(["init"], 0)] started
              [(["addwin"; "w"; "10"; "40"; "0"; "0"], 0);
               (["attr"; "w"; "red/black"; "bold"], 0)]
              started_red)
    as (_ & H1 & [_ Hle] & _).
  - apply init_commands.
  - eapply commands_cons with (nam := "zcurses") (st1 := started_w);
      [reflexivity|].
    eapply commands_cons with (nam := "zcurses") (st1 := started_red);
      [reflexivity|apply commands_nil].
  - split; [apply H1; reflexivity|exact Hle].
Defined.

(** "bold" and "-bold". *)
Lemma attr_token_sign_witness :
  exists num,
    nnp_by_name (zcurses_attributes (P := plain)) "bold" = Some num /\
    attr_body (P := plain) "zcurses" 1 "-bold" 0 started =
      Some (0, State (glob started)
                 (wattroff (Platform := plain) 1 num (world started))).
Proof.
  destruct (attr_token_sign (P := plain) "zcurses" 1 "bold" 0 started)
    as (num & Hnum & _ & _ & Hoff).
  - unfold zcurses_attrgetfn. apply list_elem_of_In. simpl. tauto.
  - exists num. split; [exact Hnum|exact Hoff].
Defined.

(** [zcurses scroll w on] in a session with a window "w". *)
Lemma scroll_on_off_witness :
  exists st',
    zccmd_scroll (P := plain) "zcurses" ["w"; "on"] started_w
      = Some (0, st') /\
    exists zw',
      zcurses_windows (glob st') !! 1%nat = Some zw' /\
      has_flag (flags zw') ZCWF_SCROLL = true.
Proof.
  destruct (scroll_on_off_sets_the_flag (P := plain) "zcurses" ["w"; "on"]
              "w" true started_w 1%nat (ZCWin 6 "w" 0))
    as (st' & Hrun & _ & _ & Hok);
    [reflexivity|reflexivity|discriminate|reflexivity|reflexivity|].
  destruct Hok as (zw' & Hzw' & _ & _ & _ & Hfl & _); [discriminate|].
  exists st'. split; [exact Hrun|]. exists zw'. split; [exact Hzw'|exact Hfl].
Defined.

(** The character "a" is read: the second parameter is set to the empty
    string. *)
Lemma input_character_witness :
  let key := (WGET_OK, 97) in
  exists symbol st',
    zccmd_input (P := with_key key) "zcurses" ["stdscr"; "k"; "kp"]
      (key_session key) = Some (0, st') /\
    symbol = "".
Proof.
  cbv zeta.
  destruct (input_sets_character_or_key
              (P := with_key (WGET_OK, 97))
              "zcurses" ["stdscr"; "k"; "kp"]
              (key_session (WGET_OK, 97)) 0%nat
              (State (set_zc_errno 0 (glob (key_session (WGET_OK, 97))))
                 (world (key_session (WGET_OK, 97))))
              (ZCWin 1 "stdscr" ZCWF_PERMANENT) "k" "kp"
              (String "a" (String zero EmptyString)) (-1)
              (State (set_zc_errno 0 (glob (key_session (WGET_OK, 97))))
                 (world (key_session (WGET_OK, 97))
                  ++ [Ev_keypad 1 true; Ev_read 1])))
    as (symbol & Hrun & _ & Hchar & _);
    [reflexivity|reflexivity|reflexivity|reflexivity|reflexivity
    |reflexivity|].
  exists symbol. eexists. split; [|apply Hchar; discriminate].
  rewrite Hrun. rewrite (Hchar ltac:(discriminate)). reflexivity.
Defined.

(** [zcurses move nowin 1 2] in a session. *)
Lemma unknown_window_witness :
  zccmd_move (P := plain) (T := plain_terminal) "zcurses"
    ["nowin"; "1"; "2"] started =
  Some (1, State (set_zc_errno ZCURSES_EUNDEFINED (glob started))
             (zwarnnam (Platform := plain) "zcurses"
                "window undefined: nowin" (world started))).
Proof.
  destruct (unknown_window_is_reported_alike (P := plain)
              (T := plain_terminal) Zc_move "zcurses" ["nowin"; "1"; "2"]
              "nowin" started) as [_ H].
  - unfold window_subcommands. apply list_elem_of_In. simpl. tauto.
  - reflexivity.
  - apply H; [discriminate|reflexivity].
Defined.

(** [zcurses end] after [zcurses init]. *)
Lemma end_then_init_witness :
  zccmd_endwin (P := plain) "zcurses" [] started =
    Some (0, State (glob started)
               (world started
                ++ [Ev_endwin; Ev_settyinfo; Ev_save_shttyinfo])).
Proof.
  destruct (end_then_init_resumes (P := plain) "zcurses" [] "zcurses" []
              "zcurses" [] plain_boot started) as [Hend _].
  - reflexivity.
  - rewrite Hend. reflexivity.
Defined.

(** [zcurses delwin stdscr] fails and the windows are what they were. *)
Lemma failed_call_witness :
  zcurses_windows
    (glob (State (glob started)
             (world started
              ++ [Ev_zwarnnam "zcurses" "window `stdscr' can't be deleted"])))
  = zcurses_windows (glob started).
Proof.
  apply (failed_call_keeps_window_list (P := plain) (T := plain_terminal)
           "zcurses" ["delwin"; "stdscr"] started).
  reflexivity.
Defined.
